(** * GamepadPS2: NES controller to PS/2 keyboard adapter

    A shallow embedding of [GamepadPS2.ino].  The sketch keeps all of its
    state in global variables; here they are the fields of one record and
    every function of the sketch is a transformer of that record.  Calls to
    the board's primitives that have an observable effect (a byte put on
    the PS/2 wire, a write to the EEPROM cell, a [delay] in milliseconds)
    are logged in order in the [trace] field.  Values read from the outside
    (the microsecond clock, the controller's data line) are inputs of
    [loop].  The pin writes and microsecond pauses of [readNES] and
    [safeWrite] are left out, and so is the serial output, which the sketch
    compiles only with DEBUG set. *)

From Stdlib Require Import ZArith Lia Bool List.
From Stdlib Require String.
From stdpp Require Import base list.
Import ListNotations.
Import String.StringSyntax.
Delimit Scope string_scope with string.
Local Open Scope Z_scope.

(** ** Constants of the sketch *)

Definition NO_KEY : Z := 0x00.
Definition PAUSE_CODE : Z := 0xFE.
Definition EEPROM_ADDR : Z := 0.
Definition LAYOUT_COUNT : Z := 4.
Definition EVENT_INTERVAL_US : Z := 2500.
Definition QUEUE_SIZE : Z := 64.
Definition BUTTON_COUNT : nat := 8.

Definition PS2_A : Z := 0x1C.
Definition PS2_B : Z := 0x32.
Definition PS2_Q : Z := 0x15.
Definition PS2_M : Z := 0x3A.
Definition PS2_N : Z := 0x31.
Definition PS2_O : Z := 0x44.
Definition PS2_P : Z := 0x4D.
Definition PS2_0 : Z := 0x45.
Definition PS2_1 : Z := 0x16.
Definition PS2_2 : Z := 0x1E.
Definition PS2_3 : Z := 0x26.
Definition PS2_4 : Z := 0x25.
Definition PS2_5 : Z := 0x2E.
Definition PS2_6 : Z := 0x36.
Definition PS2_7 : Z := 0x3D.
Definition PS2_8 : Z := 0x3E.
Definition PS2_9 : Z := 0x46.
Definition PS2_ESC : Z := 0x76.
Definition PS2_F1 : Z := 0x05.
Definition PS2_ENTER : Z := 0x5A.
Definition PS2_EXT_LEFT : Z := 0x6B.
Definition PS2_EXT_RIGHT : Z := 0x74.
Definition PS2_EXT_UP : Z := 0x75.
Definition PS2_EXT_DOWN : Z := 0x72.

(** ** Machine integers and C truth values *)

(** Conversion to [uint8_t]. *)
Definition u8 (x : Z) : Z := x mod 256.

(** Conversion to [unsigned long] (32 bits on the ATmega328P). *)
Definition u32 (x : Z) : Z := x mod 2 ^ 32.

(** C's [!x] on an integer. *)
Definition lnot (x : Z) : bool := x =? 0.

(** An integer used as a condition. *)
Definition truthy (x : Z) : bool := negb (x =? 0).

(** A [bool] promoted to [int]. *)
Definition b2z (b : bool) : Z := if b then 1 else 0.

(** ** Global state *)

Inductive Event : Type :=
| WireByte (b : Z)            (* keyboard.write(b) inside safeWrite *)
| EepromWrite (addr b : Z)    (* EEPROM.write(addr, b) *)
| Delay (ms : Z).             (* delay(ms) *)

Record State : Type := mkState {
  queue : list Z;             (* uint8_t queue[QUEUE_SIZE] *)
  qHead : Z;
  qTail : Z;
  lastSendTime : Z;
  buttonState : list bool;    (* bool buttonState[BUTTON_COUNT] *)
  layout : Z;
  swapAB : bool;
  selectMode : bool;
  lastNesState : Z;
  eeprom : Z;                 (* the EEPROM cell at EEPROM_ADDR *)
  trace : list Event          (* effects performed so far, oldest first *)
}.

Definition set_queue (v : list Z) (s : State) : State :=
  mkState v (qHead s) (qTail s) (lastSendTime s) (buttonState s) (layout s)
          (swapAB s) (selectMode s) (lastNesState s) (eeprom s) (trace s).
Definition set_qHead (v : Z) (s : State) : State :=
  mkState (queue s) v (qTail s) (lastSendTime s) (buttonState s) (layout s)
          (swapAB s) (selectMode s) (lastNesState s) (eeprom s) (trace s).
Definition set_qTail (v : Z) (s : State) : State :=
  mkState (queue s) (qHead s) v (lastSendTime s) (buttonState s) (layout s)
          (swapAB s) (selectMode s) (lastNesState s) (eeprom s) (trace s).
Definition set_lastSendTime (v : Z) (s : State) : State :=
  mkState (queue s) (qHead s) (qTail s) v (buttonState s) (layout s)
          (swapAB s) (selectMode s) (lastNesState s) (eeprom s) (trace s).
Definition set_buttonState (v : list bool) (s : State) : State :=
  mkState (queue s) (qHead s) (qTail s) (lastSendTime s) v (layout s)
          (swapAB s) (selectMode s) (lastNesState s) (eeprom s) (trace s).
Definition set_layout (v : Z) (s : State) : State :=
  mkState (queue s) (qHead s) (qTail s) (lastSendTime s) (buttonState s) v
          (swapAB s) (selectMode s) (lastNesState s) (eeprom s) (trace s).
Definition set_swapAB (v : bool) (s : State) : State :=
  mkState (queue s) (qHead s) (qTail s) (lastSendTime s) (buttonState s)
          (layout s) v (selectMode s) (lastNesState s) (eeprom s) (trace s).
Definition set_selectMode (v : bool) (s : State) : State :=
  mkState (queue s) (qHead s) (qTail s) (lastSendTime s) (buttonState s)
          (layout s) (swapAB s) v (lastNesState s) (eeprom s) (trace s).
Definition set_lastNesState (v : Z) (s : State) : State :=
  mkState (queue s) (qHead s) (qTail s) (lastSendTime s) (buttonState s)
          (layout s) (swapAB s) (selectMode s) v (eeprom s) (trace s).
Definition set_eeprom (v : Z) (s : State) : State :=
  mkState (queue s) (qHead s) (qTail s) (lastSendTime s) (buttonState s)
          (layout s) (swapAB s) (selectMode s) (lastNesState s) v (trace s).
Definition emit (e : Event) (s : State) : State :=
  mkState (queue s) (qHead s) (qTail s) (lastSendTime s) (buttonState s)
          (layout s) (swapAB s) (selectMode s) (lastNesState s) (eeprom s)
          (trace s ++ [e]).

(** The globals as the sketch initialises them; the EEPROM cell holds
    whatever was stored before power-up. *)
Definition initState (stored : Z) : State :=
  mkState (replicate 64 0) 0 0 0 (replicate BUTTON_COUNT false)
          2 false false 0xFF stored [].

(** ** Commands *)

Definition Cmd : Type := State -> State.

Definition skip : Cmd := fun s => s.
Definition seqc (c1 c2 : Cmd) : Cmd := fun s => c2 (c1 s).
Notation "c1 ;> c2" := (seqc c1 c2) (at level 62, right associativity).
Definition when (b : bool) (c : Cmd) : Cmd := if b then c else skip.

(** [for (int i = 0; i < n; i++) body(i)] *)
Definition for_range (n : nat) (body : nat -> Cmd) : Cmd :=
  fun s => fold_left (fun acc i => body i acc) (seq 0 n) s.

(** [buttonState[i] = v] and [queue[i] = b]; an index outside the array
    (undefined in C) leaves it as it is. *)
Definition setButton (i : nat) (v : bool) : Cmd :=
  fun s => set_buttonState (<[i := v]> (buttonState s)) s.
Definition storeQueue (i : Z) (b : Z) : Cmd :=
  fun s => set_queue (<[Z.to_nat i := b]> (queue s)) s.

(** ** Board primitives *)

Definition delay (ms : Z) : Cmd := emit (Delay ms).

Definition EEPROM_write (addr b : Z) : Cmd :=
  set_eeprom b ;> emit (EepromWrite addr b).

Definition EEPROM_read (s : State) : Z := eeprom s.

(** ** Layout tables
    Button order: [0]A, [1]B, [2]Select, [3]Start, [4]Up, [5]Down,
    [6]Left, [7]Right. *)

Definition nesBitIndex : list Z := [0; 1; 2; 3; 4; 5; 6; 7].

Definition layout_QAOPM : list Z :=
  [PS2_M; PS2_Q; PS2_ESC; PAUSE_CODE; PS2_Q; PS2_A; PS2_O; PS2_P].
Definition layout_QAOPM_ext : list bool :=
  [false; false; false; false; false; false; false; false].

Definition layout_LeftSinclair : list Z :=
  [PS2_5; PS2_4; PS2_ESC; PAUSE_CODE; PS2_4; PS2_3; PS2_1; PS2_2].
Definition layout_LeftSinclair_ext : list bool :=
  [false; false; false; false; false; false; false; false].

Definition layout_RightSinclair : list Z :=
  [PS2_0; PS2_9; PS2_ESC; PAUSE_CODE; PS2_9; PS2_8; PS2_6; PS2_7].
Definition layout_RightSinclair_ext : list bool :=
  [false; false; false; false; false; false; false; false].

Definition layout_Emulator : list Z :=
  [PS2_2; PS2_3; PS2_F1; PS2_ENTER;
   PS2_EXT_UP; PS2_EXT_DOWN; PS2_EXT_LEFT; PS2_EXT_RIGHT].
Definition layout_Emulator_ext : list bool :=
  [false; false; false; false; true; true; true; true].

Definition layouts : list (list Z) :=
  [layout_QAOPM; layout_LeftSinclair; layout_RightSinclair; layout_Emulator].

Definition extFlags : list (list bool) :=
  [layout_QAOPM_ext; layout_LeftSinclair_ext; layout_RightSinclair_ext;
   layout_Emulator_ext].

(** [layouts[l]] and [extFlags[l]].  The sketch only ever indexes them
    with [l < LAYOUT_COUNT]; outside that range (undefined in C) the
    lookup yields the empty table. *)
Definition keysOf (l : Z) : list Z := layouts !!! Z.to_nat l.
Definition extOf (l : Z) : list bool := extFlags !!! Z.to_nat l.

(** ** Queue functions *)

Definition enqueue (b : Z) : Cmd := fun s =>
  let next := u8 ((qHead s + 1) mod QUEUE_SIZE) in
  if negb (next =? qTail s) then
    (storeQueue (qHead s) b ;> set_qHead next) s
  else s.

Definition PAUSE_SEQ : list Z := [0xE1; 0x14; 0x77; 0xE1; 0xF0; 0x14; 0xF0; 0x77].

Definition enqueuePause : Cmd := fun s =>
  let free := u8 (if qTail s >? qHead s
                  then qTail s - qHead s - 1
                  else QUEUE_SIZE - (qHead s - qTail s) - 1) in
  if free >=? 8 then
    for_range 8 (fun (i : nat) (s : State) =>
      let n := u8 ((qHead s + 1) mod QUEUE_SIZE) in
      (storeQueue (qHead s) (PAUSE_SEQ !!! i) ;> set_qHead n) s) s
  else s.

(** [safeWrite] spins until the host releases both lines and then clocks
    the byte out; the spin-waits depend on the host alone and are taken
    to end. *)
Definition safeWrite (b : Z) : Cmd := emit (WireByte b).

(** [now1] and [now2] are the two readings of [micros()]. *)
Definition processQueue (now1 now2 : Z) : Cmd := fun s =>
  if qHead s =? qTail s then s
  else if u32 (now1 - lastSendTime s) <? EVENT_INTERVAL_US then s
  else
    (safeWrite (queue s !!! Z.to_nat (qTail s)) ;>
     set_qTail (u8 ((qTail s + 1) mod QUEUE_SIZE)) ;>
     set_lastSendTime now2) s.

(** ** NES read
    [data i] is the level of the data line at the [i]-th shift. *)
Definition readNES (data : nat -> bool) : Z :=
  fold_left (fun state i =>
               if data i then u8 (Z.lor state (Z.shiftl 1 (Z.of_nat i)))
               else state)
            (seq 0 8) 0.

(** ** PS/2 send functions *)

Definition sendMake (code : Z) (ext : bool) : Cmd :=
  if code =? NO_KEY then skip
  else if code =? PAUSE_CODE then enqueuePause
  else when ext (enqueue 0xE0) ;> enqueue code.

Definition sendBreak (code : Z) (ext : bool) : Cmd :=
  if code =? NO_KEY then skip
  else if code =? PAUSE_CODE then skip
  else when ext (enqueue 0xE0) ;> enqueue 0xF0 ;> enqueue code.

Definition releaseAll (keys : list Z) (ext : list bool) : Cmd :=
  for_range BUTTON_COUNT (fun (i : nat) (s : State) =>
    if (buttonState s !!! i : bool) then
      (sendBreak (keys !!! i) (ext !!! i) ;> setButton i false) s
    else s).

(** ** EEPROM functions
    Byte structure: [1:0]=Layout, [2]=SwapAB, [7:3]=Reserved *)

Definition saveConfig : Cmd := fun s =>
  let configByte := u8 (Z.lor (layout s) (Z.shiftl (b2z (swapAB s)) 2)) in
  EEPROM_write EEPROM_ADDR configByte s.

Definition loadConfig : Cmd := fun s =>
  let configByte := EEPROM_read s in
  let loadedLayout := u8 (Z.land configByte 0x03) in
  if loadedLayout <? LAYOUT_COUNT then
    (set_layout loadedLayout ;>
     set_swapAB (truthy (Z.land (Z.shiftr configByte 2) 0x01))) s
  else
    (set_layout 2 ;> set_swapAB false ;> saveConfig) s.

(** ** Main loop *)

Record Inputs : Type := mkInputs {
  micros1 : Z;                (* micros() at the interval test *)
  micros2 : Z;                (* micros() after a byte was sent *)
  nes_data : nat -> bool      (* the data line during readNES() *)
}.

(** The value of [pressed] for button [i]. *)
Definition buttonPressed (logicA logicB : bool) (state : Z) (i : nat) : bool :=
  let bitIndex := nesBitIndex !!! i in
  if (i =? 0)%nat then logicA
  else if (i =? 1)%nat then logicB
  else lnot (Z.land state (Z.shiftl 1 bitIndex)).

(** The [for] loop of the "Normal Operation" block. *)
Definition edgeDetect (keys : list Z) (ext : list bool) (state : Z) : Cmd :=
  fun s =>
  let physA := lnot (Z.land state 0x01) in
  let physB := lnot (Z.land state 0x02) in
  let logicA := if swapAB s then physB else physA in
  let logicB := if swapAB s then physA else physB in
  for_range BUTTON_COUNT (fun (i : nat) (s : State) =>
    let pressed := buttonPressed logicA logicB state i in
    if pressed && negb (buttonState s !!! i) then
      (sendMake (keys !!! i) (ext !!! i) ;> setButton i true) s
    else if negb pressed && (buttonState s !!! i) then
      (sendBreak (keys !!! i) (ext !!! i) ;> setButton i false) s
    else s) s.

(** The "Normal Operation" block up to the end of [loop]. *)
Definition normalOperation (keys : list Z) (ext : list bool) (state : Z) : Cmd :=
  edgeDetect keys ext state ;> set_lastNesState state.

(** The D-pad chain of configuration mode; the flag is [layoutChanged]. *)
Definition selectLayout (state : Z) (s : State) : State * bool :=
  if lnot (Z.land state (Z.shiftl 1 5)) then (set_layout 0 s, true)
  else if lnot (Z.land state (Z.shiftl 1 6)) then (set_layout 1 s, true)
  else if lnot (Z.land state (Z.shiftl 1 7)) then (set_layout 2 s, true)
  else if lnot (Z.land state (Z.shiftl 1 4)) then (set_layout 3 s, true)
  else (s, false).

Definition loop (inp : Inputs) : Cmd := fun s0 =>
  let s1 := processQueue (micros1 inp) (micros2 inp) s0 in
  let state := readNES (nes_data inp) in
  let keys := keysOf (layout s1) in
  let ext := extOf (layout s1) in
  (* SELECT mode detection *)
  let selectPressed := lnot (Z.land state (Z.shiftl 1 2)) in
  let s2 := if selectPressed && negb (selectMode s1)
            then (set_selectMode true ;> releaseAll keys ext) s1
            else s1 in
  let s3 := if negb selectPressed && selectMode s2
            then set_selectMode false s2
            else s2 in
  (* configuration mode logic *)
  if selectMode s3 then
    let aPressed := lnot (Z.land state (Z.shiftl 1 0))
                    && truthy (Z.land (lastNesState s3) (Z.shiftl 1 0)) in
    let bPressed := lnot (Z.land state (Z.shiftl 1 1))
                    && truthy (Z.land (lastNesState s3) (Z.shiftl 1 1)) in
    if aPressed then
      (set_swapAB false ;> saveConfig ;> delay 300 ;>
       normalOperation keys ext state) s3
    else if bPressed then
      (set_swapAB true ;> saveConfig ;> delay 300 ;>
       normalOperation keys ext state) s3
    else
      let '(s4, layoutChanged) := selectLayout state s3 in
      if layoutChanged then
        (releaseAll keys ext ;>
         for_range BUTTON_COUNT (fun i => setButton i false) ;>
         saveConfig ;> delay 300 ;>
         set_lastNesState state) s4          (* return *)
      else normalOperation keys ext state s4
  else normalOperation keys ext state s3.

(** [setup()], as far as the globals go. *)
Definition setup : Cmd := loadConfig.

(** ** The runtime
    The Arduino core calls [setup()] once after power-up and then [loop()]
    for ever.  [cycles] runs one [loop] per element of a list of inputs;
    [run] does so from power-up with [stored] in the EEPROM cell. *)
Definition cycles (inps : list Inputs) : Cmd :=
  fun s => fold_left (fun acc inp => loop inp acc) inps s.

Definition run (stored : Z) (inps : list Inputs) : State :=
  cycles inps (setup (initState stored)).

(** ** Debug functions
    Compiled only with DEBUG set; [getKeyName] is a pure function of the
    key code.  The [switch] is written as the chain of its cases, in the
    order of the source. *)
Definition getKeyName (c : Z) : String.string :=
  if c =? NO_KEY then "NONE"%string
  else if c =? PAUSE_CODE then "PAUSE"%string
  else if c =? PS2_Q then "Q"%string
  else if c =? PS2_A then "A"%string
  else if c =? PS2_O then "O"%string
  else if c =? PS2_P then "P"%string
  else if c =? PS2_M then "M"%string
  else if c =? PS2_N then "N"%string
  else if c =? PS2_ESC then "ESC"%string
  else if c =? PS2_F1 then "F1"%string
  else if c =? PS2_1 then "1"%string
  else if c =? PS2_2 then "2"%string
  else if c =? PS2_3 then "3"%string
  else if c =? PS2_4 then "4"%string
  else if c =? PS2_5 then "5"%string
  else if c =? PS2_6 then "6"%string
  else if c =? PS2_7 then "7"%string
  else if c =? PS2_8 then "8"%string
  else if c =? PS2_9 then "9"%string
  else if c =? PS2_0 then "0"%string
  else if c =? PS2_ENTER then "ENTER"%string
  else if c =? PS2_EXT_LEFT then "LEFT"%string
  else if c =? PS2_EXT_RIGHT then "RIGHT"%string
  else if c =? PS2_EXT_DOWN then "DOWN"%string
  else if c =? PS2_EXT_UP then "UP"%string
  else "UNK"%string.

(** * Vocabulary of the properties *)

(** ** The queue seen as a sequence of bytes *)

(** The three globals that make up the output queue. *)
Definition ring (s : State) : list Z * Z * Z := (queue s, qHead s, qTail s).

(** Everything but the queue and [buttonState]. *)
Definition config (s : State) :=
  (lastSendTime s, layout s, swapAB s, selectMode s, lastNesState s,
   eeprom s, trace s).

(** Well-formed queue: a 64-slot array and both indices inside it. *)
Definition wfq (s : State) : Prop :=
  length (queue s) = 64%nat /\ 0 <= qHead s < 64 /\ 0 <= qTail s < 64.

(** Number of bytes waiting, and the number of bytes that can still be
    accepted (one slot always stays empty). *)
Definition resident (s : State) : Z := (qHead s - qTail s) mod 64.
Definition freeSlots (s : State) : Z := 63 - resident s.

(** The bytes waiting in the queue, oldest first. *)
Definition contents (s : State) : list Z :=
  map (fun k => queue s !!! Z.to_nat ((qTail s + Z.of_nat k) mod 64))
      (seq 0 (Z.to_nat (resident s))).

(** Offering a list of bytes to the queue one [enqueue] at a time. *)
Definition enqueueAll (bs : list Z) : Cmd :=
  fun s => fold_left (fun acc b => enqueue b acc) bs s.

(** A state change that leaves the queue and the button states alone and
    commutes with the updates the queue functions make. *)
Record Frame (f : State -> State) : Prop := mkFrame {
  frame_ring : forall s, ring (f s) = ring s;
  frame_buttons : forall s, buttonState (f s) = buttonState s;
  frame_set_queue : forall q s, f (set_queue q s) = set_queue q (f s);
  frame_set_qHead : forall h s, f (set_qHead h s) = set_qHead h (f s);
  frame_set_buttonState :
    forall b s, f (set_buttonState b s) = set_buttonState b (f s)
}.

(** What holds of the globals in every state the sketch can reach. *)
Definition inv (s : State) : Prop :=
  wfq s /\ length (buttonState s) = BUTTON_COUNT /\ 0 <= layout s < 4.

(** ** Wire encodings *)

(** The wire encodings of a key press and of a key release. *)
Definition make_bytes (code : Z) (ext : bool) : list Z :=
  if code =? NO_KEY then []
  else if code =? PAUSE_CODE then PAUSE_SEQ
  else (if ext then [0xE0] else []) ++ [code].

Definition break_bytes (code : Z) (ext : bool) : list Z :=
  if code =? NO_KEY then []
  else if code =? PAUSE_CODE then []
  else (if ext then [0xE0] else []) ++ [0xF0; code].

(** The release encodings of the buttons flagged in [bs], among the first
    [n] buttons, in button order. *)
Definition release_upto (n : nat) (keys : list Z) (ext bs : list bool) : list Z :=
  concat (map (fun i : nat =>
                 if (bs !!! i : bool)
                 then break_bytes (keys !!! i) (ext !!! i) else [])
              (seq 0 n)).

Definition release_bytes (keys : list Z) (ext bs : list bool) : list Z :=
  release_upto BUTTON_COUNT keys ext bs.

(** The value of [pressed] for each of the eight buttons. *)
Definition pressedList (swap : bool) (state : Z) : list bool :=
  let physA := lnot (Z.land state 0x01) in
  let physB := lnot (Z.land state 0x02) in
  let logicA := if swap then physB else physA in
  let logicB := if swap then physA else physB in
  map (buttonPressed logicA logicB state) (seq 0 BUTTON_COUNT).

(** What one button contributes to the queue: a press encoding on a
    rising edge, a release encoding on a falling edge, nothing otherwise. *)
Definition edge_event (keys : list Z) (ext : list bool) (pressed cur : bool)
           (i : nat) : list Z :=
  if pressed && negb cur then make_bytes (keys !!! i) (ext !!! i)
  else if negb pressed && cur then break_bytes (keys !!! i) (ext !!! i)
  else [].

Definition edge_upto (n : nat) (keys : list Z) (ext ps bs : list bool) : list Z :=
  concat (map (fun i : nat => edge_event keys ext (ps !!! i) (bs !!! i) i)
              (seq 0 n)).

Definition edge_bytes (keys : list Z) (ext ps bs : list bool) : list Z :=
  edge_upto BUTTON_COUNT keys ext ps bs.

(** The edge-detection loop for given values of [pressed]. *)
Definition edgeLoop (ps : nat -> bool) (keys : list Z) (ext : list bool) : Cmd :=
  for_range BUTTON_COUNT (fun (i : nat) (s : State) =>
    let pressed := ps i in
    if pressed && negb (buttonState s !!! i) then
      (sendMake (keys !!! i) (ext !!! i) ;> setButton i true) s
    else if negb pressed && (buttonState s !!! i) then
      (sendBreak (keys !!! i) (ext !!! i) ;> setButton i false) s
    else s).

(** ** Masks and the phases of a cycle *)

(** Button [bit] is down in mask [m] (the controller is active-low). *)
Definition pressedIn (m bit : Z) : bool := negb (Z.testbit m bit).

(** Down in this cycle's mask and up in the previous one. *)
Definition freshPress (last state bit : Z) : bool :=
  pressedIn state bit && negb (pressedIn last bit).

(** The layout the D-pad chain of [loop] selects: a test of this cycle's
    mask alone, Down before Left before Right before Up. *)
Definition dirChoice (state : Z) : option Z :=
  if pressedIn state 5 then Some 0
  else if pressedIn state 6 then Some 1
  else if pressedIn state 7 then Some 2
  else if pressedIn state 4 then Some 3
  else None.

(** The state in which a cycle with Select released reaches "Normal
    Operation": the queue has been served and config mode is left. *)
Definition leaveSelect (s1 : State) : State :=
  if selectMode s1 then set_selectMode false s1 else s1.

(** The state in which a cycle with Select held reaches the
    configuration logic: on the rising edge of Select the keys that are
    down are released first. *)
Definition enterSelect (s1 : State) : State :=
  if selectMode s1 then s1
  else (set_selectMode true ;>
        releaseAll (keysOf (layout s1)) (extOf (layout s1))) s1.

(** The configuration logic of [loop] and what follows it. *)
Definition configCycle (keys : list Z) (ext : list bool) (state : Z) : Cmd :=
  fun s3 =>
  let aPressed := lnot (Z.land state (Z.shiftl 1 0))
                  && truthy (Z.land (lastNesState s3) (Z.shiftl 1 0)) in
  let bPressed := lnot (Z.land state (Z.shiftl 1 1))
                  && truthy (Z.land (lastNesState s3) (Z.shiftl 1 1)) in
  if aPressed then
    (set_swapAB false ;> saveConfig ;> delay 300 ;>
     normalOperation keys ext state) s3
  else if bPressed then
    (set_swapAB true ;> saveConfig ;> delay 300 ;>
     normalOperation keys ext state) s3
  else
    let '(s4, layoutChanged) := selectLayout state s3 in
    if layoutChanged then
      (releaseAll keys ext ;>
       for_range BUTTON_COUNT (fun i => setButton i false) ;>
       saveConfig ;> delay 300 ;>
       set_lastNesState state) s4
    else normalOperation keys ext state s4.

(** The outcome of a layout switch to [l], and of a configuration-mode
    cycle without one. *)
Definition switchedTo (l : Z) (s s1 s' : State) : Prop :=
  layout s' = l /\
  buttonState s' = replicate BUTTON_COUNT false /\
  eeprom s' = u8 (Z.lor l (Z.shiftl (b2z (swapAB s)) 2)) /\
  trace s' = trace s1 ++
             [EepromWrite EEPROM_ADDR
                (u8 (Z.lor l (Z.shiftl (b2z (swapAB s)) 2)));
              Delay 300].

Definition notSwitched (state : Z) (s s1 s' : State) : Prop :=
  layout s' = layout s /\
  eeprom s' = eeprom s /\
  trace s' = trace s1 /\
  buttonState s' = pressedList (swapAB s) state.

(** ** The wording of the specification *)

(** The keys named in the specification's table. *)
Inductive Key : Type :=
| KeyM | KeyQ | KeyA | KeyO | KeyP
| Key0 | Key1 | Key2 | Key3 | Key4 | Key5 | Key6 | Key7 | Key8 | Key9
| KeyEscape | KeyF1 | KeyEnter | KeySpecial
| ArrowUp | ArrowDown | ArrowLeft | ArrowRight.

Definition scanCode (k : Key) : Z :=
  match k with
  | KeyM => PS2_M | KeyQ => PS2_Q | KeyA => PS2_A | KeyO => PS2_O
  | KeyP => PS2_P
  | Key0 => PS2_0 | Key1 => PS2_1 | Key2 => PS2_2 | Key3 => PS2_3
  | Key4 => PS2_4 | Key5 => PS2_5 | Key6 => PS2_6 | Key7 => PS2_7
  | Key8 => PS2_8 | Key9 => PS2_9
  | KeyEscape => PS2_ESC | KeyF1 => PS2_F1 | KeyEnter => PS2_ENTER
  | KeySpecial => PAUSE_CODE
  | ArrowUp => PS2_EXT_UP | ArrowDown => PS2_EXT_DOWN
  | ArrowLeft => PS2_EXT_LEFT | ArrowRight => PS2_EXT_RIGHT
  end.

Definition isExtended (k : Key) : bool :=
  match k with
  | ArrowUp | ArrowDown | ArrowLeft | ArrowRight => true
  | _ => false
  end.

(** The table of the specification, one row per profile, the buttons in
    the order A, B, Select, Start, Up, Down, Left, Right. *)
Definition specTable : list (list Key) :=
  [ [KeyM; KeyQ; KeyEscape; KeySpecial; KeyQ; KeyA; KeyO; KeyP];
    [Key5; Key4; KeyEscape; KeySpecial; Key4; Key3; Key1; Key2];
    [Key0; Key9; KeyEscape; KeySpecial; Key9; Key8; Key6; Key7];
    [Key2; Key3; KeyF1; KeyEnter; ArrowUp; ArrowDown; ArrowLeft; ArrowRight] ].

(** The trigger as the specification words it: a fresh press of Down,
    Left, Right or Up. *)
Definition specDirChoice (last state : Z) : option Z :=
  if freshPress last state 5 then Some 0
  else if freshPress last state 6 then Some 1
  else if freshPress last state 7 then Some 2
  else if freshPress last state 4 then Some 3
  else None.

(** The property as the specification states it, for one cycle. *)
Definition freshPressTriggersSwitch (inp : Inputs) (s : State) : Prop :=
  let state := readNES (nes_data inp) in
  let s1 := processQueue (micros1 inp) (micros2 inp) s in
  pressedIn state 2 = true ->
  freshPress (lastNesState s) state 0 = false ->
  freshPress (lastNesState s) state 1 = false ->
  match specDirChoice (lastNesState s) state with
  | Some l => switchedTo l s s1 (loop inp s)
  | None => notSwitched state s s1 (loop inp s)
  end.

(** The property as the specification states it, for one cycle: after a
    fresh press of A or B the cycle returns once the delay is over, so
    edge detection touches neither the queue nor the button states. *)
Definition swapCycleReturns (inp : Inputs) (s : State) : Prop :=
  let state := readNES (nes_data inp) in
  let s1 := processQueue (micros1 inp) (micros2 inp) s in
  pressedIn state 2 = true ->
  freshPress (lastNesState s) state 0 = true \/
  freshPress (lastNesState s) state 1 = true ->
  ring (loop inp s) = ring (enterSelect s1) /\
  buttonState (loop inp s) = buttonState (enterSelect s1).

(** ** Example states and inputs *)

(** Power-on state with an empty queue. *)
Definition stateEmpty : State := initState 0x02.

(** A queue holding 63 bytes: no slot is free. *)
Definition stateFull : State :=
  mkState (replicate 64 0x1C) 63 0 0 (replicate BUTTON_COUNT false)
          2 false false 0xFF 0x02 [].

(** A queue holding 58 bytes: five slots are free. *)
Definition stateNearlyFull : State :=
  mkState (replicate 64 0x1C) 60 2 0 (replicate BUTTON_COUNT false)
          2 false false 0xFF 0x02 [].

Ltac wfq_concrete := unfold wfq; simpl; repeat split; lia.

(** The data line of a controller whose buttons are as in mask [m]. *)
Definition pinsOf (m : Z) : nat -> bool := fun i => Z.testbit m (Z.of_nat i).

(** Select alone, Select with Down, Select with A, Select with Down
    and A. *)
Definition inputsSelect : Inputs := mkInputs 0 0 (pinsOf 0xFB).
Definition inputsSelectDown : Inputs := mkInputs 0 0 (pinsOf 0xDB).
Definition inputsSelectA : Inputs := mkInputs 0 0 (pinsOf 0xFA).
Definition inputsSelectDownA : Inputs := mkInputs 0 0 (pinsOf 0xDA).

(** After power-on, one cycle with Select pressed: configuration mode is
    entered and the Select key's own code (Escape) has been reported. *)
Definition stateConfig : State := loop inputsSelect stateEmpty.

(** Then one cycle in which Down and A go down together: the fresh press
    of A takes the swap branch, so the layout is still 2 while Down is
    already held. *)
Definition stateHeld : State := loop inputsSelectDownA stateConfig.

(** ** Runs, clocks and persisted settings *)

(** The globals agree with what the EEPROM cell would load. *)
Definition synced (s : State) : Prop :=
  layout s = Z.land (eeprom s) 3 /\ swapAB s = Z.testbit (eeprom s) 2.

(** Successive calls of [processQueue], one per pair of clock readings. *)
Definition drains (ts : list (Z * Z)) : Cmd :=
  fun s => fold_left (fun acc t => processQueue (fst t) (snd t) acc) ts s.

(** Every call of a series finds the send interval elapsed, [last] being
    the time of the previous send. *)
Fixpoint allDue (last : Z) (ts : list (Z * Z)) : Prop :=
  match ts with
  | [] => True
  | t :: rest =>
      EVENT_INTERVAL_US <= u32 (fst t - last) /\ allDue (snd t) rest
  end.

(** The key codes [getKeyName] knows, with their names. *)
Definition keyNames : list (Z * String.string) :=
  [ (NO_KEY, "NONE"%string); (PAUSE_CODE, "PAUSE"%string);
    (PS2_Q, "Q"%string); (PS2_A, "A"%string); (PS2_O, "O"%string);
    (PS2_P, "P"%string); (PS2_M, "M"%string); (PS2_N, "N"%string);
    (PS2_ESC, "ESC"%string); (PS2_F1, "F1"%string);
    (PS2_1, "1"%string); (PS2_2, "2"%string); (PS2_3, "3"%string);
    (PS2_4, "4"%string); (PS2_5, "5"%string); (PS2_6, "6"%string);
    (PS2_7, "7"%string); (PS2_8, "8"%string); (PS2_9, "9"%string);
    (PS2_0, "0"%string); (PS2_ENTER, "ENTER"%string);
    (PS2_EXT_LEFT, "LEFT"%string); (PS2_EXT_RIGHT, "RIGHT"%string);
    (PS2_EXT_DOWN, "DOWN"%string); (PS2_EXT_UP, "UP"%string) ].

(** The logical slot a physical button drives. *)
Definition logicalSlot (swap : bool) (i : nat) : nat :=
  if swap then match i with 0%nat => 1%nat | 1%nat => 0%nat | _ => i end else i.

(** ** Further example states and inputs *)

(** A queue holding 62 bytes: one slot is free. *)
Definition stateOneFree : State :=
  mkState (replicate 64 0x1C) 62 0 0 (replicate BUTTON_COUNT false)
          2 false false 0xFF 0x02 [].

(** [stateConfig] a little before the microsecond clock wraps. *)
Definition stateLateClock : State := set_lastSendTime (2 ^ 32 - 1000) stateConfig.

(** A alone, B with Up, Up alone, Start alone, nothing. *)
Definition inputsA : Inputs := mkInputs 0 0 (pinsOf 0xFE).
Definition inputsBUp : Inputs := mkInputs 0 0 (pinsOf 0xED).
Definition inputsUp : Inputs := mkInputs 0 0 (pinsOf 0xEF).
Definition inputsStart : Inputs := mkInputs 0 0 (pinsOf 0xF7).
Definition inputsNone : Inputs := mkInputs 0 0 (pinsOf 0xFF).

(** After power-on, one cycle with A held; one cycle with B and Up held. *)
Definition stateAHeld : State := loop inputsA stateEmpty.
Definition stateBUp : State := loop inputsBUp stateEmpty.

(** Clock readings 2500 microseconds apart. *)
Definition threeSends : list (Z * Z) := [(2500, 2500); (5000, 5000); (7500, 7500)].

(** * Properties *)

(** ** Loops and sequencing *)

Lemma for_range_S (n : nat) (body : nat -> Cmd) (s : State) :
  for_range (S n) body s = body n (for_range n body s).
Proof.
  unfold for_range. rewrite seq_S, fold_left_app. reflexivity.
Qed.

Lemma for_range_ind (P : nat -> State -> Prop) (n : nat) (body : nat -> Cmd)
      (s : State) :
  P 0%nat s ->
  (forall i t, (i < n)%nat -> P i t -> P (S i) (body i t)) ->
  P n (for_range n body s).
Proof.
  intros H0 Hstep. induction n as [|n IH].
  - exact H0.
  - rewrite for_range_S. apply Hstep; [lia|].
    apply IH. intros i t Hi. apply Hstep. lia.
Qed.

Lemma for_range_ext (n : nat) (body1 body2 : nat -> Cmd) (s : State) :
  (forall i t, (i < n)%nat -> body1 i t = body2 i t) ->
  for_range n body1 s = for_range n body2 s.
Proof.
  intros Hext. induction n as [|n IH].
  - reflexivity.
  - rewrite !for_range_S, IH; [apply Hext; lia|].
    intros i t Hi. apply Hext. lia.
Qed.

Lemma for_range_commute (f : State -> State) (n : nat) (body : nat -> Cmd)
      (s : State) :
  (forall i t, (i < n)%nat -> body i (f t) = f (body i t)) ->
  for_range n body (f s) = f (for_range n body s).
Proof.
  intros Hc. induction n as [|n IH].
  - reflexivity.
  - rewrite !for_range_S, IH; [apply Hc; lia|].
    intros i t Hi. apply Hc. lia.
Qed.

(** ** Bits *)

Lemma lnot_land_bit (x i : Z) :
  0 <= i -> lnot (Z.land x (Z.shiftl 1 i)) = negb (Z.testbit x i).
Proof.
  intros Hi. unfold lnot. rewrite Z.shiftl_1_l.
  destruct (Z.testbit x i) eqn:E; simpl.
  - apply Z.eqb_neq. intros H0.
    assert (Hb : Z.testbit (Z.land x (2 ^ i)) i = true).
    { rewrite Z.land_spec, E, Z.pow2_bits_true by lia. reflexivity. }
    rewrite H0, Z.bits_0 in Hb. discriminate.
  - apply Z.eqb_eq. apply Z.bits_inj'. intros n Hn.
    rewrite Z.land_spec, Z.bits_0, Z.pow2_bits_eqb by lia.
    destruct (Z.eqb_spec i n) as [->|]; [rewrite E|]; auto using andb_false_r.
Qed.

Lemma truthy_land_bit (x i : Z) :
  0 <= i -> truthy (Z.land x (Z.shiftl 1 i)) = Z.testbit x i.
Proof.
  intros Hi. unfold truthy. change (Z.land x (Z.shiftl 1 i) =? 0)
    with (lnot (Z.land x (Z.shiftl 1 i))).
  rewrite lnot_land_bit by lia. apply negb_involutive.
Qed.

Lemma u8_small (x : Z) : 0 <= x < 256 -> u8 x = x.
Proof. intros H. unfold u8. apply Z.mod_small. lia. Qed.

(** ** The ring buffer *)

Lemma state_eq (s t : State) :
  ring s = ring t -> buttonState s = buttonState t -> config s = config t ->
  s = t.
Proof.
  destruct s, t. unfold ring, config. simpl. intros H1 H2 H3.
  inversion H1. inversion H3. subst. reflexivity.
Qed.

Lemma resident_range (s : State) : 0 <= resident s <= 63.
Proof. unfold resident. pose proof (Z.mod_pos_bound (qHead s - qTail s) 64). lia. Qed.

Lemma enqueue_frame (b : Z) (s : State) :
  buttonState (enqueue b s) = buttonState s /\ config (enqueue b s) = config s.
Proof. unfold enqueue. destruct (negb _); split; reflexivity. Qed.

Lemma enqueue_ring (b : Z) (s t : State) :
  ring s = ring t -> ring (enqueue b s) = ring (enqueue b t).
Proof.
  intros H. inversion H as [[Hq Hh Ht]]. unfold enqueue.
  rewrite Hh, Ht. destruct (negb _); [|exact H].
  unfold ring, seqc, storeQueue. simpl. congruence.
Qed.

Lemma enqueue_full (b : Z) (s : State) :
  wfq s -> resident s = 63 -> enqueue b s = s.
Proof.
  intros (_ & Hh & Ht) Hr. unfold enqueue, resident, QUEUE_SIZE in *.
  rewrite u8_small by (pose proof (Z.mod_pos_bound (qHead s + 1) 64); lia).
  replace ((qHead s + 1) mod 64 =? qTail s) with true; [reflexivity|].
  symmetry. apply Z.eqb_eq. Z.div_mod_to_equations. lia.
Qed.

Lemma enqueue_room (b : Z) (s : State) :
  wfq s -> resident s < 63 ->
  wfq (enqueue b s) /\
  resident (enqueue b s) = resident s + 1 /\
  contents (enqueue b s) = contents s ++ [b].
Proof.
  intros (Hl & Hh & Ht) Hr.
  assert (Hn : 0 <= (qHead s + 1) mod 64 < 64) by (apply Z.mod_pos_bound; lia).
  assert (Hne : (qHead s + 1) mod 64 <> qTail s).
  { unfold resident in Hr. Z.div_mod_to_equations. lia. }
  unfold enqueue, QUEUE_SIZE. rewrite u8_small by lia.
  apply Z.eqb_neq in Hne. rewrite Hne. simpl.
  assert (Hr' : ((qHead s + 1) mod 64 - qTail s) mod 64 = resident s + 1).
  { unfold resident in *. Z.div_mod_to_equations. lia. }
  split; [|split].
  - unfold wfq, seqc, storeQueue. simpl. rewrite length_insert. lia.
  - unfold resident at 1, seqc, storeQueue. simpl. exact Hr'.
  - unfold contents, resident at 1, seqc, storeQueue. simpl. rewrite Hr'.
    pose proof (resident_range s) as Hrr.
    replace (Z.to_nat (resident s + 1)) with (S (Z.to_nat (resident s))) by lia.
    rewrite seq_S, map_app. simpl. f_equal.
    + apply map_ext_in. intros k Hk. apply in_seq in Hk.
      apply list_lookup_total_insert_ne.
      unfold resident in *. Z.div_mod_to_equations. lia.
    + f_equal. rewrite Z2Nat.id by lia.
      replace ((qTail s + resident s) mod 64) with (qHead s)
        by (unfold resident; Z.div_mod_to_equations; lia).
      apply list_lookup_total_insert_eq. lia.
Qed.

Lemma enqueue_store (b : Z) (s : State) :
  wfq s -> resident s < 63 ->
  enqueue b s =
  (storeQueue (qHead s) b ;> set_qHead (u8 ((qHead s + 1) mod QUEUE_SIZE))) s.
Proof.
  intros (_ & Hh & Ht) Hr. unfold enqueue.
  replace (negb (u8 ((qHead s + 1) mod QUEUE_SIZE) =? qTail s)) with true;
    [reflexivity|].
  symmetry. apply negb_true_iff, Z.eqb_neq. unfold QUEUE_SIZE.
  rewrite u8_small by (pose proof (Z.mod_pos_bound (qHead s + 1) 64); lia).
  unfold resident in Hr. Z.div_mod_to_equations. lia.
Qed.

Lemma enqueue_wfq (b : Z) (s : State) : wfq s -> wfq (enqueue b s).
Proof.
  intros Hw. pose proof (resident_range s) as Hr.
  destruct (Z.eq_dec (resident s) 63) as [E|E].
  - rewrite enqueue_full by assumption. exact Hw.
  - apply enqueue_room; [assumption|lia].
Qed.

Lemma enqueueAll_app (bs1 bs2 : list Z) (s : State) :
  enqueueAll (bs1 ++ bs2) s = enqueueAll bs2 (enqueueAll bs1 s).
Proof. unfold enqueueAll. apply fold_left_app. Qed.

Lemma enqueueAll_frame (bs : list Z) (s : State) :
  buttonState (enqueueAll bs s) = buttonState s /\
  config (enqueueAll bs s) = config s.
Proof.
  revert s. induction bs as [|b bs IH]; intros s; [split; reflexivity|].
  change (enqueueAll (b :: bs) s) with (enqueueAll bs (enqueue b s)).
  destruct (IH (enqueue b s)) as [-> ->]. apply enqueue_frame.
Qed.

Lemma enqueueAll_ring (bs : list Z) (s t : State) :
  ring s = ring t -> ring (enqueueAll bs s) = ring (enqueueAll bs t).
Proof.
  revert s t. induction bs as [|b bs IH]; intros s t H; [exact H|].
  change (ring (enqueueAll bs (enqueue b s)) = ring (enqueueAll bs (enqueue b t))).
  apply IH, enqueue_ring, H.
Qed.

Lemma enqueueAll_wfq (bs : list Z) (s : State) : wfq s -> wfq (enqueueAll bs s).
Proof.
  revert s. induction bs as [|b bs IH]; intros s H; [exact H|].
  apply (IH (enqueue b s)), enqueue_wfq, H.
Qed.

Lemma enqueueAll_room (bs : list Z) (s : State) :
  wfq s -> Z.of_nat (length bs) <= freeSlots s ->
  wfq (enqueueAll bs s) /\
  resident (enqueueAll bs s) = resident s + Z.of_nat (length bs) /\
  contents (enqueueAll bs s) = contents s ++ bs.
Proof.
  unfold freeSlots. revert s. induction bs as [|b bs IH]; intros s Hw Hr.
  - simpl. rewrite app_nil_r. repeat split; try apply Hw. lia.
  - change (enqueueAll (b :: bs) s) with (enqueueAll bs (enqueue b s)).
    simpl length in *.
    destruct (enqueue_room b s Hw) as (Hw1 & Hr1 & Hc1); [lia|].
    destruct (IH (enqueue b s) Hw1) as (Hw2 & Hr2 & Hc2); [lia|].
    rewrite Hr2, Hc2, Hr1, Hc1, <- app_assoc. repeat split; try apply Hw2. lia.
Qed.

Lemma sendBreak_enqueueAll (code : Z) (ext : bool) (s : State) :
  sendBreak code ext s = enqueueAll (break_bytes code ext) s.
Proof.
  unfold sendBreak, break_bytes.
  destruct (code =? NO_KEY); [reflexivity|].
  destruct (code =? PAUSE_CODE); [reflexivity|].
  destruct ext; reflexivity.
Qed.

Lemma enqueuePause_free (s : State) :
  wfq s ->
  u8 (if qTail s >? qHead s
      then qTail s - qHead s - 1
      else QUEUE_SIZE - (qHead s - qTail s) - 1) = freeSlots s.
Proof.
  intros (_ & Hh & Ht). unfold freeSlots, resident, QUEUE_SIZE.
  destruct (Z.gtb_spec (qTail s) (qHead s)); rewrite u8_small;
    Z.div_mod_to_equations; lia.
Qed.

Lemma enqueuePause_enqueueAll (s : State) :
  wfq s ->
  enqueuePause s = if 8 <=? freeSlots s then enqueueAll PAUSE_SEQ s else s.
Proof.
  intros Hw. unfold enqueuePause. rewrite enqueuePause_free by assumption.
  rewrite Z.geb_leb. destruct (Z.leb_spec 8 (freeSlots s)) as [Hf|Hf];
    [|reflexivity].
  set (body := fun (i : nat) (s : State) => _).
  enough (H : forall n, (n <= 8)%nat ->
             for_range n body s = enqueueAll (take n PAUSE_SEQ) s /\
             wfq (for_range n body s) /\
             resident (for_range n body s) = resident s + Z.of_nat n).
  { destruct (H 8%nat) as [-> _]; [lia|reflexivity]. }
  induction n as [|n IH]; intros Hn.
  - change (for_range 0 body s) with s.
    split; [reflexivity|split; [exact Hw|lia]].
  - destruct IH as (IH1 & IH2 & IH3); [lia|].
    rewrite for_range_S.
    assert (Hb : body n (for_range n body s)
                 = enqueue (PAUSE_SEQ !!! n) (for_range n body s)).
    { symmetry. apply enqueue_store; [exact IH2|].
      unfold freeSlots in Hf. lia. }
    rewrite Hb.
    destruct (enqueue_room (PAUSE_SEQ !!! n) _ IH2) as (Hw' & Hr' & _);
      [unfold freeSlots in Hf; lia|].
    split; [|split; [exact Hw'|lia]].
    rewrite IH1.
    assert (Ht : take (S n) PAUSE_SEQ = take n PAUSE_SEQ ++ [PAUSE_SEQ !!! n]).
    { do 8 (destruct n as [|n]; [reflexivity|]). lia. }
    rewrite Ht, enqueueAll_app. reflexivity.
Qed.

Lemma sendMake_enqueueAll (code : Z) (ext : bool) (s : State) :
  wfq s ->
  sendMake code ext s =
  if (code =? PAUSE_CODE) && negb (8 <=? freeSlots s) then s
  else enqueueAll (make_bytes code ext) s.
Proof.
  intros Hw. unfold sendMake, make_bytes.
  destruct (Z.eqb_spec code NO_KEY) as [->|_]; [reflexivity|].
  destruct (code =? PAUSE_CODE); cbn [andb].
  - rewrite enqueuePause_enqueueAll by assumption.
    destruct (8 <=? freeSlots s); cbn [negb]; reflexivity.
  - destruct ext; reflexivity.
Qed.

(** [processQueue] either leaves the state alone or sends the oldest
    byte and removes it. *)
Lemma processQueue_cases (now1 now2 : Z) (s : State) :
  wfq s ->
  processQueue now1 now2 s = s \/
  (wfq (processQueue now1 now2 s) /\
   resident (processQueue now1 now2 s) = resident s - 1 /\
   (exists b, contents s = b :: contents (processQueue now1 now2 s) /\
              trace (processQueue now1 now2 s) = trace s ++ [WireByte b])).
Proof.
  intros (Hl & Hh & Ht). unfold processQueue.
  destruct (Z.eqb_spec (qHead s) (qTail s)) as [|Hne]; [left; reflexivity|].
  destruct (_ <? _); [left; reflexivity|]. right.
  assert (Hn : 0 <= (qTail s + 1) mod 64 < 64) by (apply Z.mod_pos_bound; lia).
  assert (Hr : (qHead s - (qTail s + 1) mod 64) mod 64 = resident s - 1).
  { unfold resident. Z.div_mod_to_equations. lia. }
  assert (Hpos : 0 < resident s).
  { unfold resident. Z.div_mod_to_equations. lia. }
  unfold seqc, safeWrite, QUEUE_SIZE. rewrite u8_small by lia.
  split; [|split].
  - unfold wfq. simpl. lia.
  - unfold resident at 1. simpl. exact Hr.
  - exists (queue s !!! Z.to_nat (qTail s)). split; [|reflexivity].
    unfold contents, resident at 2. simpl. rewrite Hr.
    replace (Z.to_nat (resident s)) with (S (Z.to_nat (resident s - 1))) by lia.
    rewrite <- cons_seq. simpl. f_equal.
    + do 2 f_equal. Z.div_mod_to_equations. lia.
    + rewrite <- seq_shift, map_map. apply map_ext. intros k.
      do 2 f_equal. Z.div_mod_to_equations. lia.
Qed.

Lemma processQueue_wfq (now1 now2 : Z) (s : State) :
  wfq s -> wfq (processQueue now1 now2 s).
Proof.
  intros Hw. destruct (processQueue_cases now1 now2 s Hw) as [->|[H _]]; assumption.
Qed.

Lemma processQueue_frame (now1 now2 : Z) (s : State) :
  buttonState (processQueue now1 now2 s) = buttonState s /\
  layout (processQueue now1 now2 s) = layout s /\
  swapAB (processQueue now1 now2 s) = swapAB s /\
  selectMode (processQueue now1 now2 s) = selectMode s /\
  lastNesState (processQueue now1 now2 s) = lastNesState s /\
  eeprom (processQueue now1 now2 s) = eeprom s.
Proof.
  unfold processQueue. destruct (_ =? _); [repeat split|].
  destruct (_ <? _); repeat split.
Qed.

(** ** Setters commute with the queue functions *)

Lemma set_buttonState_id (s : State) : set_buttonState (buttonState s) s = s.
Proof. destruct s. reflexivity. Qed.

Lemma enqueueAll_set_buttonState (bs : list Z) (v : list bool) (s : State) :
  enqueueAll bs (set_buttonState v s) = set_buttonState v (enqueueAll bs s).
Proof.
  destruct (enqueueAll_frame bs (set_buttonState v s)) as [Hb Hc].
  destruct (enqueueAll_frame bs s) as [_ Hc'].
  apply state_eq.
  - rewrite (enqueueAll_ring bs (set_buttonState v s) s) by reflexivity.
    reflexivity.
  - rewrite Hb. reflexivity.
  - rewrite Hc. unfold config in *. simpl. exact (eq_sym Hc').
Qed.

Lemma enqueuePause_frame (s : State) :
  buttonState (enqueuePause s) = buttonState s /\
  config (enqueuePause s) = config s.
Proof.
  unfold enqueuePause. destruct (_ >=? 8); [|split; reflexivity].
  apply (for_range_ind
           (fun _ t => buttonState t = buttonState s /\ config t = config s)).
  - split; reflexivity.
  - intros i t _ [Hb Hc]. rewrite <- Hb, <- Hc. split; reflexivity.
Qed.

Lemma sendMake_frame (code : Z) (ext : bool) (s : State) :
  buttonState (sendMake code ext s) = buttonState s /\
  config (sendMake code ext s) = config s.
Proof.
  unfold sendMake. destruct (code =? NO_KEY); [split; reflexivity|].
  destruct (code =? PAUSE_CODE); [apply enqueuePause_frame|].
  change ((when ext (enqueue 224) ;> enqueue code) s)
    with (enqueue code (when ext (enqueue 224) s)).
  destruct (enqueue_frame code (when ext (enqueue 224) s)) as [-> ->].
  destruct ext; [apply enqueue_frame|split; reflexivity].
Qed.

Lemma sendBreak_frame (code : Z) (ext : bool) (s : State) :
  buttonState (sendBreak code ext s) = buttonState s /\
  config (sendBreak code ext s) = config s.
Proof. rewrite sendBreak_enqueueAll. apply enqueueAll_frame. Qed.

(** ** releaseAll *)

Lemma release_upto_S (n : nat) (keys : list Z) (ext bs : list bool) :
  release_upto (S n) keys ext bs =
  release_upto n keys ext bs ++
  (if (bs !!! n : bool) then break_bytes (keys !!! n) (ext !!! n) else []).
Proof.
  unfold release_upto. rewrite seq_S, map_app, concat_app. simpl.
  rewrite app_nil_r. reflexivity.
Qed.

Lemma clear_step (i : nat) (bs : list bool) :
  (i < length bs)%nat ->
  <[i := false]> (replicate i false ++ drop i bs) =
  replicate (S i) false ++ drop (S i) bs.
Proof.
  revert bs. induction i as [|i IH]; intros [|b bs] Hl; simpl in *; try lia.
  - reflexivity.
  - f_equal. apply IH. lia.
Qed.

Lemma clear_skip (i : nat) (bs : list bool) :
  (i < length bs)%nat -> bs !!! i = false ->
  replicate i false ++ drop i bs = replicate (S i) false ++ drop (S i) bs.
Proof.
  revert bs. induction i as [|i IH]; intros [|b bs] Hl Hb; simpl in *; try lia.
  - change (b = false) in Hb. subst b. reflexivity.
  - f_equal. apply IH; [lia|exact Hb].
Qed.

Lemma lookup_cleared_prefix (i : nat) (bs : list bool) :
  (replicate i false ++ drop i bs) !!! i = bs !!! i.
Proof.
  rewrite lookup_total_app_r by (rewrite length_replicate; lia).
  rewrite length_replicate, Nat.sub_diag, lookup_total_drop.
  f_equal. lia.
Qed.

Lemma releaseAll_spec (keys : list Z) (ext : list bool) (s : State) :
  length (buttonState s) = BUTTON_COUNT ->
  releaseAll keys ext s =
  set_buttonState (replicate BUTTON_COUNT false)
                  (enqueueAll (release_bytes keys ext (buttonState s)) s).
Proof.
  intros Hl. unfold releaseAll, release_bytes.
  set (bs0 := buttonState s).
  replace (replicate BUTTON_COUNT false)
    with (replicate BUTTON_COUNT false ++ drop BUTTON_COUNT bs0)
    by (rewrite drop_ge by (fold bs0 in Hl; lia); apply app_nil_r).
  apply (for_range_ind
           (fun i t => t = set_buttonState (replicate i false ++ drop i bs0)
                                           (enqueueAll (release_upto i keys ext bs0) s))).
  - symmetry. apply set_buttonState_id.
  - intros i t Hi ->. fold bs0 in Hl.
    change (buttonState (set_buttonState ?v ?u)) with v.
    rewrite lookup_cleared_prefix, release_upto_S.
    destruct (bs0 !!! i) eqn:Hb.
    + unfold seqc. rewrite sendBreak_enqueueAll, enqueueAll_set_buttonState.
      rewrite <- clear_step by lia. rewrite enqueueAll_app. reflexivity.
    + rewrite app_nil_r, <- clear_skip by (try lia; exact Hb). reflexivity.
Qed.

Lemma releaseAll_cleared (keys : list Z) (ext : list bool) (s : State) :
  buttonState s = replicate BUTTON_COUNT false -> releaseAll keys ext s = s.
Proof.
  intros Hb. rewrite releaseAll_spec by (rewrite Hb; reflexivity).
  rewrite Hb at 1. replace (release_bytes keys ext (replicate BUTTON_COUNT false))
    with (@nil Z) by reflexivity.
  rewrite <- Hb. apply set_buttonState_id.
Qed.

(** ** Edge detection *)

Lemma edge_upto_S (n : nat) (keys : list Z) (ext ps bs : list bool) :
  edge_upto (S n) keys ext ps bs =
  edge_upto n keys ext ps bs ++ edge_event keys ext (ps !!! n) (bs !!! n) n.
Proof.
  unfold edge_upto. rewrite seq_S, map_app, concat_app. simpl.
  rewrite app_nil_r. reflexivity.
Qed.

Lemma edge_upto_length_mono (i n : nat) (keys : list Z) (ext ps bs : list bool) :
  (i <= n)%nat ->
  (length (edge_upto i keys ext ps bs) <= length (edge_upto n keys ext ps bs))%nat.
Proof.
  induction 1 as [|n Hle IH]; [lia|].
  rewrite edge_upto_S, length_app. lia.
Qed.

Section Splice.
Context {A : Type} `{Inhabited A}.

Lemma splice_step (i : nat) (ps bs : list A) :
  (i < length ps)%nat -> (i < length bs)%nat ->
  <[i := ps !!! i]> (take i ps ++ drop i bs) = take (S i) ps ++ drop (S i) bs.
Proof.
  revert ps bs.
  induction i as [|i IH]; intros [|p ps] [|b bs] Hp Hb; simpl in *; try lia.
  - reflexivity.
  - f_equal. apply IH; lia.
Qed.

Lemma splice_skip (i : nat) (ps bs : list A) :
  (i < length ps)%nat -> (i < length bs)%nat -> bs !!! i = ps !!! i ->
  take i ps ++ drop i bs = take (S i) ps ++ drop (S i) bs.
Proof.
  revert ps bs.
  induction i as [|i IH]; intros [|p ps] [|b bs] Hp Hb E; simpl in *; try lia.
  - change (b = p) in E. subst b. reflexivity.
  - f_equal. apply IH; [lia|lia|exact E].
Qed.

Lemma lookup_splice (i : nat) (ps bs : list A) :
  (i <= length ps)%nat -> (take i ps ++ drop i bs) !!! i = bs !!! i.
Proof.
  intros Hp.
  rewrite lookup_total_app_r by (rewrite length_take; lia).
  rewrite length_take, lookup_total_drop. f_equal. lia.
Qed.
End Splice.

Lemma pressedList_length (swap : bool) (state : Z) :
  length (pressedList swap state) = BUTTON_COUNT.
Proof. reflexivity. Qed.

Lemma pressedList_lookup (swap : bool) (state : Z) (i : nat) :
  (i < BUTTON_COUNT)%nat ->
  pressedList swap state !!! i =
  buttonPressed (if swap then lnot (Z.land state 2) else lnot (Z.land state 1))
                (if swap then lnot (Z.land state 1) else lnot (Z.land state 2))
                state i.
Proof.
  unfold BUTTON_COUNT. intros Hi.
  do 8 (destruct i as [|i]; [reflexivity|]). lia.
Qed.

(** The body of the edge-detection loop, by cases on the edge. *)
Lemma edge_cases (p c : bool) :
  (p = true /\ c = false /\ p && negb c = true) \/
  (p = false /\ c = true /\ p && negb c = false /\ negb p && c = true) \/
  (c = p /\ p && negb c = false /\ negb p && c = false).
Proof. destruct p, c; simpl; auto 10. Qed.

Lemma edgeDetect_buttons (keys : list Z) (ext : list bool) (state : Z)
      (s : State) :
  length (buttonState s) = BUTTON_COUNT ->
  buttonState (edgeDetect keys ext state s) = pressedList (swapAB s) state /\
  config (edgeDetect keys ext state s) = config s.
Proof.
  intros Hl. unfold edgeDetect.
  set (ps := pressedList (swapAB s) state). set (bs0 := buttonState s).
  replace ps with (take BUTTON_COUNT ps ++ drop BUTTON_COUNT bs0) at 1
    by (rewrite drop_ge by (fold bs0 in Hl; lia); rewrite app_nil_r;
        apply take_ge; reflexivity).
  apply (for_range_ind
           (fun i t => buttonState t = take i ps ++ drop i bs0 /\
                       config t = config s)).
  - split; reflexivity.
  - intros i t Hi [Hb Hc]. fold bs0 in Hl.
    rewrite Hb, lookup_splice by (unfold ps; rewrite pressedList_length; lia).
    rewrite <- (pressedList_lookup (swapAB s) state i Hi). fold ps.
    assert (Hlp : length ps = BUTTON_COUNT) by reflexivity.
    destruct (edge_cases (ps !!! i) (bs0 !!! i))
      as [(Hp & _ & ->)|[(Hp & _ & -> & ->)|(Hcp & -> & ->)]].
    + destruct (sendMake_frame (keys !!! i) (ext !!! i) t) as [Hfb Hfc].
      unfold seqc, setButton. split.
      * change (buttonState (set_buttonState ?v ?u)) with v.
        rewrite Hfb, Hb, <- Hp, splice_step by lia. reflexivity.
      * change (config (set_buttonState ?v ?u)) with (config u). congruence.
    + destruct (sendBreak_frame (keys !!! i) (ext !!! i) t) as [Hfb Hfc].
      unfold seqc, setButton. split.
      * change (buttonState (set_buttonState ?v ?u)) with v.
        rewrite Hfb, Hb, <- Hp, splice_step by lia. reflexivity.
      * change (config (set_buttonState ?v ?u)) with (config u). congruence.
    + rewrite <- splice_skip by (try lia; exact Hcp). auto.
Qed.

Lemma edgeDetect_fixed (keys : list Z) (ext : list bool) (state : Z)
      (s : State) :
  buttonState s = pressedList (swapAB s) state ->
  edgeDetect keys ext state s = s.
Proof.
  intros Hb. unfold edgeDetect.
  apply (for_range_ind (fun _ t => t = s)); [reflexivity|].
  intros i t Hi ->.
  rewrite <- (pressedList_lookup (swapAB s) state i Hi), <- Hb.
  destruct (buttonState s !!! i); reflexivity.
Qed.

Lemma edgeDetect_spec (keys : list Z) (ext : list bool) (state : Z) (s : State) :
  wfq s ->
  length (buttonState s) = BUTTON_COUNT ->
  Z.of_nat (length (edge_bytes keys ext (pressedList (swapAB s) state)
                               (buttonState s))) <= freeSlots s ->
  edgeDetect keys ext state s =
  set_buttonState
    (pressedList (swapAB s) state)
    (enqueueAll (edge_bytes keys ext (pressedList (swapAB s) state)
                            (buttonState s)) s).
Proof.
  intros Hw Hl Hroom. unfold edgeDetect, edge_bytes in *.
  set (ps := pressedList (swapAB s) state) in *.
  set (bs0 := buttonState s) in *.
  assert (Hlp : length ps = BUTTON_COUNT) by reflexivity.
  replace ps with (take BUTTON_COUNT ps ++ drop BUTTON_COUNT bs0) at 1
    by (rewrite drop_ge by lia; rewrite app_nil_r; apply take_ge; lia).
  apply (for_range_ind
           (fun i t => t = set_buttonState (take i ps ++ drop i bs0)
                            (enqueueAll (edge_upto i keys ext ps bs0) s))).
  - symmetry. apply set_buttonState_id.
  - intros i t Hi ->.
    change (buttonState (set_buttonState ?v ?u)) with v.
    rewrite lookup_splice by lia.
    rewrite <- (pressedList_lookup (swapAB s) state i Hi). fold ps.
    pose proof (edge_upto_length_mono (S i) BUTTON_COUNT keys ext ps bs0 Hi)
      as Hmono.
    rewrite edge_upto_S, length_app in Hmono.
    destruct (enqueueAll_room (edge_upto i keys ext ps bs0) s Hw)
      as (Hwi & Hri & _); [lia|].
    rewrite edge_upto_S. unfold edge_event in *.
    destruct (edge_cases (ps !!! i) (bs0 !!! i))
      as [(Hp & _ & E1)|[(Hp & _ & E1 & E2)|(Hcp & E1 & E2)]].
    + rewrite E1 in *. unfold seqc.
      rewrite sendMake_enqueueAll by exact Hwi.
      replace (((keys !!! i) =? PAUSE_CODE) && negb (8 <=? freeSlots _))
        with false.
      * rewrite enqueueAll_set_buttonState, enqueueAll_app.
        unfold setButton.
        change (buttonState (set_buttonState ?v ?u)) with v.
        rewrite <- splice_step, Hp by lia. reflexivity.
      * symmetry. apply andb_false_iff.
        destruct (Z.eqb_spec (keys !!! i) PAUSE_CODE) as [Ek|]; [right|left; auto].
        apply negb_false_iff, Z.leb_le.
        change (freeSlots (set_buttonState ?v ?u)) with (freeSlots u).
        unfold freeSlots in *. rewrite Hri.
        unfold make_bytes in Hmono. rewrite Ek in Hmono. simpl in Hmono. lia.
    + rewrite E1, E2 in *. unfold seqc.
      rewrite sendBreak_enqueueAll, enqueueAll_set_buttonState, enqueueAll_app.
      unfold setButton.
      change (buttonState (set_buttonState ?v ?u)) with v.
      rewrite <- splice_step, Hp by lia. reflexivity.
    + rewrite E1, E2, app_nil_r.
      rewrite <- splice_skip by (try lia; exact Hcp). reflexivity.
Qed.

(** * The pause key *)

(** C4: for the pause-class key (code 0xFE) [sendBreak] puts nothing in
    the queue, and [sendMake] appends the eight bytes
    E1 14 77 E1 F0 14 F0 77 in order when at least eight slots are free
    and changes nothing at all when fewer than eight are free. *)
Theorem C4_pause_all_or_nothing (ext : bool) (s : State) :
  wfq s ->
  sendBreak PAUSE_CODE ext s = s /\
  (8 <= freeSlots s ->
   wfq (sendMake PAUSE_CODE ext s) /\
   contents (sendMake PAUSE_CODE ext s) =
   contents s ++ [0xE1; 0x14; 0x77; 0xE1; 0xF0; 0x14; 0xF0; 0x77] /\
   freeSlots (sendMake PAUSE_CODE ext s) = freeSlots s - 8) /\
  (freeSlots s < 8 -> sendMake PAUSE_CODE ext s = s).
Proof.
  intros Hw. split; [reflexivity|].
  rewrite sendMake_enqueueAll by exact Hw.
  change (PAUSE_CODE =? PAUSE_CODE) with true. cbn [andb].
  change (make_bytes PAUSE_CODE ext) with PAUSE_SEQ.
  split; intros Hf.
  - replace (8 <=? freeSlots s) with true by (symmetry; apply Z.leb_le; exact Hf).
    cbn [negb].
    destruct (enqueueAll_room PAUSE_SEQ s Hw) as (Hw' & Hr & Hc).
    + simpl. lia.
    + split; [exact Hw'|]. split; [exact Hc|].
      unfold freeSlots. rewrite Hr. simpl. lia.
  - replace (8 <=? freeSlots s) with false
      by (symmetry; apply Z.leb_gt; exact Hf).
    reflexivity.
Qed.

Lemma C4_pause_all_or_nothing_witness :
  (wfq stateEmpty /\ 8 <= freeSlots stateEmpty /\
   contents (sendMake PAUSE_CODE false stateEmpty) =
   [0xE1; 0x14; 0x77; 0xE1; 0xF0; 0x14; 0xF0; 0x77]) /\
  (wfq stateNearlyFull /\ freeSlots stateNearlyFull < 8 /\
   sendMake PAUSE_CODE false stateNearlyFull = stateNearlyFull).
Proof.
  assert (We : wfq stateEmpty) by wfq_concrete.
  assert (Wf : wfq stateNearlyFull) by wfq_concrete.
  assert (Fe : 8 <= freeSlots stateEmpty) by (vm_compute; discriminate).
  assert (Ff : freeSlots stateNearlyFull < 8) by reflexivity.
  split.
  - split; [exact We|]. split; [exact Fe|].
    destruct (C4_pause_all_or_nothing false stateEmpty We) as (_ & Hroom & _).
    destruct (Hroom Fe) as (_ & Hc & _). exact Hc.
  - split; [exact Wf|]. split; [exact Ff|].
    destruct (C4_pause_all_or_nothing false stateNearlyFull Wf) as (_ & _ & Hno).
    exact (Hno Ff).
Defined.

(** * The output queue *)

Lemma contents_length (s : State) : length (contents s) = Z.to_nat (resident s).
Proof. unfold contents. rewrite length_map, length_seq. reflexivity. Qed.

Lemma enqueuePause_wfq (s : State) : wfq s -> wfq (enqueuePause s).
Proof.
  intros Hw. rewrite enqueuePause_enqueueAll by exact Hw.
  destruct (8 <=? freeSlots s); [apply enqueueAll_wfq|]; exact Hw.
Qed.

(** C5: no queue function waits, and none lets the queue hold more than
    63 bytes.  [enqueue] gives the state back untouched when the advanced
    head would meet the tail and otherwise appends the byte; [enqueue],
    [enqueuePause] and [processQueue] keep both indices in [0,64) and the
    number of waiting bytes at most 63.  The producers log no effect (no
    delay, no wait on the wire). *)
Theorem C5_queue_bounded (b now1 now2 : Z) (s : State) :
  wfq s ->
  (u8 ((qHead s + 1) mod QUEUE_SIZE) = qTail s -> enqueue b s = s) /\
  (u8 ((qHead s + 1) mod QUEUE_SIZE) <> qTail s ->
   contents (enqueue b s) = contents s ++ [b]) /\
  (wfq (enqueue b s) /\ (length (contents (enqueue b s)) <= 63)%nat) /\
  (wfq (enqueuePause s) /\ (length (contents (enqueuePause s)) <= 63)%nat) /\
  (wfq (processQueue now1 now2 s) /\
   (length (contents (processQueue now1 now2 s)) <= 63)%nat) /\
  trace (enqueue b s) = trace s /\
  trace (enqueuePause s) = trace s.
Proof.
  intros Hw.
  assert (Hlen : forall t, (length (contents t) <= 63)%nat).
  { intros t. rewrite contents_length. pose proof (resident_range t). lia. }
  assert (Hfull : u8 ((qHead s + 1) mod QUEUE_SIZE) = qTail s <-> resident s = 63).
  { destruct Hw as (_ & Hh & Ht). unfold QUEUE_SIZE, resident.
    rewrite u8_small by (pose proof (Z.mod_pos_bound (qHead s + 1) 64); lia).
    split; intros E; Z.div_mod_to_equations; lia. }
  split; [|split].
  - intros E. apply enqueue_full; [exact Hw|apply Hfull, E].
  - intros E. apply enqueue_room; [exact Hw|].
    pose proof (resident_range s). apply Z.le_neq. split; [lia|].
    intros E'. apply E, Hfull, E'.
  - split; [split; [apply enqueue_wfq, Hw|apply Hlen]|].
    split; [split; [apply enqueuePause_wfq, Hw|apply Hlen]|].
    split; [split; [apply processQueue_wfq, Hw|apply Hlen]|].
    destruct (enqueue_frame b s) as [_ Hc].
    destruct (enqueuePause_frame s) as [_ Hp].
    unfold config in *. split; congruence.
Qed.

Lemma C5_queue_bounded_witness :
  wfq stateFull /\
  enqueue 0x45 stateFull = stateFull /\
  length (contents stateFull) = 63%nat.
Proof.
  assert (Wf : wfq stateFull) by wfq_concrete.
  split; [exact Wf|]. split; [|reflexivity].
  destruct (C5_queue_bounded 0x45 0 0 stateFull Wf) as (Hdrop & _).
  apply Hdrop. reflexivity.
Defined.

(** * Persistent settings *)

Lemma land3_range (x : Z) : 0 <= Z.land x 3 < 4.
Proof.
  change 3 with (Z.ones 2). rewrite Z.land_ones by lia.
  apply Z.mod_pos_bound. lia.
Qed.

Lemma loadConfig_accepts (s : State) :
  loadConfig s =
  (set_layout (Z.land (eeprom s) 3) ;>
   set_swapAB (Z.testbit (eeprom s) 2)) s.
Proof.
  unfold loadConfig, EEPROM_read, LAYOUT_COUNT.
  pose proof (land3_range (eeprom s)) as Hr.
  rewrite u8_small by lia.
  replace (Z.land (eeprom s) 3 <? 4) with true by (symmetry; apply Z.ltb_lt; lia).
  replace (truthy (Z.land (Z.shiftr (eeprom s) 2) 1)) with (Z.testbit (eeprom s) 2);
    [reflexivity|].
  unfold truthy. change 1 with (Z.ones 1). rewrite Z.land_ones by lia.
  rewrite Z.shiftr_div_pow2 by lia. rewrite Z.testbit_eqb by lia.
  change (2 ^ 1) with 2.
  destruct (Z.eqb_spec ((eeprom s / 2 ^ 2) mod 2) 0) as [->|Hne]; [reflexivity|].
  simpl. apply Z.eqb_eq.
  pose proof (Z.mod_pos_bound (eeprom s / 2 ^ 2) 2). lia.
Qed.

Lemma saveConfig_byte (s : State) :
  0 <= layout s < 4 ->
  eeprom (saveConfig s) = layout s + 4 * b2z (swapAB s).
Proof.
  intros Hl. unfold saveConfig, EEPROM_write, seqc. simpl.
  assert (Hc : layout s = 0 \/ layout s = 1 \/ layout s = 2 \/ layout s = 3) by lia.
  destruct (swapAB s); destruct Hc as [-> | [-> | [-> | ->]]]; reflexivity.
Qed.

(** C6: for a profile index in 0..3 and either value of swapAB, what
    [saveConfig] stores is read back by [loadConfig] as the same pair,
    whatever the globals hold in between; and for any stored byte
    [loadConfig] takes the index from bits [1:0] and swapAB from bit 2, so
    two bytes that differ only in bits [7:3] load alike. *)
Theorem C6_config_roundtrip (s t : State) :
  0 <= layout s < 4 ->
  eeprom t = eeprom (saveConfig s) ->
  (layout (loadConfig t) = layout s /\ swapAB (loadConfig t) = swapAB s) /\
  (forall u : State,
      layout (loadConfig u) = Z.land (eeprom u) 3 /\
      swapAB (loadConfig u) = Z.testbit (eeprom u) 2) /\
  (forall u v : State,
      Z.land (eeprom u) 7 = Z.land (eeprom v) 7 ->
      layout (loadConfig u) = layout (loadConfig v) /\
      swapAB (loadConfig u) = swapAB (loadConfig v)).
Proof.
  intros Hl He.
  assert (Hdec : forall u : State,
             layout (loadConfig u) = Z.land (eeprom u) 3 /\
             swapAB (loadConfig u) = Z.testbit (eeprom u) 2).
  { intros u. rewrite loadConfig_accepts. split; reflexivity. }
  split; [|split; [exact Hdec|]].
  - destruct (Hdec t) as [-> ->]. rewrite He, saveConfig_byte by exact Hl.
    assert (Hc : layout s = 0 \/ layout s = 1 \/ layout s = 2 \/ layout s = 3) by lia.
    destruct (swapAB s); destruct Hc as [-> | [-> | [-> | ->]]]; split; reflexivity.
  - intros u v E. destruct (Hdec u) as [-> ->]. destruct (Hdec v) as [-> ->].
    split.
    + change 3 with (Z.land 7 3). rewrite !Z.land_assoc, E. reflexivity.
    + assert (Hb : forall x, Z.testbit x 2 = Z.testbit (Z.land x 7) 2).
      { intros x. rewrite Z.land_spec. change (Z.testbit 7 2) with true.
        symmetry. apply andb_true_r. }
      rewrite (Hb (eeprom u)), (Hb (eeprom v)), E. reflexivity.
Qed.

Lemma C6_config_roundtrip_witness :
  0 <= layout (set_layout 3 (set_swapAB true stateEmpty)) < 4 /\
  layout (loadConfig (set_eeprom 7 stateEmpty)) = 3 /\
  swapAB (loadConfig (set_eeprom 7 stateEmpty)) = true.
Proof.
  assert (Hl : 0 <= layout (set_layout 3 (set_swapAB true stateEmpty)) < 4)
    by (cbn; lia).
  split; [exact Hl|].
  exact (proj1 (C6_config_roundtrip
                  (set_layout 3 (set_swapAB true stateEmpty))
                  (set_eeprom 7 stateEmpty) Hl eq_refl)).
Defined.

(** C10: [loadConfig] never writes to the EEPROM.  The index it decodes,
    [byte & 0x03], is below LAYOUT_COUNT for every stored byte, so the
    branch that resets to layout 2 and calls [saveConfig] is never taken:
    the masked values are always accepted, the cell keeps its byte and no
    effect is logged. *)
Theorem C10_loadConfig_never_writes (s : State) :
  (u8 (Z.land (EEPROM_read s) 0x03) <? LAYOUT_COUNT) = true /\
  loadConfig s =
  (set_layout (u8 (Z.land (EEPROM_read s) 0x03)) ;>
   set_swapAB (truthy (Z.land (Z.shiftr (EEPROM_read s) 2) 0x01))) s /\
  eeprom (loadConfig s) = eeprom s /\
  trace (loadConfig s) = trace s.
Proof.
  assert (Hlt : (u8 (Z.land (EEPROM_read s) 0x03) <? LAYOUT_COUNT) = true).
  { unfold EEPROM_read, LAYOUT_COUNT. pose proof (land3_range (eeprom s)).
    rewrite u8_small by lia. apply Z.ltb_lt. lia. }
  split; [exact Hlt|].
  unfold loadConfig. rewrite Hlt. repeat split.
Qed.

(** * Normal operation *)

(** C9: edge detection is idempotent.  After one run with mask [state]
    the stored button states are exactly the pressed values computed from
    that mask, so a second run with the same mask finds no edge: it
    returns the state as it got it, and in particular leaves the queue
    array and both indices untouched. *)
Theorem C9_edge_detection_idempotent (keys : list Z) (ext : list bool)
        (state : Z) (s : State) :
  length (buttonState s) = BUTTON_COUNT ->
  buttonState (edgeDetect keys ext state s) = pressedList (swapAB s) state /\
  edgeDetect keys ext state (edgeDetect keys ext state s) =
  edgeDetect keys ext state s /\
  ring (edgeDetect keys ext state (edgeDetect keys ext state s)) =
  ring (edgeDetect keys ext state s) /\
  ring (normalOperation keys ext state (normalOperation keys ext state s)) =
  ring (normalOperation keys ext state s).
Proof.
  intros Hl. destruct (edgeDetect_buttons keys ext state s Hl) as [Hb Hc].
  assert (Hsw : swapAB (edgeDetect keys ext state s) = swapAB s).
  { unfold config in Hc. congruence. }
  assert (Hfix : edgeDetect keys ext state (edgeDetect keys ext state s) =
                 edgeDetect keys ext state s).
  { apply edgeDetect_fixed. rewrite Hsw. exact Hb. }
  split; [exact Hb|]. split; [exact Hfix|]. split; [rewrite Hfix; reflexivity|].
  unfold normalOperation, seqc.
  generalize dependent (edgeDetect keys ext state s). intros t Hb Hc Hsw Hfix.
  rewrite (edgeDetect_fixed keys ext state (set_lastNesState state t)).
  - reflexivity.
  - change (buttonState t = pressedList (swapAB t) state).
    rewrite Hsw. exact Hb.
Qed.

Lemma C9_edge_detection_idempotent_witness :
  length (buttonState stateNearlyFull) = BUTTON_COUNT /\
  ring (edgeDetect layout_RightSinclair layout_RightSinclair_ext 0xF6
          (edgeDetect layout_RightSinclair layout_RightSinclair_ext 0xF6
             stateNearlyFull)) =
  ring (edgeDetect layout_RightSinclair layout_RightSinclair_ext 0xF6
          stateNearlyFull).
Proof.
  split; [reflexivity|].
  exact (proj1 (proj2 (proj2
           (C9_edge_detection_idempotent
              layout_RightSinclair layout_RightSinclair_ext 0xF6
              stateNearlyFull eq_refl)))).
Defined.

(** ** A cycle with Select released *)

Lemma contents_ring (s t : State) : ring s = ring t -> contents s = contents t.
Proof.
  intros H. inversion H as [[Hq Hh Ht]]. unfold contents, resident.
  rewrite Hq, Hh, Ht. reflexivity.
Qed.

Lemma wfq_ring (s t : State) : ring s = ring t -> wfq s -> wfq t.
Proof.
  intros H. inversion H as [[Hq Hh Ht]]. unfold wfq.
  rewrite Hq, Hh, Ht. auto.
Qed.

Lemma freeSlots_ring (s t : State) : ring s = ring t -> freeSlots s = freeSlots t.
Proof.
  intros H. inversion H as [[Hq Hh Ht]]. unfold freeSlots, resident.
  rewrite Hh, Ht. reflexivity.
Qed.

Lemma processQueue_free (now1 now2 : Z) (s : State) :
  wfq s -> freeSlots s <= freeSlots (processQueue now1 now2 s).
Proof.
  intros Hw. destruct (processQueue_cases now1 now2 s Hw) as [->|(_ & Hr & _)].
  - lia.
  - unfold freeSlots. lia.
Qed.

Lemma loop_select_released (inp : Inputs) (s : State) :
  lnot (Z.land (readNES (nes_data inp)) (Z.shiftl 1 2)) = false ->
  loop inp s =
  normalOperation (keysOf (layout s)) (extOf (layout s)) (readNES (nes_data inp))
                  (leaveSelect (processQueue (micros1 inp) (micros2 inp) s)).
Proof.
  intros Hsel. unfold loop. rewrite Hsel. cbn [andb negb].
  destruct (processQueue_frame (micros1 inp) (micros2 inp) s)
    as (_ & -> & _).
  unfold leaveSelect.
  destruct (selectMode (processQueue (micros1 inp) (micros2 inp) s)) eqn:E.
  - reflexivity.
  - rewrite E. reflexivity.
Qed.

Lemma leaveSelect_frame (s : State) :
  ring (leaveSelect s) = ring s /\
  buttonState (leaveSelect s) = buttonState s /\
  swapAB (leaveSelect s) = swapAB s /\
  layout (leaveSelect s) = layout s.
Proof. unfold leaveSelect. destruct (selectMode s); repeat split. Qed.

(** What a cycle with Select released adds to the queue, when there is
    room for it: the edge encodings of the eight buttons, in order. *)
Lemma loop_select_released_spec (inp : Inputs) (s : State) :
  let state := readNES (nes_data inp) in
  let s1 := processQueue (micros1 inp) (micros2 inp) s in
  let bytes := edge_bytes (keysOf (layout s)) (extOf (layout s))
                          (pressedList (swapAB s) state) (buttonState s) in
  wfq s ->
  length (buttonState s) = BUTTON_COUNT ->
  lnot (Z.land state (Z.shiftl 1 2)) = false ->
  Z.of_nat (length bytes) <= freeSlots s ->
  wfq (loop inp s) /\
  contents (loop inp s) = contents s1 ++ bytes /\
  freeSlots (loop inp s) = freeSlots s1 - Z.of_nat (length bytes) /\
  buttonState (loop inp s) = pressedList (swapAB s) state /\
  layout (loop inp s) = layout s /\
  swapAB (loop inp s) = swapAB s.
Proof.
  intros state s1 bytes Hw Hl Hsel Hroom.
  rewrite loop_select_released by exact Hsel. fold state s1.
  destruct (processQueue_frame (micros1 inp) (micros2 inp) s)
    as (Hb1 & Hl1 & Hs1 & _). fold s1 in Hb1, Hl1, Hs1.
  destruct (leaveSelect_frame s1) as (Hr2 & Hb2 & Hs2 & Hl2).
  assert (Hw1 : wfq s1) by (apply processQueue_wfq, Hw).
  assert (Hw2 : wfq (leaveSelect s1)) by (apply (wfq_ring s1); auto).
  assert (Hf1 : freeSlots s <= freeSlots s1) by (apply processQueue_free, Hw).
  assert (Hf2 : freeSlots (leaveSelect s1) = freeSlots s1)
    by (apply freeSlots_ring, Hr2).
  unfold normalOperation, seqc.
  rewrite edgeDetect_spec; rewrite ?Hb2, ?Hs2, ?Hb1, ?Hs1; fold bytes;
    try assumption; try lia; try congruence.
  destruct (enqueueAll_room bytes (leaveSelect s1) Hw2) as (Hw3 & Hr3 & Hc3);
    [lia|].
  destruct (enqueueAll_frame bytes (leaveSelect s1)) as (_ & Hcfg).
  unfold config in Hcfg.
  split; [exact Hw3|]. split; [|split; [|split; [reflexivity|split]]].
  - change (contents (enqueueAll bytes (leaveSelect s1)) = contents s1 ++ bytes).
    rewrite Hc3, (contents_ring _ _ Hr2). reflexivity.
  - change (freeSlots (enqueueAll bytes (leaveSelect s1)) =
            freeSlots s1 - Z.of_nat (length bytes)).
    unfold freeSlots in *. lia.
  - change (layout (enqueueAll bytes (leaveSelect s1)) = layout s). congruence.
  - change (swapAB (enqueueAll bytes (leaveSelect s1)) = swapAB s). congruence.
Qed.

(** * The layout table *)

(** C7: the four layouts are the specification's table, and the extended
    flag is set for the four directions of profile 3 and nowhere else.
    With profile 2 and swapAB off, a cycle in which only A is pressed
    appends the single byte 0x45 to the queue, and the following cycle in
    which A is released appends 0xF0 0x45. *)
Theorem C7_profiles_and_right_numeric_A (inp1 inp2 : Inputs) (s : State) :
  wfq s ->
  layout s = 2 ->
  swapAB s = false ->
  buttonState s = replicate BUTTON_COUNT false ->
  3 <= freeSlots s ->
  readNES (nes_data inp1) = 0xFE ->
  readNES (nes_data inp2) = 0xFF ->
  (layouts = map (map scanCode) specTable /\
   extFlags = map (map isExtended) specTable /\
   (forall p b : nat, (p < 4)%nat -> (b < 8)%nat ->
      ((extFlags !!! p) !!! b : bool) = (p =? 3)%nat && (4 <=? b)%nat)) /\
  contents (loop inp1 s) =
  contents (processQueue (micros1 inp1) (micros2 inp1) s) ++ [0x45] /\
  contents (loop inp2 (loop inp1 s)) =
  contents (processQueue (micros1 inp2) (micros2 inp2) (loop inp1 s))
  ++ [0xF0; 0x45].
Proof.
  intros Hw Hl Hsw Hb Hfree Hin1 Hin2.
  split.
  { split; [reflexivity|]. split; [reflexivity|].
    intros p b Hp Hb'.
    do 4 (destruct p as [|p];
          [do 8 (destruct b as [|b]; [reflexivity|]); lia|]).
    lia. }
  pose proof (loop_select_released_spec inp1 s) as H1.
  cbv zeta in H1. rewrite Hin1, Hl, Hsw, Hb in H1.
  change (edge_bytes (keysOf 2) (extOf 2) (pressedList false 254)
                     (replicate BUTTON_COUNT false)) with [0x45] in H1.
  destruct H1 as (Hw1 & Hc1 & Hf1 & Hb1 & Hl1 & Hsw1);
    [exact Hw|reflexivity|reflexivity|simpl; lia|].
  split; [exact Hc1|].
  pose proof (processQueue_free (micros1 inp1) (micros2 inp1) s Hw) as Hpf.
  pose proof (loop_select_released_spec inp2 (loop inp1 s)) as H2.
  cbv zeta in H2. rewrite Hin2, Hl1, Hsw1, Hb1 in H2.
  change (edge_bytes (keysOf 2) (extOf 2) (pressedList false 255)
                     (pressedList false 254)) with [0xF0; 0x45] in H2.
  destruct H2 as (_ & Hc2 & _);
    [exact Hw1|reflexivity|reflexivity|simpl length in *; lia|].
  exact Hc2.
Qed.

Lemma C7_profiles_and_right_numeric_A_witness :
  wfq stateEmpty /\ 3 <= freeSlots stateEmpty /\
  contents (loop (mkInputs 0 0 (pinsOf 0xFE)) stateEmpty) = [0x45] /\
  contents (loop (mkInputs 100 100 (pinsOf 0xFF))
                 (loop (mkInputs 0 0 (pinsOf 0xFE)) stateEmpty)) =
  [0x45; 0xF0; 0x45].
Proof.
  assert (We : wfq stateEmpty) by wfq_concrete.
  assert (Fe : 3 <= freeSlots stateEmpty) by (vm_compute; discriminate).
  split; [exact We|]. split; [exact Fe|].
  exact (proj2 (C7_profiles_and_right_numeric_A
                  (mkInputs 0 0 (pinsOf 0xFE)) (mkInputs 100 100 (pinsOf 0xFF))
                  stateEmpty We eq_refl eq_refl eq_refl Fe eq_refl eq_refl)).
Defined.

(** * Swapping A and B *)

Lemma Frame_set_swapAB (v : bool) : Frame (set_swapAB v).
Proof. constructor; reflexivity. Qed.

Section FrameLemmas.
Variable f : State -> State.
Hypothesis Hf : Frame f.

Lemma frame_fields (s : State) :
  queue (f s) = queue s /\ qHead (f s) = qHead s /\ qTail (f s) = qTail s.
Proof.
  pose proof (frame_ring f Hf s) as H. inversion H. auto.
Qed.

Lemma frame_enqueue (b : Z) (s : State) : enqueue b (f s) = f (enqueue b s).
Proof.
  destruct (frame_fields s) as (Hq & Hh & Ht).
  unfold enqueue. rewrite Hh, Ht. destruct (negb _); [|reflexivity].
  unfold seqc, storeQueue. rewrite Hq.
  rewrite (frame_set_qHead f Hf), (frame_set_queue f Hf). reflexivity.
Qed.

Lemma frame_enqueuePause (s : State) : enqueuePause (f s) = f (enqueuePause s).
Proof.
  destruct (frame_fields s) as (Hq & Hh & Ht).
  unfold enqueuePause. rewrite Hh, Ht. destruct (_ >=? 8); [|reflexivity].
  apply for_range_commute. intros i t _.
  destruct (frame_fields t) as (Hq' & Hh' & Ht').
  unfold seqc, storeQueue. rewrite Hq', Hh'.
  rewrite (frame_set_qHead f Hf), (frame_set_queue f Hf). reflexivity.
Qed.

Lemma frame_sendMake (code : Z) (ext : bool) (s : State) :
  sendMake code ext (f s) = f (sendMake code ext s).
Proof.
  unfold sendMake. destruct (code =? NO_KEY); [reflexivity|].
  destruct (code =? PAUSE_CODE); [apply frame_enqueuePause|].
  unfold seqc, when, skip. destruct ext; rewrite ?frame_enqueue; reflexivity.
Qed.

Lemma frame_sendBreak (code : Z) (ext : bool) (s : State) :
  sendBreak code ext (f s) = f (sendBreak code ext s).
Proof.
  unfold sendBreak. destruct (code =? NO_KEY); [reflexivity|].
  destruct (code =? PAUSE_CODE); [reflexivity|].
  unfold seqc, when, skip. destruct ext; rewrite ?frame_enqueue; reflexivity.
Qed.

Lemma frame_setButton (i : nat) (v : bool) (s : State) :
  setButton i v (f s) = f (setButton i v s).
Proof.
  unfold setButton.
  rewrite (frame_buttons f Hf), (frame_set_buttonState f Hf). reflexivity.
Qed.
End FrameLemmas.

Lemma edgeDetect_edgeLoop (keys : list Z) (ext : list bool) (state : Z)
      (s : State) :
  edgeDetect keys ext state s =
  edgeLoop (buttonPressed
              (if swapAB s then lnot (Z.land state 2) else lnot (Z.land state 1))
              (if swapAB s then lnot (Z.land state 1) else lnot (Z.land state 2))
              state)
           keys ext s.
Proof. unfold edgeDetect, edgeLoop. apply for_range_ext. reflexivity. Qed.

Lemma edgeLoop_ext (ps ps' : nat -> bool) (keys : list Z) (ext : list bool)
      (s : State) :
  (forall i, (i < BUTTON_COUNT)%nat -> ps i = ps' i) ->
  edgeLoop ps keys ext s = edgeLoop ps' keys ext s.
Proof.
  intros H. apply for_range_ext. intros i t Hi. cbv zeta.
  rewrite (H i Hi). reflexivity.
Qed.

Lemma edgeLoop_frame (f : State -> State) (ps : nat -> bool) (keys : list Z)
      (ext : list bool) (s : State) :
  Frame f -> edgeLoop ps keys ext (f s) = f (edgeLoop ps keys ext s).
Proof.
  intros Hf. apply for_range_commute. intros i t _. cbv zeta.
  rewrite (frame_buttons f Hf). unfold seqc.
  destruct (ps i && negb (buttonState t !!! i)).
  - rewrite frame_sendMake, frame_setButton by exact Hf. reflexivity.
  - destruct (negb (ps i) && (buttonState t !!! i)); [|reflexivity].
    rewrite frame_sendBreak, frame_setButton by exact Hf. reflexivity.
Qed.

Lemma processQueue_set_swapAB (now1 now2 : Z) (v : bool) (s : State) :
  processQueue now1 now2 (set_swapAB v s) =
  set_swapAB v (processQueue now1 now2 s).
Proof.
  unfold processQueue. simpl. destruct (_ =? _); [reflexivity|].
  destruct (_ <? _); reflexivity.
Qed.

Lemma leaveSelect_set_swapAB (v : bool) (s : State) :
  leaveSelect (set_swapAB v s) = set_swapAB v (leaveSelect s).
Proof. unfold leaveSelect. simpl. destruct (selectMode s); reflexivity. Qed.

(** A cycle with Select released, with the swap flag pulled out. *)
Lemma loop_released_swap (inp : Inputs) (v : bool) (s : State) :
  lnot (Z.land (readNES (nes_data inp)) (Z.shiftl 1 2)) = false ->
  loop inp (set_swapAB v s) =
  set_lastNesState (readNES (nes_data inp))
    (set_swapAB v
       (edgeLoop (buttonPressed
                    (if v then lnot (Z.land (readNES (nes_data inp)) 2)
                     else lnot (Z.land (readNES (nes_data inp)) 1))
                    (if v then lnot (Z.land (readNES (nes_data inp)) 1)
                     else lnot (Z.land (readNES (nes_data inp)) 2))
                    (readNES (nes_data inp)))
                 (keysOf (layout s)) (extOf (layout s))
                 (leaveSelect (processQueue (micros1 inp) (micros2 inp) s)))).
Proof.
  intros Hsel. rewrite loop_select_released by exact Hsel.
  rewrite processQueue_set_swapAB, leaveSelect_set_swapAB.
  unfold normalOperation, seqc. rewrite edgeDetect_edgeLoop.
  change (swapAB (set_swapAB v ?t)) with v.
  change (layout (set_swapAB v s)) with (layout s).
  rewrite (edgeLoop_frame (set_swapAB v)) by apply Frame_set_swapAB.
  reflexivity.
Qed.

Lemma keyB_plain (l : Z) :
  0 <= l < 4 ->
  make_bytes (keysOf l !!! 1%nat) (extOf l !!! 1%nat) = [keysOf l !!! 1%nat].
Proof.
  intros Hl. assert (Hc : l = 0 \/ l = 1 \/ l = 2 \/ l = 3) by lia.
  destruct Hc as [-> | [-> | [-> | ->]]]; reflexivity.
Qed.

(** Only B pressed, swapAB off, from an all-released state. *)
Lemma loop_only_B (inpB : Inputs) (s : State) :
  0 <= layout s < 4 ->
  readNES (nes_data inpB) = 0xFD ->
  wfq s -> buttonState s = replicate BUTTON_COUNT false -> 1 <= freeSlots s ->
  contents (loop inpB (set_swapAB false s)) =
  contents (processQueue (micros1 inpB) (micros2 inpB) s)
  ++ [keysOf (layout s) !!! 1%nat].
Proof.
  intros Hl HB Hw Hb Hfree.
  pose proof (loop_select_released_spec inpB (set_swapAB false s)) as H.
  cbv zeta in H. rewrite HB, processQueue_set_swapAB in H.
  change (layout (set_swapAB false s)) with (layout s) in H.
  change (swapAB (set_swapAB false s)) with false in H.
  change (buttonState (set_swapAB false s)) with (buttonState s) in H.
  rewrite Hb in H.
  change (edge_bytes (keysOf (layout s)) (extOf (layout s))
                     (pressedList false 253) (replicate BUTTON_COUNT false))
    with (make_bytes (keysOf (layout s) !!! 1%nat)
                     (extOf (layout s) !!! 1%nat) ++ []) in H.
  rewrite app_nil_r, keyB_plain in H by exact Hl.
  destruct H as (_ & Hc & _);
    [exact Hw|reflexivity|reflexivity|simpl; exact Hfree|].
  exact Hc.
Qed.

Lemma swapped_pressed_agree (i : nat) :
  (i < BUTTON_COUNT)%nat ->
  buttonPressed (lnot (Z.land 254 2)) (lnot (Z.land 254 1)) 254 i =
  buttonPressed (lnot (Z.land 253 1)) (lnot (Z.land 253 2)) 253 i.
Proof.
  unfold BUTTON_COUNT. intros Hi.
  do 8 (destruct i as [|i]; [reflexivity|]). lia.
Qed.

Lemma loop_only_A_swapped (inp : Inputs) (s : State) :
  readNES (nes_data inp) = 0xFE ->
  loop inp (set_swapAB true s) =
  set_lastNesState 0xFE
    (set_swapAB true
       (edgeLoop (buttonPressed (lnot (Z.land 254 2)) (lnot (Z.land 254 1)) 254)
                 (keysOf (layout s)) (extOf (layout s))
                 (leaveSelect (processQueue (micros1 inp) (micros2 inp) s)))).
Proof.
  intros HA.
  rewrite (loop_released_swap inp) by (rewrite HA; reflexivity).
  rewrite HA. reflexivity.
Qed.

Lemma loop_only_B_plain (inp : Inputs) (s : State) :
  readNES (nes_data inp) = 0xFD ->
  loop inp (set_swapAB false s) =
  set_lastNesState 0xFD
    (set_swapAB false
       (edgeLoop (buttonPressed (lnot (Z.land 253 1)) (lnot (Z.land 253 2)) 253)
                 (keysOf (layout s)) (extOf (layout s))
                 (leaveSelect (processQueue (micros1 inp) (micros2 inp) s)))).
Proof.
  intros HB.
  rewrite (loop_released_swap inp) by (rewrite HB; reflexivity).
  rewrite HB. reflexivity.
Qed.

Lemma edgeLoop_swapped (inpA inpB : Inputs) (s : State) :
  micros1 inpA = micros1 inpB ->
  micros2 inpA = micros2 inpB ->
  edgeLoop (buttonPressed (lnot (Z.land 254 2)) (lnot (Z.land 254 1)) 254)
           (keysOf (layout s)) (extOf (layout s))
           (leaveSelect (processQueue (micros1 inpA) (micros2 inpA) s)) =
  edgeLoop (buttonPressed (lnot (Z.land 253 1)) (lnot (Z.land 253 2)) 253)
           (keysOf (layout s)) (extOf (layout s))
           (leaveSelect (processQueue (micros1 inpB) (micros2 inpB) s)).
Proof.
  intros Hm1 Hm2. rewrite Hm1, Hm2.
  apply edgeLoop_ext. exact swapped_pressed_agree.
Qed.

Lemma reswap (t : State) :
  set_lastNesState 0xFE (set_swapAB true t) =
  set_lastNesState 0xFE
    (set_swapAB true
       (set_lastNesState 0xFD
          (set_swapAB false (set_lastNesState 0xFD (set_swapAB false t))))).
Proof. reflexivity. Qed.

(** For the queue and the button states, a cycle with only A pressed and
    swapAB on is a cycle with only B pressed and swapAB off. *)
Lemma loop_A_swapped_as_B (inpA inpB : Inputs) (s : State) :
  readNES (nes_data inpA) = 0xFE ->
  readNES (nes_data inpB) = 0xFD ->
  micros1 inpA = micros1 inpB ->
  micros2 inpA = micros2 inpB ->
  loop inpA (set_swapAB true s) =
  set_lastNesState 0xFE
    (set_swapAB true
       (set_lastNesState 0xFD
          (set_swapAB false (loop inpB (set_swapAB false s))))).
Proof.
  intros HA HB Hm1 Hm2.
  rewrite (loop_only_B_plain inpB s HB), <- reswap.
  rewrite (loop_only_A_swapped inpA s HA).
  rewrite (edgeLoop_swapped inpA inpB s Hm1 Hm2).
  reflexivity.
Qed.

Lemma reswap_ring (t : State) :
  ring (set_lastNesState 0xFE
          (set_swapAB true
             (set_lastNesState 0xFD (set_swapAB false t)))) = ring t /\
  buttonState (set_lastNesState 0xFE
                 (set_swapAB true
                    (set_lastNesState 0xFD (set_swapAB false t)))) =
  buttonState t.
Proof. split; reflexivity. Qed.

(** C8: for every profile, a cycle in which only A is pressed with
    swapAB on leaves the queue and the button states exactly as a cycle in
    which only B is pressed with swapAB off, the two starting from the
    same state.  From an all-released state with a free slot, what both
    append is the one byte of the profile's B key. *)
Theorem C8_swap_invariant (inpA inpB : Inputs) (s : State) :
  0 <= layout s < 4 ->
  readNES (nes_data inpA) = 0xFE ->
  readNES (nes_data inpB) = 0xFD ->
  micros1 inpA = micros1 inpB ->
  micros2 inpA = micros2 inpB ->
  ring (loop inpA (set_swapAB true s)) = ring (loop inpB (set_swapAB false s)) /\
  buttonState (loop inpA (set_swapAB true s)) =
  buttonState (loop inpB (set_swapAB false s)) /\
  (wfq s -> buttonState s = replicate BUTTON_COUNT false -> 1 <= freeSlots s ->
   contents (loop inpA (set_swapAB true s)) =
   contents (processQueue (micros1 inpA) (micros2 inpA) s)
   ++ [keysOf (layout s) !!! 1%nat] /\
   contents (loop inpB (set_swapAB false s)) =
   contents (processQueue (micros1 inpB) (micros2 inpB) s)
   ++ [keysOf (layout s) !!! 1%nat]).
Proof.
  intros Hl HA HB Hm1 Hm2.
  pose proof (loop_only_B inpB s Hl HB) as HcB.
  pose proof (loop_A_swapped_as_B inpA inpB s HA HB Hm1 Hm2) as Heq.
  revert HcB Heq. generalize (loop inpB (set_swapAB false s)).
  intros L HcB ->. destruct (reswap_ring L) as [Hr Hbs].
  split; [exact Hr|]. split; [exact Hbs|].
  intros Hw Hb Hfree. split; [|exact (HcB Hw Hb Hfree)].
  rewrite (contents_ring _ _ Hr), Hm1, Hm2. exact (HcB Hw Hb Hfree).
Qed.

Lemma C8_swap_invariant_witness :
  0 <= layout stateEmpty < 4 /\ wfq stateEmpty /\ 1 <= freeSlots stateEmpty /\
  contents (loop (mkInputs 0 0 (pinsOf 0xFE)) (set_swapAB true stateEmpty)) =
  [PS2_9] /\
  contents (loop (mkInputs 0 0 (pinsOf 0xFD)) (set_swapAB false stateEmpty)) =
  [PS2_9].
Proof.
  assert (Hl : 0 <= layout stateEmpty < 4) by (cbn; lia).
  assert (We : wfq stateEmpty) by wfq_concrete.
  assert (Fe : 1 <= freeSlots stateEmpty) by (vm_compute; discriminate).
  split; [exact Hl|]. split; [exact We|]. split; [exact Fe|].
  exact (proj2 (proj2 (C8_swap_invariant
                         (mkInputs 0 0 (pinsOf 0xFE)) (mkInputs 0 0 (pinsOf 0xFD))
                         stateEmpty Hl eq_refl eq_refl eq_refl eq_refl))
               We eq_refl Fe).
Defined.

(** * Configuration mode *)

Lemma releaseAll_config (keys : list Z) (ext : list bool) (s : State) :
  config (releaseAll keys ext s) = config s.
Proof.
  unfold releaseAll.
  apply (for_range_ind (fun _ t => config t = config s)); [reflexivity|].
  intros i t _ Hc. destruct (buttonState t !!! i); [|exact Hc].
  unfold seqc, setButton.
  change (config (set_buttonState ?v ?u)) with (config u).
  destruct (sendBreak_frame (keys !!! i) (ext !!! i) t) as [_ ->]. exact Hc.
Qed.

Lemma enterSelect_config (s1 : State) :
  selectMode (enterSelect s1) = true /\
  lastNesState (enterSelect s1) = lastNesState s1 /\
  layout (enterSelect s1) = layout s1 /\
  swapAB (enterSelect s1) = swapAB s1 /\
  eeprom (enterSelect s1) = eeprom s1 /\
  trace (enterSelect s1) = trace s1.
Proof.
  unfold enterSelect. destruct (selectMode s1) eqn:E; [repeat split; exact E|].
  unfold seqc.
  pose proof (releaseAll_config (keysOf (layout s1)) (extOf (layout s1))
                                (set_selectMode true s1)) as Hc.
  generalize dependent (releaseAll (keysOf (layout s1)) (extOf (layout s1))
                                   (set_selectMode true s1)).
  intros t Hc. unfold config in Hc. simpl in Hc. inversion Hc. repeat split.
Qed.

Lemma loop_select_pressed (inp : Inputs) (s : State) :
  pressedIn (readNES (nes_data inp)) 2 = true ->
  loop inp s =
  configCycle (keysOf (layout s)) (extOf (layout s)) (readNES (nes_data inp))
              (enterSelect (processQueue (micros1 inp) (micros2 inp) s)).
Proof.
  unfold pressedIn. intros Hsel.
  assert (Hsel' : lnot (Z.land (readNES (nes_data inp)) (Z.shiftl 1 2)) = true)
    by (rewrite lnot_land_bit by lia; exact Hsel).
  destruct (processQueue_frame (micros1 inp) (micros2 inp) s)
    as (_ & Hl & _).
  pose proof (enterSelect_config (processQueue (micros1 inp) (micros2 inp) s))
    as (Hm & _).
  unfold loop. rewrite Hsel'. cbn [andb negb]. rewrite <- Hl.
  unfold enterSelect in *.
  destruct (selectMode (processQueue (micros1 inp) (micros2 inp) s)) eqn:E.
  - cbn [negb]. rewrite E. reflexivity.
  - cbn [negb]. rewrite Hm. reflexivity.
Qed.

Lemma fresh_code (last state bit : Z) :
  0 <= bit ->
  lnot (Z.land state (Z.shiftl 1 bit)) && truthy (Z.land last (Z.shiftl 1 bit)) =
  freshPress last state bit.
Proof.
  intros Hb. rewrite lnot_land_bit, truthy_land_bit by exact Hb.
  unfold freshPress, pressedIn. rewrite negb_involutive. reflexivity.
Qed.

Lemma selectLayout_dirChoice (state : Z) (s : State) :
  selectLayout state s =
  match dirChoice state with
  | Some l => (set_layout l s, true)
  | None => (s, false)
  end.
Proof.
  unfold selectLayout, dirChoice. rewrite !lnot_land_bit by lia.
  fold (pressedIn state 5) (pressedIn state 6) (pressedIn state 7)
       (pressedIn state 4).
  destruct (pressedIn state 5); [reflexivity|].
  destruct (pressedIn state 6); [reflexivity|].
  destruct (pressedIn state 7); [reflexivity|].
  destruct (pressedIn state 4); reflexivity.
Qed.

(** The four ways through the configuration logic. *)
Lemma configCycle_swap_off (keys : list Z) (ext : list bool) (state : Z)
      (s3 : State) :
  freshPress (lastNesState s3) state 0 = true ->
  configCycle keys ext state s3 =
  normalOperation keys ext state (delay 300 (saveConfig (set_swapAB false s3))).
Proof.
  intros HA. unfold configCycle. cbv zeta. rewrite fresh_code, HA by lia.
  reflexivity.
Qed.

Lemma configCycle_swap_on (keys : list Z) (ext : list bool) (state : Z)
      (s3 : State) :
  freshPress (lastNesState s3) state 0 = false ->
  freshPress (lastNesState s3) state 1 = true ->
  configCycle keys ext state s3 =
  normalOperation keys ext state (delay 300 (saveConfig (set_swapAB true s3))).
Proof.
  intros HA HB. unfold configCycle. cbv zeta.
  rewrite !fresh_code, HA, HB by lia. reflexivity.
Qed.

Lemma configCycle_layout (keys : list Z) (ext : list bool) (state l : Z)
      (s3 : State) :
  freshPress (lastNesState s3) state 0 = false ->
  freshPress (lastNesState s3) state 1 = false ->
  dirChoice state = Some l ->
  configCycle keys ext state s3 =
  set_lastNesState state
    (delay 300
       (saveConfig
          (for_range BUTTON_COUNT (fun i => setButton i false)
                     (releaseAll keys ext (set_layout l s3))))).
Proof.
  intros HA HB Hd. unfold configCycle. cbv zeta.
  rewrite !fresh_code, HA, HB, selectLayout_dirChoice, Hd by lia.
  reflexivity.
Qed.

Lemma configCycle_idle (keys : list Z) (ext : list bool) (state : Z)
      (s3 : State) :
  freshPress (lastNesState s3) state 0 = false ->
  freshPress (lastNesState s3) state 1 = false ->
  dirChoice state = None ->
  configCycle keys ext state s3 = normalOperation keys ext state s3.
Proof.
  intros HA HB Hd. unfold configCycle. cbv zeta.
  rewrite !fresh_code, HA, HB, selectLayout_dirChoice, Hd by lia.
  reflexivity.
Qed.

Lemma clear_buttons (s : State) :
  length (buttonState s) = BUTTON_COUNT ->
  for_range BUTTON_COUNT (fun i => setButton i false) s =
  set_buttonState (replicate BUTTON_COUNT false) s.
Proof.
  intros Hl. set (bs0 := buttonState s).
  replace (replicate BUTTON_COUNT false)
    with (replicate BUTTON_COUNT false ++ drop BUTTON_COUNT bs0)
    by (rewrite drop_ge by (fold bs0 in Hl; lia); apply app_nil_r).
  apply (for_range_ind
           (fun i t => t = set_buttonState (replicate i false ++ drop i bs0) s)).
  - symmetry. apply set_buttonState_id.
  - intros i t Hi ->. fold bs0 in Hl. unfold setButton.
    change (buttonState (set_buttonState ?v ?u)) with v.
    rewrite clear_step by lia. reflexivity.
Qed.

Lemma enterSelect_spec (s1 : State) :
  length (buttonState s1) = BUTTON_COUNT ->
  enterSelect s1 =
  if selectMode s1 then s1
  else set_buttonState
         (replicate BUTTON_COUNT false)
         (enqueueAll (release_bytes (keysOf (layout s1)) (extOf (layout s1))
                                    (buttonState s1))
                     (set_selectMode true s1)).
Proof.
  intros Hl. unfold enterSelect. destruct (selectMode s1); [reflexivity|].
  unfold seqc. rewrite releaseAll_spec by exact Hl. reflexivity.
Qed.

Lemma release_bytes_none (keys : list Z) (ext : list bool) :
  release_bytes keys ext (replicate BUTTON_COUNT false) = [].
Proof. reflexivity. Qed.

(** What is left of the state after the tail of the layout-switch
    branch. *)
Lemma switch_tail (state : Z) (t : State) :
  let s' := set_lastNesState state
              (delay 300
                 (saveConfig (set_buttonState (replicate BUTTON_COUNT false) t))) in
  ring s' = ring t /\
  buttonState s' = replicate BUTTON_COUNT false /\
  layout s' = layout t /\
  swapAB s' = swapAB t /\
  selectMode s' = selectMode t /\
  lastNesState s' = state /\
  eeprom s' = u8 (Z.lor (layout t) (Z.shiftl (b2z (swapAB t)) 2)) /\
  trace s' = trace t ++
             [EepromWrite EEPROM_ADDR
                (u8 (Z.lor (layout t) (Z.shiftl (b2z (swapAB t)) 2)));
              Delay 300].
Proof.
  cbv zeta. repeat split. unfold delay, saveConfig, EEPROM_write, seqc, emit.
  cbn [trace]. rewrite <- app_assoc. reflexivity.
Qed.

(** The layout-switch branch, from the state that reaches the
    configuration logic. *)
Lemma switch_branch (keys : list Z) (ext : list bool) (state l : Z)
      (s3 : State) :
  length (buttonState s3) = BUTTON_COUNT ->
  set_lastNesState state
    (delay 300
       (saveConfig
          (for_range BUTTON_COUNT (fun i => setButton i false)
                     (releaseAll keys ext (set_layout l s3))))) =
  set_lastNesState state
    (delay 300
       (saveConfig
          (set_buttonState
             (replicate BUTTON_COUNT false)
             (enqueueAll (release_bytes keys ext (buttonState s3))
                         (set_layout l s3))))).
Proof.
  intros Hl. rewrite releaseAll_spec by exact Hl.
  rewrite clear_buttons by reflexivity.
  change (buttonState (set_layout l s3)) with (buttonState s3).
  reflexivity.
Qed.

Lemma config_fields (s t : State) :
  config s = config t ->
  layout s = layout t /\ swapAB s = swapAB t /\ selectMode s = selectMode t /\
  lastNesState s = lastNesState t /\ eeprom s = eeprom t /\ trace s = trace t.
Proof. unfold config. intros H. inversion H. auto 10. Qed.

Lemma enterSelect_length (s1 : State) :
  length (buttonState s1) = BUTTON_COUNT ->
  length (buttonState (enterSelect s1)) = BUTTON_COUNT.
Proof.
  intros Hl. rewrite enterSelect_spec by exact Hl.
  destruct (selectMode s1); [exact Hl|reflexivity].
Qed.

(** Releasing under the old layout once the new index is stored, after
    the release (if any) made on entering configuration mode: together
    they offer each pressed button's release encoding to the queue once. *)
Lemma release_once (l : Z) (s1 : State) :
  length (buttonState s1) = BUTTON_COUNT ->
  let keys := keysOf (layout s1) in
  let ext := extOf (layout s1) in
  let s3 := enterSelect s1 in
  let t := enqueueAll (release_bytes keys ext (buttonState s3)) (set_layout l s3) in
  ring t = ring (enqueueAll (release_bytes keys ext (buttonState s1)) s1) /\
  layout t = l /\ swapAB t = swapAB s1 /\ selectMode t = true /\
  trace t = trace s1.
Proof.
  intros Hl keys ext s3 t.
  destruct (enterSelect_config s1) as (Hm & _ & _ & Hsw & _ & Htr).
  fold s3 in Hm, Hsw, Htr.
  destruct (enqueueAll_frame (release_bytes keys ext (buttonState s3))
                             (set_layout l s3)) as [_ Hc].
  fold t in Hc. apply config_fields in Hc.
  destruct Hc as (H1 & H2 & H3 & _ & _ & H4).
  cbn [layout swapAB selectMode trace set_layout] in H1, H2, H3, H4.
  split; [|rewrite H1, H2, H3, H4, Hsw, Hm, Htr; auto].
  unfold t, s3. rewrite enterSelect_spec by exact Hl. fold keys ext.
  destruct (selectMode s1).
  - apply enqueueAll_ring. reflexivity.
  - change (buttonState (set_buttonState ?v ?u)) with v.
    rewrite release_bytes_none.
    change (ring (enqueueAll (release_bytes keys ext (buttonState s1))
                             (set_selectMode true s1)) =
            ring (enqueueAll (release_bytes keys ext (buttonState s1)) s1)).
    apply enqueueAll_ring. reflexivity.
Qed.

(** A cycle that takes the layout-switch branch. *)
Lemma layout_switch_cycle (inp : Inputs) (s : State) (l : Z) :
  let state := readNES (nes_data inp) in
  let s1 := processQueue (micros1 inp) (micros2 inp) s in
  let bytes := release_bytes (keysOf (layout s)) (extOf (layout s))
                             (buttonState s) in
  length (buttonState s) = BUTTON_COUNT ->
  pressedIn state 2 = true ->
  freshPress (lastNesState s) state 0 = false ->
  freshPress (lastNesState s) state 1 = false ->
  dirChoice state = Some l ->
  ring (loop inp s) = ring (enqueueAll bytes s1) /\
  buttonState (loop inp s) = replicate BUTTON_COUNT false /\
  layout (loop inp s) = l /\
  swapAB (loop inp s) = swapAB s /\
  selectMode (loop inp s) = true /\
  lastNesState (loop inp s) = state /\
  eeprom (loop inp s) = u8 (Z.lor l (Z.shiftl (b2z (swapAB s)) 2)) /\
  trace (loop inp s) =
  trace s1 ++ [EepromWrite EEPROM_ADDR
                 (u8 (Z.lor l (Z.shiftl (b2z (swapAB s)) 2)));
               Delay 300].
Proof.
  intros state s1 bytes Hl Hsel HA HB Hd.
  destruct (processQueue_frame (micros1 inp) (micros2 inp) s)
    as (Hb1 & Hl1 & Hs1 & _ & Hn1 & _).
  fold s1 in Hb1, Hl1, Hs1, Hn1.
  assert (Hlen1 : length (buttonState s1) = BUTTON_COUNT) by congruence.
  destruct (enterSelect_config s1) as (_ & Hn3 & _).
  rewrite loop_select_pressed by exact Hsel. fold state s1.
  rewrite (configCycle_layout _ _ _ l) by (rewrite ?Hn3, ?Hn1; assumption).
  rewrite switch_branch by (apply enterSelect_length, Hlen1).
  destruct (release_once l s1 Hlen1) as (Hr & Hlay & Hsw & Hm & Htr).
  assert (Hbytes : release_bytes (keysOf (layout s1)) (extOf (layout s1))
                                 (buttonState s1) = bytes)
    by (unfold bytes; rewrite Hl1, Hb1; reflexivity).
  rewrite Hbytes in Hr. rewrite <- Hl1.
  set (t := enqueueAll _ (set_layout l (enterSelect s1))) in *.
  clearbody t.
  destruct (switch_tail state t) as (T1 & T2 & T3 & T4 & T5 & T6 & T7 & T8).
  rewrite T1, T2, T3, T4, T5, T6, T7, T8, Hr, Hlay, Hsw, Hm, Htr, Hs1.
  repeat split.
Qed.

(** What the swap branch leaves before "Normal Operation" starts. *)
Lemma swap_prelude (v : bool) (s3 : State) :
  let pre := delay 300 (saveConfig (set_swapAB v s3)) in
  ring pre = ring s3 /\
  buttonState pre = buttonState s3 /\
  layout pre = layout s3 /\
  swapAB pre = v /\
  eeprom pre = u8 (Z.lor (layout s3) (Z.shiftl (b2z v) 2)) /\
  trace pre = trace s3 ++
              [EepromWrite EEPROM_ADDR
                 (u8 (Z.lor (layout s3) (Z.shiftl (b2z v) 2)));
               Delay 300].
Proof.
  cbv zeta. repeat split. unfold delay, saveConfig, EEPROM_write, seqc, emit.
  cbn [trace]. rewrite <- app_assoc. reflexivity.
Qed.

Lemma set_lastNesState_fields (v : Z) (t : State) :
  ring (set_lastNesState v t) = ring t /\
  buttonState (set_lastNesState v t) = buttonState t /\
  lastNesState (set_lastNesState v t) = v /\
  layout (set_lastNesState v t) = layout t /\
  swapAB (set_lastNesState v t) = swapAB t /\
  eeprom (set_lastNesState v t) = eeprom t /\
  trace (set_lastNesState v t) = trace t.
Proof. repeat split. Qed.

(** "Normal Operation" run from [pre]: the button states end up as the
    mask says, the mask is stored, and nothing else of the configuration
    changes. *)
Lemma normalOperation_fields (keys : list Z) (ext : list bool) (state : Z)
      (pre : State) :
  length (buttonState pre) = BUTTON_COUNT ->
  buttonState (normalOperation keys ext state pre) =
  pressedList (swapAB pre) state /\
  lastNesState (normalOperation keys ext state pre) = state /\
  layout (normalOperation keys ext state pre) = layout pre /\
  swapAB (normalOperation keys ext state pre) = swapAB pre /\
  eeprom (normalOperation keys ext state pre) = eeprom pre /\
  trace (normalOperation keys ext state pre) = trace pre.
Proof.
  intros Hl. destruct (edgeDetect_buttons keys ext state pre Hl) as [Hb Hc].
  apply config_fields in Hc. destruct Hc as (H1 & H2 & _ & _ & H3 & H4).
  unfold normalOperation, seqc.
  destruct (set_lastNesState_fields state (edgeDetect keys ext state pre))
    as (_ & F1 & F2 & F3 & F4 & F5 & F6).
  rewrite F1, F2, F3, F4, F5, F6. auto 10.
Qed.

(** A cycle that takes one of the two swap branches. *)
Lemma swap_cycle (inp : Inputs) (s : State) (v : bool) :
  let state := readNES (nes_data inp) in
  let s1 := processQueue (micros1 inp) (micros2 inp) s in
  let keys := keysOf (layout s) in
  let ext := extOf (layout s) in
  length (buttonState s) = BUTTON_COUNT ->
  pressedIn state 2 = true ->
  (if v
   then freshPress (lastNesState s) state 0 = false /\
        freshPress (lastNesState s) state 1 = true
   else freshPress (lastNesState s) state 0 = true) ->
  loop inp s =
  normalOperation keys ext state
                  (delay 300 (saveConfig (set_swapAB v (enterSelect s1)))) /\
  swapAB (loop inp s) = v /\
  layout (loop inp s) = layout s /\
  eeprom (loop inp s) = u8 (Z.lor (layout s) (Z.shiftl (b2z v) 2)) /\
  trace (loop inp s) =
  trace s1 ++ [EepromWrite EEPROM_ADDR
                 (u8 (Z.lor (layout s) (Z.shiftl (b2z v) 2)));
               Delay 300] /\
  buttonState (loop inp s) = pressedList v state /\
  lastNesState (loop inp s) = state.
Proof.
  intros state s1 keys ext Hl Hsel Hfresh.
  destruct (processQueue_frame (micros1 inp) (micros2 inp) s)
    as (Hb1 & Hl1 & Hs1 & _ & Hn1 & _).
  fold s1 in Hb1, Hl1, Hs1, Hn1.
  assert (Hlen1 : length (buttonState s1) = BUTTON_COUNT) by congruence.
  destruct (enterSelect_config s1) as (_ & Hn3 & Hl3 & _ & _ & Ht3).
  pose proof (enterSelect_length s1 Hlen1) as Hlen3.
  assert (Heq : loop inp s =
                normalOperation keys ext state
                  (delay 300 (saveConfig (set_swapAB v (enterSelect s1))))).
  { rewrite loop_select_pressed by exact Hsel. fold state s1 keys ext.
    destruct v.
    - destruct Hfresh as [HA HB].
      apply configCycle_swap_on; rewrite Hn3, Hn1; assumption.
    - apply configCycle_swap_off. rewrite Hn3, Hn1. assumption. }
  split; [exact Heq|]. rewrite Heq.
  destruct (swap_prelude v (enterSelect s1)) as (_ & P2 & P3 & P4 & P5 & P6).
  destruct (normalOperation_fields
              keys ext state
              (delay 300 (saveConfig (set_swapAB v (enterSelect s1)))))
    as (N1 & N2 & N3 & N4 & N5 & N6); [rewrite P2; exact Hlen3|].
  rewrite N1, N2, N3, N4, N5, N6, P3, P4, P5, P6, Hl3, Ht3, Hl1.
  repeat split.
Qed.

(** A cycle in configuration mode in which no branch matches. *)
Lemma idle_cycle (inp : Inputs) (s : State) :
  let state := readNES (nes_data inp) in
  let s1 := processQueue (micros1 inp) (micros2 inp) s in
  length (buttonState s) = BUTTON_COUNT ->
  pressedIn state 2 = true ->
  freshPress (lastNesState s) state 0 = false ->
  freshPress (lastNesState s) state 1 = false ->
  dirChoice state = None ->
  loop inp s =
  normalOperation (keysOf (layout s)) (extOf (layout s)) state (enterSelect s1) /\
  layout (loop inp s) = layout s /\
  swapAB (loop inp s) = swapAB s /\
  eeprom (loop inp s) = eeprom s /\
  trace (loop inp s) = trace s1 /\
  buttonState (loop inp s) = pressedList (swapAB s) state /\
  lastNesState (loop inp s) = state.
Proof.
  intros state s1 Hl Hsel HA HB Hd.
  destruct (processQueue_frame (micros1 inp) (micros2 inp) s)
    as (Hb1 & Hl1 & Hs1 & _ & Hn1 & He1).
  fold s1 in Hb1, Hl1, Hs1, Hn1, He1.
  assert (Hlen1 : length (buttonState s1) = BUTTON_COUNT) by congruence.
  destruct (enterSelect_config s1) as (_ & Hn3 & Hl3 & Hs3 & He3 & Ht3).
  pose proof (enterSelect_length s1 Hlen1) as Hlen3.
  assert (Heq : loop inp s =
                normalOperation (keysOf (layout s)) (extOf (layout s)) state
                                (enterSelect s1)).
  { rewrite loop_select_pressed by exact Hsel. fold state s1.
    apply configCycle_idle; rewrite ?Hn3, ?Hn1; assumption. }
  split; [exact Heq|]. rewrite Heq.
  destruct (normalOperation_fields
              (keysOf (layout s)) (extOf (layout s)) state (enterSelect s1) Hlen3)
    as (N1 & N2 & N3 & N4 & N5 & N6).
  rewrite N1, N2, N3, N4, N5, N6, Hl3, Hs3, He3, Ht3, Hl1, Hs1, He1.
  repeat split.
Qed.

Lemma pressedList_select (swap : bool) (state : Z) :
  pressedList swap state !!! 2%nat = pressedIn state 2.
Proof.
  rewrite pressedList_lookup by (unfold BUTTON_COUNT; lia).
  unfold buttonPressed, pressedIn.
  change (nesBitIndex !!! 2%nat) with 2. cbn [Nat.eqb].
  apply lnot_land_bit. lia.
Qed.

(** * Reachable states *)

Lemma sendMake_wfq (code : Z) (ext : bool) (s : State) :
  wfq s -> wfq (sendMake code ext s).
Proof.
  intros Hw. rewrite sendMake_enqueueAll by exact Hw.
  destruct (_ && _); [exact Hw|apply enqueueAll_wfq, Hw].
Qed.

Lemma sendBreak_wfq (code : Z) (ext : bool) (s : State) :
  wfq s -> wfq (sendBreak code ext s).
Proof. intros Hw. rewrite sendBreak_enqueueAll. apply enqueueAll_wfq, Hw. Qed.

Lemma setButton_ring (i : nat) (v : bool) (s : State) :
  ring (setButton i v s) = ring s.
Proof. reflexivity. Qed.

Lemma edgeDetect_wfq (keys : list Z) (ext : list bool) (state : Z) (s : State) :
  wfq s -> wfq (edgeDetect keys ext state s).
Proof.
  intros Hw. unfold edgeDetect.
  apply (for_range_ind (fun _ t => wfq t)); [exact Hw|].
  intros i t _ Ht. cbv zeta. unfold seqc.
  destruct (_ && negb _).
  - apply (wfq_ring (sendMake (keys !!! i) (ext !!! i) t));
      [symmetry; apply setButton_ring|apply sendMake_wfq, Ht].
  - destruct (negb _ && _); [|exact Ht].
    apply (wfq_ring (sendBreak (keys !!! i) (ext !!! i) t));
      [symmetry; apply setButton_ring|apply sendBreak_wfq, Ht].
Qed.

Lemma normalOperation_inv (keys : list Z) (ext : list bool) (state : Z)
      (pre : State) :
  inv pre -> inv (normalOperation keys ext state pre).
Proof.
  intros (Hw & Hl & Hr).
  destruct (normalOperation_fields keys ext state pre Hl) as (N1 & _ & N3 & _).
  split; [|split].
  - unfold normalOperation, seqc.
    destruct (set_lastNesState_fields state (edgeDetect keys ext state pre))
      as (Hring & _).
    apply (wfq_ring (edgeDetect keys ext state pre));
      [symmetry; exact Hring|apply edgeDetect_wfq, Hw].
  - rewrite N1. apply pressedList_length.
  - rewrite N3. exact Hr.
Qed.

Lemma enterSelect_wfq (s1 : State) :
  wfq s1 -> length (buttonState s1) = BUTTON_COUNT -> wfq (enterSelect s1).
Proof.
  intros Hw Hl. rewrite enterSelect_spec by exact Hl.
  destruct (selectMode s1); [exact Hw|].
  apply (wfq_ring (enqueueAll (release_bytes (keysOf (layout s1))
                                             (extOf (layout s1))
                                             (buttonState s1))
                              (set_selectMode true s1)));
    [reflexivity|].
  apply enqueueAll_wfq. exact Hw.
Qed.

Lemma dirChoice_range (state l : Z) : dirChoice state = Some l -> 0 <= l < 4.
Proof.
  unfold dirChoice.
  destruct (pressedIn state 5); [intros [= <-]; lia|].
  destruct (pressedIn state 6); [intros [= <-]; lia|].
  destruct (pressedIn state 7); [intros [= <-]; lia|].
  destruct (pressedIn state 4); [intros [= <-]; lia|discriminate].
Qed.

Lemma setup_inv (stored : Z) : inv (setup (initState stored)).
Proof.
  unfold setup. rewrite loadConfig_accepts.
  split; [|split].
  - unfold wfq. simpl. repeat split; lia.
  - reflexivity.
  - apply land3_range.
Qed.

(** Every cycle keeps the queue well formed, the button array at eight
    entries and the layout index inside the table. *)
Lemma loop_inv (inp : Inputs) (s : State) : inv s -> inv (loop inp s).
Proof.
  intros (Hw & Hl & Hr).
  set (state := readNES (nes_data inp)).
  set (s1 := processQueue (micros1 inp) (micros2 inp) s).
  destruct (processQueue_frame (micros1 inp) (micros2 inp) s)
    as (Hb1 & Hl1 & _). fold s1 in Hb1, Hl1.
  assert (Hw1 : wfq s1) by (apply processQueue_wfq, Hw).
  assert (Hlen1 : length (buttonState s1) = BUTTON_COUNT) by congruence.
  destruct (pressedIn state 2) eqn:Hsel.
  - destruct (enterSelect_config s1) as (_ & _ & Hl3 & _).
    assert (Hinv3 : inv (enterSelect s1)).
    { split; [apply enterSelect_wfq; assumption|].
      split; [apply enterSelect_length, Hlen1|]. rewrite Hl3, Hl1. exact Hr. }
    assert (Hswap : forall v,
               inv (delay 300 (saveConfig (set_swapAB v (enterSelect s1))))).
    { intros v. destruct Hinv3 as (W3 & L3 & R3).
      destruct (swap_prelude v (enterSelect s1)) as (P1 & P2 & P3 & _).
      split; [apply (wfq_ring (enterSelect s1)); [symmetry; exact P1|exact W3]|].
      split; [rewrite P2; exact L3|rewrite P3; exact R3]. }
    destruct (freshPress (lastNesState s) state 0) eqn:HA.
    { destruct (swap_cycle inp s false Hl Hsel HA) as (-> & _).
      apply normalOperation_inv, Hswap. }
    destruct (freshPress (lastNesState s) state 1) eqn:HB.
    { destruct (swap_cycle inp s true Hl Hsel (conj HA HB)) as (-> & _).
      apply normalOperation_inv, Hswap. }
    destruct (dirChoice state) as [l|] eqn:Hd.
    + destruct (layout_switch_cycle inp s l Hl Hsel HA HB Hd)
        as (Hring & Hb & Hlay & _).
      split; [|split].
      * apply (wfq_ring (enqueueAll (release_bytes (keysOf (layout s))
                                                   (extOf (layout s))
                                                   (buttonState s)) s1));
          [symmetry; exact Hring|apply enqueueAll_wfq, Hw1].
      * rewrite Hb. reflexivity.
      * rewrite Hlay. apply (dirChoice_range state), Hd.
    + destruct (idle_cycle inp s Hl Hsel HA HB Hd) as (-> & _).
      apply normalOperation_inv, Hinv3.
  - rewrite loop_select_released
      by (rewrite lnot_land_bit by lia; fold state;
          unfold pressedIn in Hsel; exact Hsel).
    apply normalOperation_inv. fold s1.
    destruct (leaveSelect_frame s1) as (Q1 & Q2 & _ & Q4).
    split; [apply (wfq_ring s1); [symmetry; exact Q1|exact Hw1]|].
    split; [rewrite Q2; exact Hlen1|rewrite Q4, Hl1; exact Hr].
Qed.

(** * Layout switch *)

(** C1: a cycle that switches layout ends with every button state false.
    On the way the release encoding of each button that was flagged is
    offered to the queue exactly once, in button order, with the key codes
    and extended flags of the layout that was active when the cycle began
    (so the queue receives exactly these bytes when they fit).  The rest
    of the cycle is skipped: the mask is stored, and the button states
    stay all false although Select is down in the mask, which edge
    detection would have recorded. *)
Theorem C1_layout_switch_releases_old_keys (inp : Inputs) (s : State) (l : Z) :
  let state := readNES (nes_data inp) in
  let s1 := processQueue (micros1 inp) (micros2 inp) s in
  let bytes := release_bytes (keysOf (layout s)) (extOf (layout s))
                             (buttonState s) in
  wfq s ->
  length (buttonState s) = BUTTON_COUNT ->
  buttonState s <> replicate BUTTON_COUNT false ->
  pressedIn state 2 = true ->
  freshPress (lastNesState s) state 0 = false ->
  freshPress (lastNesState s) state 1 = false ->
  dirChoice state = Some l ->
  buttonState (loop inp s) = replicate BUTTON_COUNT false /\
  ring (loop inp s) = ring (enqueueAll bytes s1) /\
  (Z.of_nat (length bytes) <= freeSlots s1 ->
   contents (loop inp s) = contents s1 ++ bytes) /\
  layout (loop inp s) = l /\
  lastNesState (loop inp s) = state /\
  buttonState (loop inp s) <> pressedList (swapAB (loop inp s)) state.
Proof.
  intros state s1 bytes Hw Hl _ Hsel HA HB Hd.
  destruct (layout_switch_cycle inp s l Hl Hsel HA HB Hd)
    as (Hr & Hb & Hlay & _ & _ & Hn & _).
  fold state s1 bytes in Hr, Hn.
  split; [exact Hb|]. split; [exact Hr|]. split; [|split; [exact Hlay|]].
  - intros Hroom. rewrite (contents_ring _ _ Hr).
    apply enqueueAll_room; [apply processQueue_wfq, Hw|exact Hroom].
  - split; [exact Hn|]. rewrite Hb. intros E.
    pose proof (pressedList_select (swapAB (loop inp s)) state) as Hp.
    rewrite <- E, Hsel in Hp. discriminate Hp.
Qed.

Lemma C1_layout_switch_releases_old_keys_witness :
  wfq stateConfig /\
  buttonState stateConfig = [false; false; true; false; false; false; false; false] /\
  buttonState (loop inputsSelectDown stateConfig) = replicate BUTTON_COUNT false /\
  contents (loop inputsSelectDown stateConfig) = [PS2_ESC; 0xF0; PS2_ESC] /\
  layout stateConfig = 2 /\
  layout (loop inputsSelectDown stateConfig) = 0.
Proof.
  assert (Hw : wfq stateConfig)
    by (unfold wfq; vm_compute; repeat split; discriminate).
  assert (Hne : buttonState stateConfig <> replicate BUTTON_COUNT false)
    by (vm_compute; discriminate).
  pose proof (C1_layout_switch_releases_old_keys
                inputsSelectDown stateConfig 0 Hw eq_refl Hne
                eq_refl eq_refl eq_refl eq_refl) as H.
  cbv zeta in H. destruct H as (Hb & _ & Hc & Hlay & _).
  split; [exact Hw|]. split; [reflexivity|]. split; [exact Hb|].
  split; [|split; [reflexivity|exact Hlay]].
  apply Hc. vm_compute. discriminate.
Defined.

(** C2, counterexample: after power-on hold Select, then press Down and
    A together and keep them held.  The cycle that sees the two presses
    takes the swap branch and leaves the layout at 2.  In the next cycle
    nothing is freshly pressed, Down having been down in the previous
    mask already, yet the cycle takes the layout-switch branch: the layout
    becomes 0, the settings are written and the delay is applied. *)
Lemma C2_held_direction_switches_layout :
  layout stateHeld = 2 /\
  pressedIn (lastNesState stateHeld) 5 = true /\
  specDirChoice (lastNesState stateHeld)
                (readNES (nes_data inputsSelectDownA)) = None /\
  layout (loop inputsSelectDownA stateHeld) = 0 /\
  trace stateHeld = [EepromWrite 0 2; Delay 300] /\
  trace (loop inputsSelectDownA stateHeld) =
  [EepromWrite 0 2; Delay 300; EepromWrite 0 0; Delay 300] /\
  ~ freshPressTriggersSwitch inputsSelectDownA stateHeld.
Proof.
  repeat (split; [reflexivity|]).
  intros H. specialize (H eq_refl eq_refl eq_refl).
  change (notSwitched (readNES (nes_data inputsSelectDownA)) stateHeld
                      (processQueue 0 0 stateHeld)
                      (loop inputsSelectDownA stateHeld)) in H.
  destruct H as (Hlay & _).
  assert (E1 : layout (loop inputsSelectDownA stateHeld) = 0) by reflexivity.
  assert (E2 : layout stateHeld = 2) by reflexivity.
  rewrite E1, E2 in Hlay. discriminate Hlay.
Qed.

(** C2, as the code has it: in a configuration-mode cycle without a fresh
    press of A or B, the layout switch is decided by this cycle's mask
    alone.  Down, Left, Right or Up being down selects profile 0, 1, 2 or
    3, Down before Left before Right before Up, whether or not the button
    was already down in the previous cycle; with none of them down there
    is no switch. *)
Theorem C2_layout_switch_level_triggered (inp : Inputs) (s : State) :
  let state := readNES (nes_data inp) in
  let s1 := processQueue (micros1 inp) (micros2 inp) s in
  length (buttonState s) = BUTTON_COUNT ->
  pressedIn state 2 = true ->
  freshPress (lastNesState s) state 0 = false ->
  freshPress (lastNesState s) state 1 = false ->
  (pressedIn state 5 = true -> switchedTo 0 s s1 (loop inp s)) /\
  (pressedIn state 5 = false -> pressedIn state 6 = true ->
   switchedTo 1 s s1 (loop inp s)) /\
  (pressedIn state 5 = false -> pressedIn state 6 = false ->
   pressedIn state 7 = true -> switchedTo 2 s s1 (loop inp s)) /\
  (pressedIn state 5 = false -> pressedIn state 6 = false ->
   pressedIn state 7 = false -> pressedIn state 4 = true ->
   switchedTo 3 s s1 (loop inp s)) /\
  (pressedIn state 5 = false -> pressedIn state 6 = false ->
   pressedIn state 7 = false -> pressedIn state 4 = false ->
   notSwitched state s s1 (loop inp s)).
Proof.
  intros state s1 Hl Hsel HA HB.
  assert (Hsw : forall l, dirChoice state = Some l ->
                          switchedTo l s s1 (loop inp s)).
  { intros l Hd.
    destruct (layout_switch_cycle inp s l Hl Hsel HA HB Hd)
      as (_ & Hb & Hlay & _ & _ & _ & He & Ht).
    unfold switchedTo. auto. }
  split; [|split; [|split; [|split]]].
  - intros H5. apply Hsw. unfold dirChoice. rewrite H5. reflexivity.
  - intros H5 H6. apply Hsw. unfold dirChoice. rewrite H5, H6. reflexivity.
  - intros H5 H6 H7. apply Hsw. unfold dirChoice. rewrite H5, H6, H7.
    reflexivity.
  - intros H5 H6 H7 H4. apply Hsw. unfold dirChoice.
    rewrite H5, H6, H7, H4. reflexivity.
  - intros H5 H6 H7 H4.
    assert (Hd : dirChoice state = None)
      by (unfold dirChoice; rewrite H5, H6, H7, H4; reflexivity).
    destruct (idle_cycle inp s Hl Hsel HA HB Hd)
      as (_ & I1 & _ & I2 & I3 & I4 & _).
    unfold notSwitched. auto.
Qed.

Lemma C2_layout_switch_level_triggered_witness :
  length (buttonState stateHeld) = BUTTON_COUNT /\
  pressedIn (lastNesState stateHeld) 5 = true /\
  pressedIn (readNES (nes_data inputsSelectDownA)) 5 = true /\
  switchedTo 0 stateHeld (processQueue 0 0 stateHeld)
             (loop inputsSelectDownA stateHeld).
Proof.
  split; [reflexivity|]. split; [reflexivity|]. split; [reflexivity|].
  exact (proj1 (C2_layout_switch_level_triggered
                  inputsSelectDownA stateHeld
                  eq_refl eq_refl eq_refl eq_refl) eq_refl).
Defined.

(** * Swap selection in configuration mode *)

(** C3, counterexample: after power-on, hold Select and then press A.
    The cycle that sees the fresh press of A writes the settings, waits,
    and then runs edge detection all the same: A's key code (0x45 under
    layout 2) is put in the queue and A's button state is set. *)
Lemma C3_swap_cycle_runs_edge_detection :
  freshPress (lastNesState stateConfig) (readNES (nes_data inputsSelectA)) 0
  = true /\
  trace (loop inputsSelectA stateConfig) = [EepromWrite 0 2; Delay 300] /\
  contents stateConfig = [PS2_ESC] /\
  contents (loop inputsSelectA stateConfig) = [PS2_ESC; PS2_0] /\
  buttonState (loop inputsSelectA stateConfig) =
  [true; false; true; false; false; false; false; false] /\
  ~ swapCycleReturns inputsSelectA stateConfig.
Proof.
  repeat (split; [reflexivity|]).
  intros H. destruct (H eq_refl (or_introl eq_refl)) as [_ Hb].
  assert (E1 : buttonState (loop inputsSelectA stateConfig) =
               [true; false; true; false; false; false; false; false])
    by reflexivity.
  assert (E2 : buttonState
                 (enterSelect (processQueue (micros1 inputsSelectA)
                                            (micros2 inputsSelectA) stateConfig)) =
               [false; false; true; false; false; false; false; false])
    by reflexivity.
  rewrite E1, E2 in Hb. discriminate Hb.
Qed.

(** C3, as the code has it: in a configuration-mode cycle a fresh press
    of A forces swapAB off and a fresh press of B (without one of A)
    forces it on; either way the settings are written, the 300 ms delay
    is applied, and the cycle then goes on into "Normal Operation", which
    brings the button states in line with the mask under the new swapAB.
    "Normal Operation" also runs when no branch matches; it is skipped
    only when the layout-switch branch is taken, which leaves every button
    state false. *)
Theorem C3_swap_then_normal_operation (inp : Inputs) (s : State) :
  let state := readNES (nes_data inp) in
  let s1 := processQueue (micros1 inp) (micros2 inp) s in
  let keys := keysOf (layout s) in
  let ext := extOf (layout s) in
  let saved (v : bool) :=
    EepromWrite EEPROM_ADDR (u8 (Z.lor (layout s) (Z.shiftl (b2z v) 2))) in
  length (buttonState s) = BUTTON_COUNT ->
  pressedIn state 2 = true ->
  (freshPress (lastNesState s) state 0 = true ->
   loop inp s =
   normalOperation keys ext state
     (delay 300 (saveConfig (set_swapAB false (enterSelect s1)))) /\
   swapAB (loop inp s) = false /\
   trace (loop inp s) = trace s1 ++ [saved false; Delay 300] /\
   buttonState (loop inp s) = pressedList false state) /\
  (freshPress (lastNesState s) state 0 = false ->
   freshPress (lastNesState s) state 1 = true ->
   loop inp s =
   normalOperation keys ext state
     (delay 300 (saveConfig (set_swapAB true (enterSelect s1)))) /\
   swapAB (loop inp s) = true /\
   trace (loop inp s) = trace s1 ++ [saved true; Delay 300] /\
   buttonState (loop inp s) = pressedList true state) /\
  (freshPress (lastNesState s) state 0 = false ->
   freshPress (lastNesState s) state 1 = false ->
   dirChoice state = None ->
   loop inp s = normalOperation keys ext state (enterSelect s1) /\
   buttonState (loop inp s) = pressedList (swapAB s) state) /\
  (freshPress (lastNesState s) state 0 = false ->
   freshPress (lastNesState s) state 1 = false ->
   dirChoice state <> None ->
   buttonState (loop inp s) = replicate BUTTON_COUNT false /\
   buttonState (loop inp s) <> pressedList (swapAB (loop inp s)) state).
Proof.
  intros state s1 keys ext saved Hl Hsel.
  split; [|split; [|split]].
  - intros HA.
    destruct (swap_cycle inp s false Hl Hsel HA)
      as (H1 & H2 & _ & _ & H3 & H4 & _).
    auto.
  - intros HA HB.
    destruct (swap_cycle inp s true Hl Hsel (conj HA HB))
      as (H1 & H2 & _ & _ & H3 & H4 & _).
    auto.
  - intros HA HB Hd.
    destruct (idle_cycle inp s Hl Hsel HA HB Hd) as (H1 & _ & _ & _ & _ & H2 & _).
    auto.
  - intros HA HB Hd. destruct (dirChoice state) as [l|] eqn:E; [|congruence].
    destruct (layout_switch_cycle inp s l Hl Hsel HA HB E) as (_ & Hb & _).
    split; [exact Hb|]. rewrite Hb. intros E'.
    pose proof (pressedList_select (swapAB (loop inp s)) state) as Hp.
    rewrite <- E', Hsel in Hp. discriminate Hp.
Qed.

Lemma C3_swap_then_normal_operation_witness :
  length (buttonState stateConfig) = BUTTON_COUNT /\
  pressedIn (readNES (nes_data inputsSelectA)) 2 = true /\
  freshPress (lastNesState stateConfig) (readNES (nes_data inputsSelectA)) 0
  = true /\
  swapAB (loop inputsSelectA stateConfig) = false /\
  trace (loop inputsSelectA stateConfig) = [EepromWrite 0 2; Delay 300] /\
  buttonState (loop inputsSelectA stateConfig) = pressedList false 0xFA.
Proof.
  split; [reflexivity|]. split; [reflexivity|]. split; [reflexivity|].
  exact (proj2 (proj1 (C3_swap_then_normal_operation
                         inputsSelectA stateConfig eq_refl eq_refl) eq_refl)).
Defined.

(** * Further properties *)

(** ** Draining the queue *)

Lemma contents_nil_iff (s : State) :
  wfq s -> (contents s = [] <-> qHead s = qTail s).
Proof.
  intros (_ & Hh & Ht). unfold contents, resident. split.
  - intros E. apply (f_equal length) in E. rewrite length_map, length_seq in E.
    simpl in E. Z.div_mod_to_equations. lia.
  - intros E. rewrite E, Z.sub_diag. reflexivity.
Qed.

Lemma processQueue_idle (now1 now2 : Z) (s : State) :
  wfq s ->
  contents s = [] \/ u32 (now1 - lastSendTime s) < EVENT_INTERVAL_US ->
  processQueue now1 now2 s = s.
Proof.
  intros Hw H. unfold processQueue.
  destruct (Z.eqb_spec (qHead s) (qTail s)) as [|Hne]; [reflexivity|].
  destruct H as [H|H].
  - apply contents_nil_iff in H; [contradiction|exact Hw].
  - apply Z.ltb_lt in H. rewrite H. reflexivity.
Qed.

Lemma processQueue_send (now1 now2 b : Z) (rest : list Z) (s : State) :
  wfq s ->
  contents s = b :: rest ->
  EVENT_INTERVAL_US <= u32 (now1 - lastSendTime s) ->
  trace (processQueue now1 now2 s) = trace s ++ [WireByte b] /\
  contents (processQueue now1 now2 s) = rest /\
  lastSendTime (processQueue now1 now2 s) = now2 /\
  wfq (processQueue now1 now2 s).
Proof.
  intros Hw Hc Hdue.
  assert (Hne : qHead s <> qTail s).
  { intros E. apply contents_nil_iff in E; [congruence|exact Hw]. }
  destruct (processQueue_cases now1 now2 s Hw) as [E|(Hw' & _ & b' & Hc' & Ht)].
  - exfalso. revert E. unfold processQueue.
    apply Z.eqb_neq in Hne. rewrite Hne.
    replace (u32 (now1 - lastSendTime s) <? EVENT_INTERVAL_US) with false
      by (symmetry; apply Z.ltb_ge; exact Hdue).
    intros E. apply (f_equal trace) in E. revert E.
    unfold seqc, safeWrite, emit. cbn [trace set_lastSendTime set_qTail].
    intros E. apply (f_equal length) in E. rewrite length_app in E.
    simpl in E. lia.
  - rewrite Hc in Hc'. injection Hc' as -> ->.
    split; [exact Ht|]. split; [reflexivity|]. split; [|exact Hw'].
    unfold processQueue. apply Z.eqb_neq in Hne. rewrite Hne.
    replace (u32 (now1 - lastSendTime s) <? EVENT_INTERVAL_US) with false
      by (symmetry; apply Z.ltb_ge; exact Hdue).
    reflexivity.
Qed.

(** X1: [processQueue] sends one byte or none.  On an empty queue, or
    when fewer than 2500 microseconds (modulo 2^32) have passed since the
    last send, it returns the state as it is.  Otherwise it writes the
    oldest queued byte to the wire, removes it and records the second
    clock reading as the time of the send.  Button states and settings are
    never touched. *)
Theorem X1_processQueue_one_byte_when_due (now1 now2 : Z) (s : State) :
  wfq s ->
  (contents s = [] -> processQueue now1 now2 s = s) /\
  (u32 (now1 - lastSendTime s) < EVENT_INTERVAL_US ->
   processQueue now1 now2 s = s) /\
  (forall b rest,
      contents s = b :: rest ->
      EVENT_INTERVAL_US <= u32 (now1 - lastSendTime s) ->
      trace (processQueue now1 now2 s) = trace s ++ [WireByte b] /\
      contents (processQueue now1 now2 s) = rest /\
      lastSendTime (processQueue now1 now2 s) = now2) /\
  buttonState (processQueue now1 now2 s) = buttonState s /\
  layout (processQueue now1 now2 s) = layout s /\
  swapAB (processQueue now1 now2 s) = swapAB s /\
  eeprom (processQueue now1 now2 s) = eeprom s.
Proof.
  intros Hw.
  split; [intros H; apply processQueue_idle; auto|].
  split; [intros H; apply processQueue_idle; auto|].
  split.
  - intros b rest Hc Hd.
    destruct (processQueue_send now1 now2 b rest s Hw Hc Hd) as (H1 & H2 & H3 & _).
    auto.
  - destruct (processQueue_frame now1 now2 s) as (H1 & H2 & H3 & _ & _ & H4).
    auto.
Qed.

Lemma X1_processQueue_one_byte_when_due_witness :
  wfq stateConfig /\ contents stateConfig = [PS2_ESC] /\
  trace (processQueue 2500 2600 stateConfig) = [WireByte PS2_ESC] /\
  contents (processQueue 2500 2600 stateConfig) = [] /\
  processQueue 2499 2600 stateConfig = stateConfig.
Proof.
  assert (Hw : wfq stateConfig)
    by (unfold wfq; vm_compute; repeat split; discriminate).
  assert (Hdue : EVENT_INTERVAL_US <= u32 (2500 - lastSendTime stateConfig))
    by (vm_compute; discriminate).
  assert (Hnot : u32 (2499 - lastSendTime stateConfig) < EVENT_INTERVAL_US)
    by reflexivity.
  destruct (X1_processQueue_one_byte_when_due 2500 2600 stateConfig Hw)
    as (_ & _ & Hsend & _).
  destruct (Hsend PS2_ESC [] eq_refl Hdue) as (Ht & Hc & _).
  destruct (X1_processQueue_one_byte_when_due 2499 2600 stateConfig Hw)
    as (_ & Hidle & _).
  split; [exact Hw|]. split; [reflexivity|]. split; [exact Ht|].
  split; [exact Hc|exact (Hidle Hnot)].
Defined.

(** X2: the interval test survives the wrap of the 32-bit microsecond
    clock.  With [d] microseconds really elapsed since the last send
    ([d] below 2^32) and the clock reading reduced modulo 2^32, a waiting
    byte is sent when [d] is at least 2500 and held back when it is less. *)
Theorem X2_processQueue_interval_wraps (d now2 b : Z) (rest : list Z) (s : State) :
  wfq s ->
  contents s = b :: rest ->
  0 <= lastSendTime s < 2 ^ 32 ->
  0 <= d < 2 ^ 32 ->
  (EVENT_INTERVAL_US <= d ->
   trace (processQueue (u32 (lastSendTime s + d)) now2 s) =
   trace s ++ [WireByte b]) /\
  (d < EVENT_INTERVAL_US ->
   processQueue (u32 (lastSendTime s + d)) now2 s = s).
Proof.
  intros Hw Hc Hl Hd.
  assert (E : u32 (u32 (lastSendTime s + d) - lastSendTime s) = d).
  { unfold u32. rewrite Zminus_mod_idemp_l.
    replace (lastSendTime s + d - lastSendTime s) with d by lia.
    apply Z.mod_small. exact Hd. }
  split; intros H.
  - apply (processQueue_send _ now2 b rest s Hw Hc). rewrite E. exact H.
  - apply processQueue_idle; [exact Hw|]. right. rewrite E. exact H.
Qed.

Lemma X2_processQueue_interval_wraps_witness :
  wfq stateLateClock /\
  lastSendTime stateLateClock = 4294966296 /\
  u32 (lastSendTime stateLateClock + 3000) = 2000 /\
  trace (processQueue 2000 2100 stateLateClock) = [WireByte PS2_ESC].
Proof.
  assert (Hw : wfq stateLateClock)
    by (unfold wfq; vm_compute; repeat split; discriminate).
  assert (Hl : 0 <= lastSendTime stateLateClock < 2 ^ 32)
    by (vm_compute; split; [discriminate|reflexivity]).
  assert (Hd : 0 <= 3000 < 2 ^ 32)
    by (vm_compute; split; [discriminate|reflexivity]).
  assert (Hdue : EVENT_INTERVAL_US <= 3000) by (vm_compute; discriminate).
  split; [exact Hw|]. split; [reflexivity|]. split; [reflexivity|].
  exact (proj1 (X2_processQueue_interval_wraps
                  3000 2100 PS2_ESC [] stateLateClock Hw eq_refl Hl Hd) Hdue).
Defined.

Lemma drains_cons (t : Z * Z) (ts : list (Z * Z)) (s : State) :
  drains (t :: ts) s = drains ts (processQueue (fst t) (snd t) s).
Proof. reflexivity. Qed.

Lemma drains_prefix (ts : list (Z * Z)) (s : State) :
  wfq s ->
  allDue (lastSendTime s) ts ->
  (length ts <= length (contents s))%nat ->
  trace (drains ts s) =
  trace s ++ map WireByte (take (length ts) (contents s)) /\
  contents (drains ts s) = drop (length ts) (contents s) /\
  wfq (drains ts s).
Proof.
  revert s. induction ts as [|t ts IH]; intros s Hw Hdue Hlen.
  - simpl. rewrite app_nil_r. auto.
  - destruct (contents s) as [|b rest] eqn:Hc; [simpl in Hlen; lia|].
    destruct Hdue as [Hd Hrest].
    destruct (processQueue_send (fst t) (snd t) b rest s Hw Hc Hd)
      as (Ht & Hc' & Hl & Hw').
    rewrite drains_cons.
    destruct (IH (processQueue (fst t) (snd t) s) Hw') as (I1 & I2 & I3).
    + rewrite Hl. exact Hrest.
    + rewrite Hc'. simpl in Hlen. lia.
    + rewrite I1, I2, Ht, Hc'. simpl. rewrite <- app_assoc. auto.
Qed.

(** X3: the queue is first in, first out.  A series of [processQueue]
    calls, each finding the send interval elapsed and no longer than the
    queue, puts the oldest bytes on the wire in the order in which they
    wait and leaves the others queued. *)
Theorem X3_drains_fifo (ts : list (Z * Z)) (s : State) :
  wfq s ->
  allDue (lastSendTime s) ts ->
  (length ts <= length (contents s))%nat ->
  trace (drains ts s) =
  trace s ++ map WireByte (take (length ts) (contents s)) /\
  contents (drains ts s) = drop (length ts) (contents s).
Proof.
  intros Hw Hdue Hlen.
  destruct (drains_prefix ts s Hw Hdue Hlen) as (H1 & H2 & _). auto.
Qed.

Lemma X3_drains_fifo_witness :
  wfq stateHeld /\
  contents stateHeld = [PS2_ESC; PS2_0; PS2_8] /\
  trace (drains [(2500, 2500); (5000, 5000)] stateHeld) =
  trace stateHeld ++ [WireByte PS2_ESC; WireByte PS2_0] /\
  contents (drains [(2500, 2500); (5000, 5000)] stateHeld) = [PS2_8].
Proof.
  assert (Hw : wfq stateHeld)
    by (unfold wfq; vm_compute; repeat split; discriminate).
  assert (Hdue : allDue (lastSendTime stateHeld) [(2500, 2500); (5000, 5000)])
    by (vm_compute; repeat split; discriminate).
  assert (Hlen : (length [(2500, 2500); (5000, 5000)]
                  <= length (contents stateHeld))%nat)
    by (vm_compute; lia).
  split; [exact Hw|]. split; [reflexivity|].
  exact (X3_drains_fifo [(2500, 2500); (5000, 5000)] stateHeld Hw Hdue Hlen).
Defined.

(** X4: what is queued is what is sent.  Bytes offered to an empty queue,
    63 at most, and then drained one call per byte with the interval
    elapsed each time, appear on the wire unchanged and in order, and the
    queue is empty again. *)
Theorem X4_queue_round_trip (bs : list Z) (ts : list (Z * Z)) (s : State) :
  wfq s ->
  contents s = [] ->
  (length bs <= 63)%nat ->
  length ts = length bs ->
  allDue (lastSendTime s) ts ->
  trace (drains ts (enqueueAll bs s)) = trace s ++ map WireByte bs /\
  contents (drains ts (enqueueAll bs s)) = [].
Proof.
  intros Hw He Hlen Hts Hdue.
  assert (Hfree : freeSlots s = 63).
  { unfold freeSlots. rewrite <- (Z2Nat.id (resident s))
      by (pose proof (resident_range s); lia).
    rewrite <- contents_length, He. reflexivity. }
  destruct (enqueueAll_room bs s Hw) as (Hw' & _ & Hc); [lia|].
  destruct (enqueueAll_frame bs s) as [_ Hcfg].
  apply config_fields in Hcfg. destruct Hcfg as (_ & _ & _ & _ & _ & Htr).
  assert (Hlast : lastSendTime (enqueueAll bs s) = lastSendTime s).
  { destruct (enqueueAll_frame bs s) as [_ Hcfg]. unfold config in Hcfg.
    congruence. }
  rewrite He in Hc. simpl in Hc.
  destruct (drains_prefix ts (enqueueAll bs s) Hw') as (D1 & D2 & _).
  - rewrite Hlast. exact Hdue.
  - rewrite Hc. lia.
  - rewrite D1, D2, Hc, Htr, Hts, firstn_all, skipn_all. auto.
Qed.

Lemma X4_queue_round_trip_witness :
  wfq stateEmpty /\ contents stateEmpty = [] /\
  trace (drains threeSends (enqueueAll [PS2_0; 0xF0; PS2_0] stateEmpty)) =
  [WireByte PS2_0; WireByte 0xF0; WireByte PS2_0] /\
  contents (drains threeSends (enqueueAll [PS2_0; 0xF0; PS2_0] stateEmpty)) = [].
Proof.
  assert (Hw : wfq stateEmpty) by wfq_concrete.
  assert (Hlen : (length [PS2_0; 0xF0%Z; PS2_0] <= 63)%nat) by (simpl; lia).
  assert (Hdue : allDue (lastSendTime stateEmpty) threeSends)
    by (vm_compute; repeat split; discriminate).
  split; [exact Hw|]. split; [reflexivity|].
  exact (X4_queue_round_trip [PS2_0; 0xF0; PS2_0] threeSends stateEmpty
                             Hw eq_refl Hlen eq_refl Hdue).
Defined.

(** ** Key encodings and overflow *)

Lemma enqueueAll_full (bs : list Z) (s : State) :
  wfq s -> freeSlots s = 0 -> enqueueAll bs s = s.
Proof.
  intros Hw Hf. induction bs as [|b bs IH]; [reflexivity|].
  change (enqueueAll (b :: bs) s) with (enqueueAll bs (enqueue b s)).
  rewrite enqueue_full; [exact IH|exact Hw|unfold freeSlots in Hf; lia].
Qed.

(** A burst offered to the queue is kept up to the free space. *)
Lemma enqueueAll_prefix (bs : list Z) (s : State) :
  wfq s ->
  contents (enqueueAll bs s) = contents s ++ take (Z.to_nat (freeSlots s)) bs.
Proof.
  revert s. induction bs as [|b bs IH]; intros s Hw.
  - rewrite take_nil, app_nil_r. reflexivity.
  - pose proof (resident_range s) as Hr.
    destruct (Z.eq_dec (freeSlots s) 0) as [E|E].
    + rewrite enqueueAll_full, E by assumption.
      rewrite app_nil_r. reflexivity.
    + change (enqueueAll (b :: bs) s) with (enqueueAll bs (enqueue b s)).
      destruct (enqueue_room b s Hw) as (Hw' & Hr' & Hc');
        [unfold freeSlots in E; lia|].
      rewrite IH by exact Hw'. rewrite Hc', <- app_assoc. f_equal.
      unfold freeSlots in *. rewrite Hr'.
      replace (Z.to_nat (63 - resident s))
        with (S (Z.to_nat (63 - (resident s + 1)))) by lia.
      reflexivity.
Qed.

(** X5: an ordinary key (neither the disabled code nor the pause code)
    is queued as [E0] code on a press and [E0] F0 code on a release, the
    E0 prefix for extended keys only; but unlike the pause sequence these
    are queued byte by byte, so a nearly full queue keeps only the bytes
    that fit, the first ones, and drops the rest. *)
Theorem X5_send_normal_key (code : Z) (ext : bool) (s : State) :
  wfq s ->
  code <> NO_KEY -> code <> PAUSE_CODE ->
  contents (sendMake code ext s) =
  contents s ++ take (Z.to_nat (freeSlots s))
                     ((if ext then [0xE0] else []) ++ [code]) /\
  contents (sendBreak code ext s) =
  contents s ++ take (Z.to_nat (freeSlots s))
                     ((if ext then [0xE0] else []) ++ [0xF0; code]).
Proof.
  intros Hw H0 Hp.
  apply Z.eqb_neq in H0. apply Z.eqb_neq in Hp.
  rewrite sendMake_enqueueAll, sendBreak_enqueueAll by exact Hw.
  unfold make_bytes, break_bytes. rewrite H0, Hp. cbn [andb].
  split; apply enqueueAll_prefix; exact Hw.
Qed.

Lemma X5_send_normal_key_witness :
  wfq stateOneFree /\ freeSlots stateOneFree = 1 /\
  contents (sendBreak PS2_0 false stateOneFree) =
  contents stateOneFree ++ [0xF0] /\
  contents (sendMake PS2_EXT_UP true stateOneFree) =
  contents stateOneFree ++ [0xE0].
Proof.
  assert (Hw : wfq stateOneFree) by wfq_concrete.
  assert (H0 : PS2_0 <> NO_KEY) by discriminate.
  assert (H1 : PS2_0 <> PAUSE_CODE) by discriminate.
  assert (H2 : PS2_EXT_UP <> NO_KEY) by discriminate.
  assert (H3 : PS2_EXT_UP <> PAUSE_CODE) by discriminate.
  split; [exact Hw|]. split; [reflexivity|]. split.
  - exact (proj2 (X5_send_normal_key PS2_0 false stateOneFree Hw H0 H1)).
  - exact (proj1 (X5_send_normal_key PS2_EXT_UP true stateOneFree Hw H2 H3)).
Defined.


(** ** Reading the controller *)

Lemma byte_high_bits (x n : Z) : 0 <= x < 256 -> 8 <= n -> Z.testbit x n = false.
Proof.
  intros Hx Hn. apply Z.testbit_false; [lia|].
  rewrite Z.div_small; [reflexivity|].
  split; [lia|]. apply Z.lt_le_trans with (2 ^ 8); [simpl; lia|].
  apply Z.pow_le_mono_r; lia.
Qed.

Lemma readNES_bits (data : nat -> bool) :
  0 <= readNES data < 256 /\
  forall i : nat, (i < 8)%nat -> Z.testbit (readNES data) (Z.of_nat i) = data i.
Proof.
  unfold readNES. cbn [fold_left seq].
  destruct (data 0%nat) eqn:E0, (data 1%nat) eqn:E1, (data 2%nat) eqn:E2,
           (data 3%nat) eqn:E3, (data 4%nat) eqn:E4, (data 5%nat) eqn:E5,
           (data 6%nat) eqn:E6, (data 7%nat) eqn:E7;
    (split; [vm_compute; split; [discriminate|reflexivity]|];
     intros i Hi;
     do 8 (destruct i as [|i];
           [rewrite ?E0, ?E1, ?E2, ?E3, ?E4, ?E5, ?E6, ?E7; reflexivity|]);
     lia).
Qed.

(** X6: [readNES] returns a byte whose bit [i] is the level of the data
    line at the [i]-th shift, so button [i] counts as pressed exactly when
    the line was low; a controller showing mask [m] is read back as [m]. *)
Theorem X6_readNES_mask (data : nat -> bool) (m : Z) :
  0 <= m < 256 ->
  0 <= readNES data < 256 /\
  (forall i : nat, (i < 8)%nat ->
     pressedIn (readNES data) (Z.of_nat i) = negb (data i)) /\
  readNES (pinsOf m) = m.
Proof.
  intros Hm. destruct (readNES_bits data) as [Hr Hb].
  split; [exact Hr|]. split.
  - intros i Hi. unfold pressedIn. rewrite Hb by exact Hi. reflexivity.
  - destruct (readNES_bits (pinsOf m)) as [Hr' Hb'].
    apply Z.bits_inj'. intros n Hn.
    destruct (Z.lt_ge_cases n 8) as [Hlt|Hge].
    + rewrite <- (Z2Nat.id n) by lia. rewrite Hb' by lia. reflexivity.
    + rewrite !byte_high_bits by lia. reflexivity.
Qed.

Lemma X6_readNES_mask_witness :
  0 <= 0xDB < 256 /\ readNES (pinsOf 0xDB) = 0xDB /\
  pressedIn (readNES (pinsOf 0xDB)) 5 = true.
Proof.
  assert (Hm : 0 <= 0xDB < 256) by lia.
  destruct (X6_readNES_mask (pinsOf 0xDB) 0xDB Hm) as (_ & Hp & Hr).
  split; [exact Hm|]. split; [exact Hr|].
  exact (Hp 5%nat ltac:(lia)).
Defined.

(** ** Whole cycles *)

Lemma set_lastNesState_selectMode (v : Z) (t : State) :
  selectMode (set_lastNesState v t) = selectMode t.
Proof. reflexivity. Qed.

Lemma normalOperation_selectMode (keys : list Z) (ext : list bool) (state : Z)
      (pre : State) :
  length (buttonState pre) = BUTTON_COUNT ->
  selectMode (normalOperation keys ext state pre) = selectMode pre.
Proof.
  intros Hl. destruct (edgeDetect_buttons keys ext state pre Hl) as [_ Hc].
  apply config_fields in Hc. destruct Hc as (_ & _ & Hm & _).
  unfold normalOperation, seqc.
  rewrite set_lastNesState_selectMode. exact Hm.
Qed.

Lemma leaveSelect_fields (s : State) :
  selectMode (leaveSelect s) = false /\
  eeprom (leaveSelect s) = eeprom s /\
  trace (leaveSelect s) = trace s.
Proof.
  unfold leaveSelect. destruct (selectMode s) eqn:E; repeat split; exact E.
Qed.

Lemma select_released_code (state : Z) :
  pressedIn state 2 = false -> lnot (Z.land state (Z.shiftl 1 2)) = false.
Proof. intros H. rewrite lnot_land_bit by lia. exact H. Qed.

(** The state a cycle with Select released ends in. *)
Lemma released_cycle (inp : Inputs) (s : State) :
  let state := readNES (nes_data inp) in
  let s1 := processQueue (micros1 inp) (micros2 inp) s in
  length (buttonState s) = BUTTON_COUNT ->
  pressedIn state 2 = false ->
  layout (loop inp s) = layout s /\
  swapAB (loop inp s) = swapAB s /\
  eeprom (loop inp s) = eeprom s /\
  trace (loop inp s) = trace s1 /\
  selectMode (loop inp s) = false /\
  lastNesState (loop inp s) = state /\
  buttonState (loop inp s) = pressedList (swapAB s) state.
Proof.
  intros state s1 Hl Hsel.
  destruct (processQueue_frame (micros1 inp) (micros2 inp) s)
    as (Hb1 & Hl1 & Hs1 & _ & _ & He1). fold s1 in Hb1, Hl1, Hs1, He1.
  destruct (leaveSelect_frame s1) as (_ & Q2 & Q3 & Q4).
  destruct (leaveSelect_fields s1) as (F1 & F2 & F3).
  assert (Hlen : length (buttonState (leaveSelect s1)) = BUTTON_COUNT)
    by congruence.
  rewrite loop_select_released by (apply select_released_code, Hsel).
  fold state s1.
  destruct (normalOperation_fields (keysOf (layout s)) (extOf (layout s)) state
                                   (leaveSelect s1) Hlen)
    as (N1 & N2 & N3 & N4 & N5 & N6).
  rewrite (normalOperation_selectMode _ _ _ _ Hlen).
  rewrite N1, N2, N3, N4, N5, N6, Q3, Q4, F1, F2, F3, Hl1, Hs1, He1.
  repeat split.
Qed.

Lemma config_branch_selectMode (inp : Inputs) (s : State) :
  let state := readNES (nes_data inp) in
  length (buttonState s) = BUTTON_COUNT ->
  pressedIn state 2 = true ->
  selectMode (loop inp s) = true /\ lastNesState (loop inp s) = state.
Proof.
  intros state Hl Hsel.
  set (s1 := processQueue (micros1 inp) (micros2 inp) s).
  destruct (processQueue_frame (micros1 inp) (micros2 inp) s) as (Hb1 & _).
  fold s1 in Hb1.
  assert (Hlen1 : length (buttonState s1) = BUTTON_COUNT) by congruence.
  pose proof (enterSelect_length s1 Hlen1) as Hlen3.
  destruct (enterSelect_config s1) as (Hm3 & _).
  assert (Hswap : forall v,
             selectMode (normalOperation (keysOf (layout s)) (extOf (layout s))
                           state
                           (delay 300 (saveConfig (set_swapAB v (enterSelect s1)))))
             = true).
  { intros v. rewrite normalOperation_selectMode.
    - exact Hm3.
    - destruct (swap_prelude v (enterSelect s1)) as (_ & P2 & _).
      rewrite P2. exact Hlen3. }
  destruct (freshPress (lastNesState s) state 0) eqn:HA.
  { destruct (swap_cycle inp s false Hl Hsel HA) as (Heq & _ & _ & _ & _ & _ & Hn).
    split; [|exact Hn]. rewrite Heq. apply Hswap. }
  destruct (freshPress (lastNesState s) state 1) eqn:HB.
  { destruct (swap_cycle inp s true Hl Hsel (conj HA HB))
      as (Heq & _ & _ & _ & _ & _ & Hn).
    split; [|exact Hn]. rewrite Heq. apply Hswap. }
  destruct (dirChoice state) as [l|] eqn:Hd.
  - destruct (layout_switch_cycle inp s l Hl Hsel HA HB Hd)
      as (_ & _ & _ & _ & Hm & Hn & _).
    auto.
  - destruct (idle_cycle inp s Hl Hsel HA HB Hd) as (Heq & _ & _ & _ & _ & _ & Hn).
    split; [|exact Hn]. rewrite Heq.
    rewrite normalOperation_selectMode by exact Hlen3. exact Hm3.
Qed.

(** X7: after every cycle [selectMode] says whether Select is down in
    the mask just read, and [lastNesState] is that mask, whichever branch
    the cycle took. *)
Theorem X7_loop_tracks_select (inp : Inputs) (s : State) :
  length (buttonState s) = BUTTON_COUNT ->
  selectMode (loop inp s) = pressedIn (readNES (nes_data inp)) 2 /\
  lastNesState (loop inp s) = readNES (nes_data inp).
Proof.
  intros Hl. destruct (pressedIn (readNES (nes_data inp)) 2) eqn:Hsel.
  - apply config_branch_selectMode; assumption.
  - destruct (released_cycle inp s Hl Hsel) as (_ & _ & _ & _ & Hm & Hn & _).
    auto.
Qed.

Lemma X7_loop_tracks_select_witness :
  length (buttonState stateEmpty) = BUTTON_COUNT /\
  selectMode stateEmpty = false /\
  selectMode (loop inputsSelect stateEmpty) = true /\
  lastNesState (loop inputsSelect stateEmpty) = 0xFB.
Proof.
  split; [reflexivity|]. split; [reflexivity|].
  exact (X7_loop_tracks_select inputsSelect stateEmpty eq_refl).
Defined.

(** What a cycle does to the settings and to the outside world. *)
Lemma loop_settings (inp : Inputs) (s : State) :
  let state := readNES (nes_data inp) in
  let s1 := processQueue (micros1 inp) (micros2 inp) s in
  let s' := loop inp s in
  length (buttonState s) = BUTTON_COUNT ->
  (layout s' = layout s /\ swapAB s' = swapAB s /\ eeprom s' = eeprom s /\
   trace s' = trace s1) \/
  (pressedIn state 2 = true /\
   eeprom s' = u8 (Z.lor (layout s') (Z.shiftl (b2z (swapAB s')) 2)) /\
   trace s' = trace s1 ++ [EepromWrite EEPROM_ADDR (eeprom s'); Delay 300]).
Proof.
  intros state s1 s' Hl. unfold s'.
  destruct (pressedIn state 2) eqn:Hsel.
  - destruct (freshPress (lastNesState s) state 0) eqn:HA.
    { destruct (swap_cycle inp s false Hl Hsel HA)
        as (_ & H1 & H2 & H3 & H4 & _).
      right. fold state s1 in H3, H4. rewrite H1, H2, H3, H4. auto. }
    destruct (freshPress (lastNesState s) state 1) eqn:HB.
    { destruct (swap_cycle inp s true Hl Hsel (conj HA HB))
        as (_ & H1 & H2 & H3 & H4 & _).
      right. fold state s1 in H3, H4. rewrite H1, H2, H3, H4. auto. }
    destruct (dirChoice state) as [l|] eqn:Hd.
    + destruct (layout_switch_cycle inp s l Hl Hsel HA HB Hd)
        as (_ & _ & H1 & H2 & _ & _ & H3 & H4).
      right. fold state s1 in H3, H4. rewrite H1, H2, H3, H4. auto.
    + destruct (idle_cycle inp s Hl Hsel HA HB Hd)
        as (_ & H1 & H2 & H3 & H4 & _).
      left. auto.
  - destruct (released_cycle inp s Hl Hsel) as (H1 & H2 & H3 & H4 & _).
    left. auto.
Qed.

(** X8: a cycle with Select released changes neither the layout nor
    swapAB, writes nothing to the EEPROM and never delays: beyond the one
    byte [processQueue] may send it has no effect on the outside. *)
Theorem X8_settings_need_select (inp : Inputs) (s : State) :
  length (buttonState s) = BUTTON_COUNT ->
  pressedIn (readNES (nes_data inp)) 2 = false ->
  layout (loop inp s) = layout s /\
  swapAB (loop inp s) = swapAB s /\
  eeprom (loop inp s) = eeprom s /\
  trace (loop inp s) = trace (processQueue (micros1 inp) (micros2 inp) s).
Proof.
  intros Hl Hsel.
  destruct (released_cycle inp s Hl Hsel) as (H1 & H2 & H3 & H4 & _). auto.
Qed.

Lemma X8_settings_need_select_witness :
  length (buttonState stateConfig) = BUTTON_COUNT /\
  pressedIn (readNES (nes_data inputsA)) 2 = false /\
  layout (loop inputsA stateConfig) = 2 /\
  swapAB (loop inputsA stateConfig) = false /\
  eeprom (loop inputsA stateConfig) = 2 /\
  trace (loop inputsA stateConfig) = [].
Proof.
  split; [reflexivity|]. split; [reflexivity|].
  exact (X8_settings_need_select inputsA stateConfig eq_refl eq_refl).
Defined.

(** X9: the effects of one cycle.  It puts at most one byte on the wire,
    the oldest one queued, and after that either nothing more happens or,
    with Select held, exactly one EEPROM write of the byte then stored,
    followed by one 300 ms delay. *)
Theorem X9_loop_effects (inp : Inputs) (s : State) :
  let s1 := processQueue (micros1 inp) (micros2 inp) s in
  wfq s ->
  length (buttonState s) = BUTTON_COUNT ->
  (trace s1 = trace s \/
   exists b rest, contents s = b :: rest /\ trace s1 = trace s ++ [WireByte b]) /\
  (trace (loop inp s) = trace s1 \/
   pressedIn (readNES (nes_data inp)) 2 = true /\
   trace (loop inp s) =
   trace s1 ++ [EepromWrite EEPROM_ADDR (eeprom (loop inp s)); Delay 300]).
Proof.
  intros s1 Hw Hl. split.
  - destruct (processQueue_cases (micros1 inp) (micros2 inp) s Hw)
      as [E|(_ & _ & b & Hc & Ht)].
    + left. unfold s1. rewrite E. reflexivity.
    + right. exists b, (contents s1). auto.
  - destruct (loop_settings inp s Hl) as [(_ & _ & _ & H)|(H1 & _ & H2)].
    + left. exact H.
    + right. auto.
Qed.

Lemma X9_loop_effects_witness :
  wfq stateConfig /\
  length (buttonState stateConfig) = BUTTON_COUNT /\
  trace (loop (mkInputs 2500 2600 (pinsOf 0xFA)) stateConfig) =
  [WireByte PS2_ESC; EepromWrite 0 2; Delay 300].
Proof.
  assert (Hw : wfq stateConfig)
    by (unfold wfq; vm_compute; repeat split; discriminate).
  split; [exact Hw|]. split; [reflexivity|].
  destruct (X9_loop_effects (mkInputs 2500 2600 (pinsOf 0xFA)) stateConfig
                            Hw eq_refl) as [_ [H|[_ H]]].
  - exfalso. apply (f_equal length) in H. vm_compute in H. discriminate H.
  - exact H.
Defined.

(** ** Runs from power-up *)

Lemma settings_decode (l : Z) (v : bool) :
  0 <= l < 4 ->
  Z.land (u8 (Z.lor l (Z.shiftl (b2z v) 2))) 3 = l /\
  Z.testbit (u8 (Z.lor l (Z.shiftl (b2z v) 2))) 2 = v /\
  0 <= u8 (Z.lor l (Z.shiftl (b2z v) 2)) < 8.
Proof.
  intros Hl. assert (Hc : l = 0 \/ l = 1 \/ l = 2 \/ l = 3) by lia.
  destruct v; destruct Hc as [-> | [-> | [-> | ->]]];
    (split; [reflexivity|split; [reflexivity|vm_compute; split; [discriminate|reflexivity]]]).
Qed.

Lemma setup_synced (stored : Z) : synced (setup (initState stored)).
Proof. unfold setup. rewrite loadConfig_accepts. split; reflexivity. Qed.

Lemma loop_synced (inp : Inputs) (s : State) :
  inv s -> synced s -> synced (loop inp s).
Proof.
  intros Hi [S1 S2]. pose proof (loop_inv inp s Hi) as (_ & _ & Hr).
  destruct Hi as (_ & Hl & _).
  destruct (loop_settings inp s Hl) as [(H1 & H2 & H3 & _)|(_ & H & _)].
  - unfold synced. rewrite H1, H2, H3. auto.
  - unfold synced. rewrite H.
    destruct (settings_decode (layout (loop inp s)) (swapAB (loop inp s)) Hr)
      as (D1 & D2 & _).
    auto.
Qed.

Lemma cycles_inv_synced (inps : list Inputs) (s : State) :
  inv s -> synced s -> inv (cycles inps s) /\ synced (cycles inps s).
Proof.
  revert s. induction inps as [|inp inps IH]; intros s Hi Hs; [auto|].
  change (cycles (inp :: inps) s) with (cycles inps (loop inp s)).
  apply IH; [apply loop_inv, Hi|apply loop_synced; assumption].
Qed.

(** X10: in every state reached from power-up, whatever the EEPROM held
    and whatever the controller and the clock did, the queue is well
    formed, there are eight button states, and the layout index is below
    LAYOUT_COUNT, so that [layouts[layout]] and [extFlags[layout]] are
    tables of eight entries. *)
Theorem X10_run_invariant (stored : Z) (inps : list Inputs) :
  wfq (run stored inps) /\
  length (buttonState (run stored inps)) = BUTTON_COUNT /\
  0 <= layout (run stored inps) < LAYOUT_COUNT /\
  length (keysOf (layout (run stored inps))) = BUTTON_COUNT /\
  length (extOf (layout (run stored inps))) = BUTTON_COUNT.
Proof.
  destruct (cycles_inv_synced inps (setup (initState stored))
              (setup_inv stored) (setup_synced stored)) as [(Hw & Hl & Hr) _].
  fold (run stored inps) in Hw, Hl, Hr.
  split; [exact Hw|]. split; [exact Hl|]. split; [exact Hr|].
  assert (Hc : layout (run stored inps) = 0 \/ layout (run stored inps) = 1 \/
               layout (run stored inps) = 2 \/ layout (run stored inps) = 3)
    by lia.
  destruct Hc as [-> | [-> | [-> | ->]]]; split; reflexivity.
Qed.

(** X11: the settings in use are always the persisted ones.  In every
    state reached from power-up, starting again from the EEPROM cell as it
    then is gives the same layout and the same swapAB. *)
Theorem X11_settings_survive_power_cycle (stored : Z) (inps : list Inputs) :
  layout (setup (initState (eeprom (run stored inps)))) =
  layout (run stored inps) /\
  swapAB (setup (initState (eeprom (run stored inps)))) =
  swapAB (run stored inps).
Proof.
  destruct (cycles_inv_synced inps (setup (initState stored))
              (setup_inv stored) (setup_synced stored)) as [_ [S1 S2]].
  fold (run stored inps) in S1, S2.
  destruct (setup_synced (eeprom (run stored inps))) as [T1 T2].
  rewrite T1, T2, S1, S2.
  unfold setup. rewrite loadConfig_accepts. split; reflexivity.
Qed.

(** ** Lost and repeated key events *)

Lemma sendMake_full (code : Z) (ext : bool) (s : State) :
  wfq s -> freeSlots s = 0 -> sendMake code ext s = s.
Proof.
  intros Hw Hf. rewrite sendMake_enqueueAll by exact Hw.
  destruct (_ && _); [reflexivity|apply enqueueAll_full; assumption].
Qed.

Lemma sendBreak_full (code : Z) (ext : bool) (s : State) :
  wfq s -> freeSlots s = 0 -> sendBreak code ext s = s.
Proof.
  intros Hw Hf. rewrite sendBreak_enqueueAll. apply enqueueAll_full; assumption.
Qed.

(** X12: with a full queue edge detection leaves the queue untouched and
    still records every edge: the button states follow the mask although
    none of the key events was queued, so these events are lost for good. *)
Theorem X12_edgeDetect_full_queue (keys : list Z) (ext : list bool) (state : Z)
        (s : State) :
  wfq s ->
  length (buttonState s) = BUTTON_COUNT ->
  freeSlots s = 0 ->
  ring (edgeDetect keys ext state s) = ring s /\
  buttonState (edgeDetect keys ext state s) = pressedList (swapAB s) state.
Proof.
  intros Hw Hl Hf.
  split; [|apply edgeDetect_buttons, Hl].
  unfold edgeDetect.
  apply (for_range_ind (fun _ t => ring t = ring s)); [reflexivity|].
  intros i t _ Hr. cbv zeta. unfold seqc.
  assert (Hwt : wfq t) by (apply (wfq_ring s); [symmetry; exact Hr|exact Hw]).
  assert (Hft : freeSlots t = 0) by (rewrite (freeSlots_ring t s Hr); exact Hf).
  destruct (_ && negb _).
  - rewrite sendMake_full, setButton_ring by assumption. exact Hr.
  - destruct (negb _ && _); [|exact Hr].
    rewrite sendBreak_full, setButton_ring by assumption. exact Hr.
Qed.

Lemma X12_edgeDetect_full_queue_witness :
  wfq stateFull /\ freeSlots stateFull = 0 /\
  ring (edgeDetect layout_RightSinclair layout_RightSinclair_ext 0xFE stateFull) =
  ring stateFull /\
  buttonState (edgeDetect layout_RightSinclair layout_RightSinclair_ext 0xFE
                          stateFull) =
  [true; false; false; false; false; false; false; false].
Proof.
  assert (Hw : wfq stateFull) by wfq_concrete.
  split; [exact Hw|]. split; [reflexivity|].
  exact (X12_edgeDetect_full_queue
           layout_RightSinclair layout_RightSinclair_ext 0xFE stateFull
           Hw eq_refl eq_refl).
Defined.

(** X13: in configuration mode a fresh press of A, or of B without one
    of A, comes before the D-pad: swapAB is set and the layout stays as
    it is in that cycle, whatever directions are down. *)
Theorem X13_swap_press_masks_dpad (inp : Inputs) (s : State) :
  let state := readNES (nes_data inp) in
  length (buttonState s) = BUTTON_COUNT ->
  pressedIn state 2 = true ->
  (freshPress (lastNesState s) state 0 = true ->
   swapAB (loop inp s) = false /\ layout (loop inp s) = layout s) /\
  (freshPress (lastNesState s) state 0 = false ->
   freshPress (lastNesState s) state 1 = true ->
   swapAB (loop inp s) = true /\ layout (loop inp s) = layout s).
Proof.
  intros state Hl Hsel. split.
  - intros HA. destruct (swap_cycle inp s false Hl Hsel HA) as (_ & H1 & H2 & _).
    auto.
  - intros HA HB.
    destruct (swap_cycle inp s true Hl Hsel (conj HA HB)) as (_ & H1 & H2 & _).
    auto.
Qed.

Lemma X13_swap_press_masks_dpad_witness :
  length (buttonState stateConfig) = BUTTON_COUNT /\
  pressedIn (readNES (nes_data inputsSelectDownA)) 5 = true /\
  freshPress (lastNesState stateConfig)
             (readNES (nes_data inputsSelectDownA)) 0 = true /\
  swapAB (loop inputsSelectDownA stateConfig) = false /\
  layout (loop inputsSelectDownA stateConfig) = 2.
Proof.
  split; [reflexivity|]. split; [reflexivity|]. split; [reflexivity|].
  exact (proj1 (X13_swap_press_masks_dpad inputsSelectDownA stateConfig
                                          eq_refl eq_refl) eq_refl).
Defined.

(** X14: the cycle in which Select goes down, with no fresh A or B and
    no direction down, first queues the release of every key that was
    down and then, in the same cycle, queues a press for every button
    that is down in the mask, Select itself included: keys held across the
    press of Select are released and pressed again. *)
Theorem X14_select_press_releases_and_represses (inp : Inputs) (s : State) :
  let state := readNES (nes_data inp) in
  let s1 := processQueue (micros1 inp) (micros2 inp) s in
  let keys := keysOf (layout s) in
  let ext := extOf (layout s) in
  let released := release_bytes keys ext (buttonState s) in
  let pressed := edge_bytes keys ext (pressedList (swapAB s) state)
                            (replicate BUTTON_COUNT false) in
  wfq s ->
  length (buttonState s) = BUTTON_COUNT ->
  selectMode s = false ->
  pressedIn state 2 = true ->
  freshPress (lastNesState s) state 0 = false ->
  freshPress (lastNesState s) state 1 = false ->
  dirChoice state = None ->
  Z.of_nat (length released + length pressed) <= freeSlots s ->
  contents (loop inp s) = contents s1 ++ released ++ pressed /\
  buttonState (loop inp s) = pressedList (swapAB s) state /\
  selectMode (loop inp s) = true.
Proof.
  intros state s1 keys ext released pressed Hw Hl Hm Hsel HA HB Hd Hroom.
  destruct (processQueue_frame (micros1 inp) (micros2 inp) s)
    as (Hb1 & Hl1 & Hs1 & Hm1 & _). fold s1 in Hb1, Hl1, Hs1, Hm1.
  assert (Hw1 : wfq s1) by (apply processQueue_wfq, Hw).
  assert (Hlen1 : length (buttonState s1) = BUTTON_COUNT) by congruence.
  pose proof (processQueue_free (micros1 inp) (micros2 inp) s Hw) as Hf1.
  fold s1 in Hf1.
  destruct (idle_cycle inp s Hl Hsel HA HB Hd) as (Heq & _ & _ & _ & _ & Hb & _).
  destruct (config_branch_selectMode inp s Hl Hsel) as (Hsm & _).
  split; [|split; [exact Hb|exact Hsm]].
  rewrite Heq. fold state s1 keys ext.
  rewrite enterSelect_spec by exact Hlen1. rewrite Hm1, Hm, Hl1, Hb1.
  fold keys ext released.
  set (q := enqueueAll released (set_selectMode true s1)).
  assert (Hq : wfq q /\ contents q = contents s1 ++ released /\
               freeSlots q = freeSlots s1 - Z.of_nat (length released)).
  { destruct (enqueueAll_room released (set_selectMode true s1) Hw1)
      as (Q1 & Q2 & Q3); [change (freeSlots (set_selectMode true s1))
                            with (freeSlots s1); lia|].
    split; [exact Q1|]. split; [exact Q3|].
    unfold q, freeSlots. rewrite Q2.
    change (resident (set_selectMode true s1)) with (resident s1). lia. }
  destruct Hq as (Q1 & Q2 & Q3).
  assert (Hsq : swapAB q = swapAB s).
  { destruct (enqueueAll_frame released (set_selectMode true s1)) as [_ Hc].
    apply config_fields in Hc. destruct Hc as (_ & Hc & _).
    fold q in Hc. rewrite Hc. exact Hs1. }
  clearbody q.
  unfold normalOperation, seqc.
  destruct (set_lastNesState_fields
              state
              (edgeDetect keys ext state
                          (set_buttonState (replicate BUTTON_COUNT false) q)))
    as (R & _).
  rewrite (contents_ring _ _ R).
  rewrite edgeDetect_spec.
  - change (swapAB (set_buttonState ?v ?u)) with (swapAB u).
    change (buttonState (set_buttonState ?v ?u)) with v.
    rewrite Hsq. fold pressed.
    rewrite enqueueAll_set_buttonState.
    change (contents (set_buttonState ?v ?u)) with (contents u).
    change (contents (set_buttonState ?v ?u)) with (contents u).
    destruct (enqueueAll_room pressed q Q1) as (_ & _ & P3);
      [rewrite Q3; rewrite Nat2Z.inj_add in Hroom; lia|].
    rewrite P3, Q2, <- app_assoc. reflexivity.
  - exact Q1.
  - reflexivity.
  - change (swapAB (set_buttonState ?v ?u)) with (swapAB u).
    change (buttonState (set_buttonState ?v ?u)) with v.
    change (freeSlots (set_buttonState ?v ?u)) with (freeSlots u).
    rewrite Hsq. fold pressed. rewrite Q3.
    rewrite Nat2Z.inj_add in Hroom. lia.
Qed.

Lemma X14_select_press_releases_and_represses_witness :
  wfq stateAHeld /\
  contents stateAHeld = [PS2_0] /\
  contents (loop inputsSelectA stateAHeld) =
  [PS2_0; 0xF0; PS2_0; PS2_0; PS2_ESC].
Proof.
  assert (Hw : wfq stateAHeld)
    by (unfold wfq; vm_compute; repeat split; discriminate).
  split; [exact Hw|]. split; [reflexivity|].
  refine (proj1 (X14_select_press_releases_and_represses
                   inputsSelectA stateAHeld Hw eq_refl eq_refl eq_refl
                   eq_refl eq_refl eq_refl _)).
  vm_compute. discriminate.
Defined.

Lemma single_button_bytes (l : Z) (swap : bool) (i : nat) :
  0 <= l < 4 -> (i < 8)%nat ->
  edge_bytes (keysOf l) (extOf l) (pressedList swap (Z.clearbit 0xFF (Z.of_nat i)))
             (replicate BUTTON_COUNT false) =
  make_bytes (keysOf l !!! logicalSlot swap i) (extOf l !!! logicalSlot swap i) /\
  edge_bytes (keysOf l) (extOf l) (pressedList swap 0xFF)
             (pressedList swap (Z.clearbit 0xFF (Z.of_nat i))) =
  break_bytes (keysOf l !!! logicalSlot swap i) (extOf l !!! logicalSlot swap i).
Proof.
  intros Hl Hi. assert (Hc : l = 0 \/ l = 1 \/ l = 2 \/ l = 3) by lia.
  destruct Hc as [-> | [-> | [-> | ->]]]; destruct swap;
    (do 8 (destruct i as [|i]; [split; vm_compute; reflexivity|]); lia).
Qed.

Lemma make_bytes_length (code : Z) (ext : bool) :
  (length (make_bytes code ext) <= 8)%nat.
Proof.
  unfold make_bytes. destruct (_ =? _); [simpl; lia|].
  destruct (_ =? _); [simpl; lia|]. destruct ext; simpl; lia.
Qed.

Lemma break_bytes_length (code : Z) (ext : bool) :
  (length (break_bytes code ext) <= 3)%nat.
Proof.
  unfold break_bytes. destruct (_ =? _); [simpl; lia|].
  destruct (_ =? _); [simpl; lia|]. destruct ext; simpl; lia.
Qed.

(** X15: for every layout, either value of swapAB and every button but
    Select, pressing the button alone from an all-released state queues
    the press encoding of the key its logical slot has in the layout (A
    and B exchanged under swapAB), and releasing it in the next cycle
    queues that key's release encoding (for the pause key: eight bytes,
    then nothing), leaving every button state false. *)
Theorem X15_single_button_press_release (inp1 inp2 : Inputs) (s : State) (i : nat) :
  let j := logicalSlot (swapAB s) i in
  let code := keysOf (layout s) !!! j in
  let ext := extOf (layout s) !!! j in
  wfq s ->
  0 <= layout s < 4 ->
  buttonState s = replicate BUTTON_COUNT false ->
  11 <= freeSlots s ->
  (i < 8)%nat -> i <> 2%nat ->
  readNES (nes_data inp1) = Z.clearbit 0xFF (Z.of_nat i) ->
  readNES (nes_data inp2) = 0xFF ->
  contents (loop inp1 s) =
  contents (processQueue (micros1 inp1) (micros2 inp1) s) ++ make_bytes code ext /\
  contents (loop inp2 (loop inp1 s)) =
  contents (processQueue (micros1 inp2) (micros2 inp2) (loop inp1 s))
  ++ break_bytes code ext /\
  buttonState (loop inp2 (loop inp1 s)) = replicate BUTTON_COUNT false.
Proof.
  intros j code ext Hw Hl Hb Hfree Hi Hi2 Hin1 Hin2.
  destruct (single_button_bytes (layout s) (swapAB s) i Hl Hi) as [Em Eb].
  fold j code ext in Em, Eb.
  pose proof (make_bytes_length code ext) as Lm.
  pose proof (break_bytes_length code ext) as Lb.
  assert (Hsel1 : lnot (Z.land (Z.clearbit 0xFF (Z.of_nat i)) (Z.shiftl 1 2)) = false).
  { do 8 (destruct i as [|i]; [try reflexivity; congruence|]). lia. }
  pose proof (loop_select_released_spec inp1 s) as H1.
  cbv zeta in H1. rewrite Hin1, Hb, Em in H1.
  destruct H1 as (Hw1 & Hc1 & Hf1 & Hb1 & Hl1 & Hsw1);
    [exact Hw|reflexivity|exact Hsel1|lia|].
  pose proof (processQueue_free (micros1 inp1) (micros2 inp1) s Hw) as Hpf.
  split; [exact Hc1|].
  pose proof (loop_select_released_spec inp2 (loop inp1 s)) as H2.
  cbv zeta in H2. rewrite Hin2, Hl1, Hsw1, Hb1, Eb in H2.
  destruct H2 as (_ & Hc2 & _ & Hb2 & _);
    [exact Hw1|apply pressedList_length|reflexivity|lia|].
  split; [exact Hc2|]. rewrite Hb2. destruct (swapAB s); reflexivity.
Qed.

Lemma X15_single_button_press_release_witness :
  wfq stateEmpty /\
  contents (loop inputsStart stateEmpty) = PAUSE_SEQ /\
  contents (loop inputsNone (loop inputsStart stateEmpty)) = PAUSE_SEQ /\
  buttonState (loop inputsNone (loop inputsStart stateEmpty)) =
  replicate BUTTON_COUNT false.
Proof.
  assert (Hw : wfq stateEmpty) by wfq_concrete.
  assert (Hl : 0 <= layout stateEmpty < 4) by (cbn; lia).
  assert (Hf : 11 <= freeSlots stateEmpty) by (vm_compute; discriminate).
  assert (Hi : (3 < 8)%nat) by lia.
  assert (Hi2 : 3%nat <> 2%nat) by lia.
  split; [exact Hw|].
  exact (X15_single_button_press_release
           inputsStart inputsNone stateEmpty 3 Hw Hl eq_refl Hf Hi Hi2
           eq_refl eq_refl).
Defined.

(** X16: in layouts 0, 1 and 2 button B has the key code of Up.  With B
    and Up both down, releasing B alone queues the release of that key
    although Up is still held (and still recorded as down). *)
Theorem X16_releasing_B_releases_Up_key (inp : Inputs) (s : State) :
  wfq s ->
  0 <= layout s <= 2 ->
  swapAB s = false ->
  buttonState s = pressedList false 0xED ->
  2 <= freeSlots s ->
  readNES (nes_data inp) = 0xEF ->
  keysOf (layout s) !!! 1%nat = keysOf (layout s) !!! 4%nat /\
  contents (loop inp s) =
  contents (processQueue (micros1 inp) (micros2 inp) s)
  ++ [0xF0; keysOf (layout s) !!! 4%nat] /\
  buttonState (loop inp s) !!! 4%nat = true.
Proof.
  intros Hw Hl Hsw Hb Hfree Hin.
  assert (Hc : layout s = 0 \/ layout s = 1 \/ layout s = 2) by lia.
  assert (Hk : keysOf (layout s) !!! 1%nat = keysOf (layout s) !!! 4%nat /\
               edge_bytes (keysOf (layout s)) (extOf (layout s))
                          (pressedList false 0xEF) (pressedList false 0xED) =
               [0xF0; keysOf (layout s) !!! 4%nat]).
  { destruct Hc as [-> | [-> | ->]]; split; reflexivity. }
  destruct Hk as [Hk Eb]. split; [exact Hk|].
  pose proof (loop_select_released_spec inp s) as H.
  cbv zeta in H. rewrite Hin, Hsw, Hb, Eb in H.
  destruct H as (_ & Hc1 & _ & Hb1 & _);
    [exact Hw|reflexivity|reflexivity|simpl; lia|].
  split; [exact Hc1|]. rewrite Hb1. reflexivity.
Qed.

Lemma X16_releasing_B_releases_Up_key_witness :
  wfq stateBUp /\
  contents stateBUp = [PS2_9; PS2_9] /\
  contents (loop inputsUp stateBUp) = [PS2_9; PS2_9; 0xF0; PS2_9] /\
  buttonState (loop inputsUp stateBUp) !!! 4%nat = true.
Proof.
  assert (Hw : wfq stateBUp)
    by (unfold wfq; vm_compute; repeat split; discriminate).
  assert (Hl : 0 <= layout stateBUp <= 2) by (vm_compute; split; discriminate).
  assert (Hf : 2 <= freeSlots stateBUp) by (vm_compute; discriminate).
  split; [exact Hw|]. split; [reflexivity|].
  exact (proj2 (X16_releasing_B_releases_Up_key
                  inputsUp stateBUp Hw Hl eq_refl eq_refl Hf eq_refl)).
Defined.

(** ** Key names *)

(** getKeyName as a lookup in [keyNames] *)
Lemma getKeyName_table (c : Z) :
  getKeyName c =
  match find (fun p => fst p =? c) keyNames with
  | Some p => snd p
  | None => "UNK"%string
  end.
Proof.
  unfold getKeyName, keyNames. cbn [find fst snd].
  repeat match goal with
         | |- context [?k =? c] => rewrite (Z.eqb_sym k c)
         end.
  repeat (destruct (c =? _); [reflexivity|]). reflexivity.
Qed.

Lemma find_key_in (c : Z) (p : Z * String.string) (tbl : list (Z * String.string)) :
  find (fun q => fst q =? c) tbl = Some p -> fst p = c /\ In p tbl.
Proof.
  intros H. apply find_some in H. destruct H as [Hin He].
  apply Z.eqb_eq in He. auto.
Qed.

Lemma keyNames_functional (p q : Z * String.string) :
  In p keyNames -> In q keyNames -> snd p = snd q -> fst p = fst q.
Proof.
  unfold keyNames. intros Hp Hq.
  repeat (destruct Hp as [<-|Hp]);
    try contradiction;
    repeat (destruct Hq as [<-|Hq]);
    try contradiction; cbn [fst snd]; intros E;
    first [reflexivity | discriminate E].
Qed.

(** X17: [getKeyName] gives different names to different key codes,
    "UNK" apart, and names every key code of the four layouts: none of
    them shows as "UNK" or "NONE". *)
Theorem X17_getKeyName_names (c1 c2 : Z) (l b : nat) :
  (l < 4)%nat -> (b < 8)%nat ->
  (getKeyName c1 = getKeyName c2 -> getKeyName c1 <> "UNK"%string -> c1 = c2) /\
  getKeyName ((layouts !!! l) !!! b) <> "UNK"%string /\
  getKeyName ((layouts !!! l) !!! b) <> "NONE"%string.
Proof.
  intros Hl Hb. split.
  - rewrite !getKeyName_table.
    destruct (find _ keyNames) as [p|] eqn:E1; [|congruence].
    destruct (find (fun p => fst p =? c2) keyNames) as [q|] eqn:E2.
    + apply find_key_in in E1. apply find_key_in in E2.
      destruct E1 as [<- I1], E2 as [<- I2].
      intros E _. apply keyNames_functional; assumption.
    + intros E Hne. congruence.
  - do 4 (destruct l as [|l];
          [do 8 (destruct b as [|b]; [split; discriminate|]); lia|]).
    lia.
Qed.

Lemma X17_getKeyName_names_witness :
  (3 < 4)%nat /\ (4 < 8)%nat /\
  getKeyName ((layouts !!! 3%nat) !!! 4%nat) <> "UNK"%string /\
  getKeyName PS2_EXT_UP = "UP"%string.
Proof.
  assert (Hl : (3 < 4)%nat) by lia.
  assert (Hb : (4 < 8)%nat) by lia.
  split; [exact Hl|]. split; [exact Hb|]. split; [|reflexivity].
  exact (proj1 (proj2 (X17_getKeyName_names 0 0 3 4 Hl Hb))).
Defined.
